(** * Agent controller and e-mail service of the support-ticket backend

    A shallow embedding of [src/controllers/website/agentController.js] and of
    the parts of [src/utils/emailService.js] it relies on, with the properties
    of the handlers proved over that embedding.

    Conventions of the embedding:
    - A JavaScript string is the [string] of the bytes of its UTF-8
      encoding; the letters of [toLowerCase] are the ASCII ones.
    - JavaScript numbers that count documents and pages are exact integers
      ([Z]); they are the numbers the code computes as long as these stay
      safe integers (at most [Js.MAX_SAFE_INTEGER] in absolute value), which
      the theorems on pages assume.
    - The [User] collection is a finite map from [_id] to document. The
      [id] parameter of a route is any string: an [HttpRequest] carries it as
      the cast to [ObjectId] sees it, and a [Request] is an [HttpRequest]
      whose [id] is the hex form of an [ObjectId].
    - An [async] handler is a computation over an explicit [World] that may
      throw; what an external service does (database, mail provider, push
      service, activity log) is decided by a fault oracle, so every theorem
      about a handler covers every way its collaborators can fail. *)

From Stdlib Require Import ZArith Ascii String List Sorting.Sorted Permutation.
From stdpp Require Import gmap strings sorting.

Set Warnings "-register-all".

Open Scope string_scope.
Open Scope Z_scope.

(** ** JavaScript string primitives *)

Module Js.

(** White space removed by [String.prototype.trim] and skipped by
    [parseInt]: TAB, LF, VT, FF, CR, SPACE, U+00A0, U+1680, U+2000 to U+200A,
    U+2028, U+2029, U+202F, U+205F, U+3000 and U+FEFF. In UTF-8 the first six
    take one byte, U+00A0 takes two ([C2 A0]) and the others three. *)
Definition is_ws (c : ascii) : bool :=
  let n := nat_of_ascii c in
  ((9 <=? n)%nat && (n <=? 13)%nat) || (n =? 32)%nat.

Definition is_ws2 (a b : ascii) : bool :=
  (nat_of_ascii a =? 194)%nat && (nat_of_ascii b =? 160)%nat.

Definition is_ws3 (a b c : ascii) : bool :=
  let x := nat_of_ascii a in
  let y := nat_of_ascii b in
  let z := nat_of_ascii c in
  ((x =? 225) && (y =? 154) && (z =? 128)
   || (x =? 226) && (y =? 128)
      && ((128 <=? z) && (z <=? 138) || (z =? 168) || (z =? 169) || (z =? 175))
   || (x =? 226) && (y =? 129) && (z =? 159)
   || (x =? 227) && (y =? 128) && (z =? 128)
   || (x =? 239) && (y =? 187) && (z =? 191))%nat.

(** The number of bytes of the white-space character a string starts with;
    0 when it starts with none. *)
Definition ws_width (s : string) : nat :=
  match s with
  | String a r =>
      if is_ws a then 1%nat
      else match r with
           | String b r' =>
               if is_ws2 a b then 2%nat
               else match r' with
                    | String c _ => if is_ws3 a b c then 3%nat else 0%nat
                    | EmptyString => 0%nat
                    end
           | EmptyString => 0%nat
           end
  | EmptyString => 0%nat
  end.

Definition is_space (c : ascii) : bool := (nat_of_ascii c =? 32)%nat.

(** [\d] of a regular expression. *)
Definition is_digit (c : ascii) : bool :=
  let n := nat_of_ascii c in (48 <=? n)%nat && (n <=? 57)%nat.

Definition is_empty (s : string) : bool :=
  match s with EmptyString => true | String _ _ => false end.

(** Truthiness of a string: every string but the empty one. *)
Definition truthy (s : string) : bool := negb (is_empty s).

(** Truthiness of a possibly [undefined] string. *)
Definition truthy_opt (o : option string) : bool :=
  match o with Some s => truthy s | None => false end.

(** [a || b] on strings. *)
Definition or_else (a b : string) : string := if truthy a then a else b.

Fixpoint trimStart (s : string) : string :=
  match s with
  | EmptyString => EmptyString
  | String a r =>
      if is_ws a then trimStart r
      else match r with
           | String b r' =>
               if is_ws2 a b then trimStart r'
               else match r' with
                    | String c r'' => if is_ws3 a b c then trimStart r'' else s
                    | EmptyString => s
                    end
           | EmptyString => s
           end
  end.

(** [trimEnd] removes the longest end of the string that is white space
    only. *)
Fixpoint trimEnd (s : string) : string :=
  match s with
  | EmptyString => EmptyString
  | String c s' =>
      if is_empty (trimStart s) then EmptyString else String c (trimEnd s')
  end.

Definition trim (s : string) : string := trimEnd (trimStart s).

(** [s.split(' ')]: the pieces between single spaces; never empty. *)
Fixpoint split_space (s : string) : list string :=
  match s with
  | EmptyString => [EmptyString]
  | String c s' =>
      if is_space c then EmptyString :: split_space s'
      else match split_space s' with
           | [] => [String c EmptyString]
           | w :: ws => String c w :: ws
           end
  end.

(** [l.join(sep)]. *)
Fixpoint join (sep : string) (l : list string) : string :=
  match l with
  | [] => EmptyString
  | [x] => x
  | x :: l' => x +:+ sep +:+ join sep l'
  end.

(** [s.replace(/\D/g, '')]: the decimal digits of [s], in order. *)
Fixpoint digits_only (s : string) : string :=
  match s with
  | EmptyString => EmptyString
  | String c s' =>
      if is_digit c then String c (digits_only s') else digits_only s'
  end.

Definition lower_ascii (c : ascii) : ascii :=
  let n := nat_of_ascii c in
  if (65 <=? n)%nat && (n <=? 90)%nat then ascii_of_nat (n + 32) else c.

Definition upper_ascii (c : ascii) : ascii :=
  let n := nat_of_ascii c in
  if (97 <=? n)%nat && (n <=? 122)%nat then ascii_of_nat (n - 32) else c.

Fixpoint map_string (f : ascii -> ascii) (s : string) : string :=
  match s with
  | EmptyString => EmptyString
  | String c s' => String (f c) (map_string f s')
  end.

Definition toLowerCase : string -> string := map_string lower_ascii.
Definition toUpperCase : string -> string := map_string upper_ascii.

(** The double-quote character, for messages that quote a name. *)
Definition dq : string := String (ascii_of_nat 34) EmptyString.

(** *** [parseInt(s)] with no radix

    Leading white space is skipped, then an optional sign, then either a
    [0x]/[0X] prefix followed by hexadecimal digits or decimal digits; the
    number ends at the first character that is not a digit. [None] is
    [NaN]. The result is the integer read, which is the number JavaScript
    returns as long as it is at most [MAX_SAFE_INTEGER] in absolute value. *)

Definition dec_digit (c : ascii) : option Z :=
  if is_digit c then Some (Z.of_nat (nat_of_ascii c) - 48) else None.

Definition hex_digit (c : ascii) : option Z :=
  let n := nat_of_ascii c in
  if is_digit c then Some (Z.of_nat n - 48)
  else if (97 <=? n)%nat && (n <=? 102)%nat then Some (Z.of_nat n - 87)
  else if (65 <=? n)%nat && (n <=? 70)%nat then Some (Z.of_nat n - 55)
  else None.

(** Reads the longest prefix of digits; [acc] is [None] until a digit has
    been read. *)
Fixpoint read_digits (digit : ascii -> option Z) (radix : Z)
         (acc : option Z) (s : string) : option Z :=
  match s with
  | EmptyString => acc
  | String c s' =>
      match digit c with
      | Some d =>
          read_digits digit radix
            (Some (radix * (match acc with Some a => a | None => 0 end) + d)) s'
      | None => acc
      end
  end.

Definition read_unsigned (s : string) : option Z :=
  match s with
  | String "0" (String "x" s') | String "0" (String "X" s') =>
      read_digits hex_digit 16 None s'
  | _ => read_digits dec_digit 10 None s
  end.

Definition parseInt_string (s : string) : option Z :=
  match trimStart s with
  | String "-" s' => Z.opp <$> read_unsigned s'
  | String "+" s' => read_unsigned s'
  | s' => read_unsigned s'
  end.

(** [parseInt] of a query parameter, which is a string or [undefined]. *)
Definition parseInt (o : option string) : option Z :=
  match o with Some s => parseInt_string s | None => None end.

(** [n || d] on numbers: [NaN] and [0] are falsy. *)
Definition num_or (n : option Z) (d : Z) : Z :=
  match n with
  | Some v => if v =? 0 then d else v
  | None => d
  end.

(** [Math.ceil(a / b)] for integers [a], [b] with [b] not zero. *)
Definition ceil_div (a b : Z) : Z := - ((- a) / b).

(** [Number.MAX_SAFE_INTEGER]. The integers up to it, in absolute value,
    are JavaScript numbers, and sums, differences and products that stay in
    this range are exact; beyond it JavaScript rounds, which [Z] does not. *)
Definition MAX_SAFE_INTEGER : Z := 2 ^ 53 - 1.

End Js.

(** ** Documents and values *)

(** A MongoDB [ObjectId]. *)
Abbreviation ObjectId := nat (only parsing).

(** A thrown JavaScript [Error]. *)
Record Thrown := Error { message : string }.

(** The [id] parameter of a route, as Mongoose's cast to [ObjectId] sees
    it: the hex form of an id, or a string that is none. *)
Inductive RouteParam :=
| IdParam (i : ObjectId)
| NotAnId (raw : string).

(** The error Mongoose throws when the [_id] of a query cannot be cast. *)
Definition CastError (raw : string) : Thrown :=
  Error ("Cast to ObjectId failed for value " +:+ Js.dq +:+ raw +:+ Js.dq
           +:+ " (type string) at path " +:+ Js.dq +:+ "_id" +:+ Js.dq
           +:+ " for model " +:+ Js.dq +:+ "User" +:+ Js.dq).

(** A document of the [User] collection, without its [_id], which is its key
    in the collection. [isActive] and [isDeleted] may be [undefined]. *)
Record User := mkUser {
  name : string;
  email : string;
  password : string;
  role : string;
  phone : string;
  categoryIds : list ObjectId;
  status : string;
  isActive : option bool;
  isDeleted : option bool;
  deletedAt : option Z;
  createdAt : Z
}.

Record Category := mkCategory { cat_name : string }.

(** Assignments to the fields of a document. *)
Definition set_name (v : string) (u : User) : User :=
  mkUser v (email u) (password u) (role u) (phone u) (categoryIds u)
         (status u) (isActive u) (isDeleted u) (deletedAt u) (createdAt u).

Definition set_email (v : string) (u : User) : User :=
  mkUser (name u) v (password u) (role u) (phone u) (categoryIds u)
         (status u) (isActive u) (isDeleted u) (deletedAt u) (createdAt u).

Definition set_password (v : string) (u : User) : User :=
  mkUser (name u) (email u) v (role u) (phone u) (categoryIds u)
         (status u) (isActive u) (isDeleted u) (deletedAt u) (createdAt u).

Definition set_phone (v : string) (u : User) : User :=
  mkUser (name u) (email u) (password u) (role u) v (categoryIds u)
         (status u) (isActive u) (isDeleted u) (deletedAt u) (createdAt u).

Definition set_categoryIds (v : list ObjectId) (u : User) : User :=
  mkUser (name u) (email u) (password u) (role u) (phone u) v
         (status u) (isActive u) (isDeleted u) (deletedAt u) (createdAt u).

Definition set_isActive (v : option bool) (u : User) : User :=
  mkUser (name u) (email u) (password u) (role u) (phone u) (categoryIds u)
         (status u) v (isDeleted u) (deletedAt u) (createdAt u).

Definition set_isDeleted (v : option bool) (u : User) : User :=
  mkUser (name u) (email u) (password u) (role u) (phone u) (categoryIds u)
         (status u) (isActive u) v (deletedAt u) (createdAt u).

Definition set_deletedAt (v : option Z) (u : User) : User :=
  mkUser (name u) (email u) (password u) (role u) (phone u) (categoryIds u)
         (status u) (isActive u) (isDeleted u) v (createdAt u).

(** Modelled from the spec: [models/User.js] is not part of the sources. The
    controller's comments say that its pre-save hook hashes the password and
    adds the country code to a ten-digit phone; both are left open here, as
    are the defaults the schema gives to the fields [createAgent] does not
    set. *)
Record UserModel := mkUserModel {
  hashPassword : string -> string;
  normalizePhone : string -> string;
  default_isActive : option bool;
  default_isDeleted : option bool
}.

(** What [res.json] serialises. *)
Inductive Json :=
| JNull
| JBool (b : bool)
| JNum (n : Z)
| JStr (s : string)
| JId (i : ObjectId)
| JDate (t : Z)
| JArr (l : list Json)
| JObj (fields : list (string * Json)).

(** One call of [res.status(code).json(body)]. *)
Record Response := mkResponse { code : Z; payload : Json }.

(** [obj.key], for an object literal. *)
Fixpoint assoc (k : string) (l : list (string * Json)) : option Json :=
  match l with
  | [] => None
  | (k', v) :: l' => if String.eqb k k' then Some v else assoc k l'
  end.

Definition field (k : string) (j : Json) : option Json :=
  match j with JObj l => assoc k l | _ => None end.

(** The [message] of a response body. *)
Definition message_of (r : Response) : option Json := field "message" (payload r).

(** The request body of [createAgent] and [updateAgent]. [firstName],
    [lastName] and [email] are strings; the other fields may be absent. *)
Module Body.
Record t := mk {
  firstName : string;
  lastName : string;
  email : string;
  phone : option string;
  password : option string;
  categoryId : option (list ObjectId)
}.
End Body.

(** The parts of an Express request the handlers read; [params] is
    [req.params.id]. *)
Record HttpRequest := mkHttpRequest {
  body : Body.t;
  params : RouteParam;
  query_page : option string;
  query_limit : option string;
  query_search : option string;
  user_id : option ObjectId
}.

(** A request whose [id] parameter is the hex form of the [ObjectId]
    [params_id]. *)
Record Request := mkRequest {
  req_body : Body.t;
  params_id : ObjectId;
  req_page : option string;
  req_limit : option string;
  req_search : option string;
  req_user : option ObjectId
}.

Definition http (req : Request) : HttpRequest :=
  mkHttpRequest (req_body req) (IdParam (params_id req)) (req_page req)
                (req_limit req) (req_search req) (req_user req).

Coercion http : Request >-> HttpRequest.

(** [process.env]. *)
Record Env := mkEnv {
  BREVO_API_KEY : option string;
  BREVO_API_EMEAIL : option string;
  APP_URL : option string
}.

(** The message handed to the mail provider. *)
Record SendSmtpEmail := mkSendSmtpEmail {
  sender_name : string;
  sender_email : option string;
  to : list string;
  subject : string;
  htmlContent : string;
  textContent : option string;
  replyTo : option string
}.

Record PushMessage := mkPush {
  push_title : string;
  push_body : string;
  push_type : string;
  push_agentId : ObjectId;
  push_userIds : list ObjectId
}.

Record Activity := mkActivity {
  act_userId : option ObjectId;
  act_message : string;
  act_status : string
}.

Record NotificationDoc := mkNotification {
  n_title : string;
  n_message : string;
  n_type : string;
  n_category : string;
  n_userId : option ObjectId;
  n_agentId : ObjectId;
  n_agentName : string;
  n_action : string
}.

(** ** The world a handler runs in *)

Record World := mkWorld {
  users : gmap nat User;
  categories : gmap nat Category;
  notifications : list NotificationDoc;
  activityLog : list Activity;
  pushed : list PushMessage;
  outbox : list SendSmtpEmail;
  apiKeyAuth : option string;
  responses : list Response;
  now : Z
}.

Definition set_users (f : gmap nat User -> gmap nat User) (w : World) : World :=
  mkWorld (f (users w)) (categories w) (notifications w) (activityLog w)
          (pushed w) (outbox w) (apiKeyAuth w) (responses w) (now w).

Definition add_notification (n : NotificationDoc) (w : World) : World :=
  mkWorld (users w) (categories w) (notifications w ++ [n]) (activityLog w)
          (pushed w) (outbox w) (apiKeyAuth w) (responses w) (now w).

Definition add_activity (a : Activity) (w : World) : World :=
  mkWorld (users w) (categories w) (notifications w) (activityLog w ++ [a])
          (pushed w) (outbox w) (apiKeyAuth w) (responses w) (now w).

Definition add_push (p : PushMessage) (w : World) : World :=
  mkWorld (users w) (categories w) (notifications w) (activityLog w)
          (pushed w ++ [p]) (outbox w) (apiKeyAuth w) (responses w) (now w).

Definition add_mail (m : SendSmtpEmail) (w : World) : World :=
  mkWorld (users w) (categories w) (notifications w) (activityLog w)
          (pushed w) (outbox w ++ [m]) (apiKeyAuth w) (responses w) (now w).

Definition set_apiKeyAuth (k : option string) (w : World) : World :=
  mkWorld (users w) (categories w) (notifications w) (activityLog w)
          (pushed w) (outbox w) k (responses w) (now w).

Definition add_response (r : Response) (w : World) : World :=
  mkWorld (users w) (categories w) (notifications w) (activityLog w)
          (pushed w) (outbox w) (apiKeyAuth w) (responses w ++ [r]) (now w).

(** ** Computations that may throw *)

Definition M (A : Type) : Type := World -> (Thrown + A) * World.

#[global] Instance M_ret : MRet M := fun A a w => (inr a, w).

#[global] Instance M_bind : MBind M := fun A B f m w =>
  match m w with
  | (inr a, w') => f a w'
  | (inl e, w') => (inl e, w')
  end.

Definition throw {A} (e : Thrown) : M A := fun w => (inl e, w).

(** [try { body } catch (error) { handler error }]. *)
Definition tryCatch {A} (body : M A) (handler : Thrown -> M A) : M A := fun w =>
  match body w with
  | (inr a, w') => (inr a, w')
  | (inl e, w') => handler e w'
  end.

Definition gets {A} (f : World -> A) : M A := fun w => (inr (f w), w).
Definition modify (f : World -> World) : M unit := fun w => (inr tt, f w).

(** [res.status(code).json(body)]; [res.json(body)] is the case [code = 200]. *)
Definition res_status_json (c : Z) (j : Json) : M unit :=
  modify (add_response (mkResponse c j)).

Definition res_json (j : Json) : M unit := res_status_json 200 j.

(** ** External services

    Every call that leaves the process is a [Site]; the oracle [faults] says
    which of them reject, and with what error. *)

Inductive Site :=
| UserFindOne_email
| UserFindOne_phone
| UserFindOne_agent
| UserFindById
| UserCreate
| UserSave
| UserCountDocuments
| UserFind
| CategoryFind
| NotificationCreate
| LogActivity
| SendPushNotification
| SendTransacEmail.

(** The paths of a [User] a query can name. *)
Inductive Path := P_name | P_email | P_phone.

Definition path_value (p : Path) (u : User) : string :=
  match p with
  | P_name => name u
  | P_email => email u
  | P_phone => phone u
  end.

(** The clauses of the query objects the controller builds; a query is the
    conjunction of its clauses. [OrRegexI] is
    [$or: [{ path: { $regex: pattern, $options: 'i' } }, ...]]. *)
Inductive Cond :=
| IdIs (i : RouteParam)
| RoleIs (r : string)
| IsDeletedIs (b : bool)
| EmailIs (e : string)
| PhoneIs (p : string)
| OrRegexI (clauses : list (Path * string)).

(** The HTML bodies of the e-mails, which are string templates over the
    values shown; their text is not reproduced. *)
Inductive StatusTemplate :=
| TplReopened | TplPending | TplInProgress | TplResolved | TplClosed
| TplFallback (statusUpper : string).

Record Templates := mkTemplates {
  welcomeHtml : string -> string -> string -> string;
  statusHtml : StatusTemplate -> option string -> string -> string -> string -> string
}.

(** Outcome of [sendEmail]. *)
Inductive ErrorValue := ErrMessage (m : string) | ErrObject (e : Thrown).

Inductive EmailResult :=
| Success (data : string)
| Failure (error : ErrorValue).

(** Recipients of [sendEmail]: one address or an array of them. *)
Inductive Recipients := One (address : string) | Many (addresses : list string).

(** [createdAt] descending. *)
Definition newer_first (a b : nat * User) : Prop := createdAt b.2 <= createdAt a.2.

#[global] Instance newer_first_dec : RelDecision newer_first.
Proof. intros a b. unfold newer_first. apply _. Defined.

(** [.skip(s).limit(l)] of the driver: a negative [skip] is rejected, a
    negative [limit] counts as its absolute value (the documents are asked
    for in one batch, which is taken to hold them) and [limit(0)] is no
    limit at all. *)
Definition window {A} (skip limit : Z) (l : list A) : Thrown + list A :=
  if skip <? 0 then inl (Error "Skip value must be non-negative")
  else
    let rest := drop (Z.to_nat skip) l in
    inr (if limit =? 0 then rest else take (Z.to_nat (Z.abs limit)) rest).

Section Backend.

Context (model : UserModel) (env : Env) (faults : Site -> option Thrown).
Context (regex_i : string -> string -> bool).
Context (messageId : SendSmtpEmail -> string).
Context (templates : Templates).
Context (toLocaleDateString toLocaleTimeString toLocaleString : Z -> string).

Definition external {A} (s : Site) (act : M A) : M A :=
  match faults s with
  | Some e => throw e
  | None => act
  end.

Definition cond_matches (c : Cond) (d : nat * User) : bool :=
  match c with
  | IdIs (IdParam i) => bool_decide (d.1 = i)
  | IdIs (NotAnId _) => false
  | RoleIs r => String.eqb (role d.2) r
  | IsDeletedIs b => bool_decide (isDeleted d.2 = Some b)
  | EmailIs e => String.eqb (email d.2) e
  | PhoneIs p => String.eqb (phone d.2) p
  | OrRegexI clauses =>
      existsb (fun cl => regex_i cl.2 (path_value cl.1 d.2)) clauses
  end.

Definition matches (q : list Cond) (d : nat * User) : bool :=
  forallb (fun c => cond_matches c d) q.

(** The documents a query selects, in the collection's natural order. *)
Definition select (q : list Cond) (m : gmap nat User) : list (nat * User) :=
  List.filter (matches q) (map_to_list m).

(** Mongoose casts a query before it sends it: an [_id] that is no
    [ObjectId] makes the query reject with a [CastError]. *)
Fixpoint castError (q : list Cond) : option Thrown :=
  match q with
  | [] => None
  | IdIs (NotAnId raw) :: _ => Some (CastError raw)
  | _ :: q' => castError q'
  end.

Definition User_findOne (s : Site) (q : list Cond) : M (option (nat * User)) :=
  match castError q with
  | Some e => throw e
  | None => external s (gets (fun w => head (select q (users w))))
  end.

Definition User_countDocuments (q : list Cond) : M Z :=
  external UserCountDocuments
    (gets (fun w => Z.of_nat (length (select q (users w))))).

(** [.populate('categoryIds', 'name')]: the categories that exist, with
    their names. *)
Definition populate (cats : gmap nat Category) (ids : list ObjectId)
  : list (ObjectId * string) :=
  omap (fun i => (fun c => (i, cat_name c)) <$> cats !! i) ids.

(** [User.find(q).populate(...).sort({ createdAt: -1 })], followed by
    [.skip(s).limit(l)] when a window is given. Documents created at the
    same time come in the order of the collection; the database promises no
    order for them, so what is proved about several pages of one search
    assumes different creation dates. *)
Definition User_find (q : list Cond) (win : option (Z * Z)) : M (list (nat * User)) :=
  external UserFind (fun w =>
    let sorted := merge_sort newer_first (select q (users w)) in
    match win with
    | None => (inr sorted, w)
    | Some (s, l) =>
        match window s l sorted with
        | inl e => (inl e, w)
        | inr page => (inr page, w)
        end
    end).

(** Modelled from the spec: the pre-save hook of [models/User.js], which is
    not part of the sources. Following the controller's comments it rewrites
    the password and the phone, here on the paths that were modified, and
    nothing else. *)
Definition preSave (passwordModified phoneModified : bool) (u : User) : User :=
  mkUser (name u) (email u)
         (if passwordModified then hashPassword model (password u) else password u)
         (role u)
         (if phoneModified then normalizePhone model (phone u) else phone u)
         (categoryIds u) (status u) (isActive u) (isDeleted u) (deletedAt u)
         (createdAt u).

(** [User.create({ name, email, password, role, phone, categoryIds, status })]:
    the document gets a fresh [_id], the schema's defaults and the current
    time as [createdAt]. *)
Definition User_create (name email password role phone : string)
           (categoryIds : list ObjectId) (status : string) : M (nat * User) :=
  external UserCreate (fun w =>
    let id := fresh (dom (users w)) in
    let u := preSave true true
               (mkUser name email password role phone categoryIds status
                       (default_isActive model) (default_isDeleted model)
                       None (now w)) in
    (inr (id, u), set_users (insert id u) w)).

(** [agent.save()]: runs the hook and writes the document back under its
    [_id]; the in-memory document is the hooked one afterwards. *)
Definition User_save (passwordModified phoneModified : bool) (d : nat * User)
  : M (nat * User) :=
  external UserSave (fun w =>
    let u := preSave passwordModified phoneModified d.2 in
    (inr (d.1, u), set_users (insert d.1 u) w)).

Definition Category_find : M (list (nat * Category)) :=
  external CategoryFind (gets (fun w => map_to_list (categories w))).

Definition Notification_create (n : NotificationDoc) : M unit :=
  external NotificationCreate (modify (add_notification n)).

Definition logActivity (userId : option ObjectId) (message status : string) : M unit :=
  external LogActivity (modify (add_activity (mkActivity userId message status))).

Definition sendPushNotification (p : PushMessage) : M unit :=
  external SendPushNotification (modify (add_push p)).

(** *** emailService.js *)

(** [getBrevoInstance]: throws when the API key is missing or empty,
    otherwise installs it in the SDK's shared client. *)
Definition getBrevoInstance : M unit :=
  let apiKey := BREVO_API_KEY env in
  if negb (Js.truthy_opt apiKey)
  then throw (Error "BREVO_API_KEY is not defined in environment variables")
  else modify (set_apiKeyAuth apiKey).

(** [apiInstance.sendTransacEmail(sendSmtpEmail)]. *)
Definition sendTransacEmail (m : SendSmtpEmail) : M string :=
  external SendTransacEmail (fun w => (inr (messageId m), add_mail m w)).

(** [error.message || error]. *)
Definition error_value (e : Thrown) : ErrorValue :=
  if Js.truthy (message e) then ErrMessage (message e) else ErrObject e.

Definition sendEmail (to : Recipients) (subject htmlContent : string)
           (textContent replyTo : option string) : M EmailResult :=
  tryCatch
    (getBrevoInstance;;
     let sendSmtpEmail :=
       mkSendSmtpEmail "Expand Machinery" (BREVO_API_EMEAIL env)
         (match to with Many l => l | One a => [a] end)
         subject htmlContent
         (if Js.truthy_opt textContent then textContent else None)
         (if Js.truthy_opt replyTo then replyTo else None) in
     result ← sendTransacEmail sendSmtpEmail;
     mret (Success result))
    (fun error => mret (Failure (error_value error))).

Record Ticket := mkTicket {
  t_status : string;
  t_ticketNumber : option string;
  t_id : string;
  t_updatedAt : option Z;
  t_createdAt : Z
}.

Record Customer := mkCustomer {
  c_name : option string;
  c_email : string
}.

(** [ticket.ticketNumber || ticket._id]. *)
Definition ticketNumberOf (t : Ticket) : string :=
  if Js.truthy_opt (t_ticketNumber t)
  then default (t_id t) (t_ticketNumber t)
  else t_id t.

(** The [switch (status)] of [sendTicketUpdateStatusEmail]: subject and
    template of the e-mail. [status] is the lower-cased status, [raw] the
    ticket's own. *)
Definition status_switch (status raw ticketNumber : string) : string * StatusTemplate :=
  if String.eqb status "reopen" || String.eqb status "reopened"
  then ("Ticket Reopened - " +:+ ticketNumber, TplReopened)
  else if String.eqb status "pending"
  then ("Ticket Pending - " +:+ ticketNumber, TplPending)
  else if String.eqb status "in_progress"
  then ("Ticket In Progress - " +:+ ticketNumber, TplInProgress)
  else if String.eqb status "resolved"
  then ("Ticket Resolved - " +:+ ticketNumber, TplResolved)
  else if String.eqb status "closed"
  then ("Ticket Closed - " +:+ ticketNumber, TplClosed)
  else ("Ticket Status Updated - " +:+ ticketNumber,
        TplFallback (Js.toUpperCase raw)).

(** What [sendTicketUpdateStatusEmail] resolves to: the [results] array or
    the failure object of its [catch]. *)
Inductive StatusEmailOutcome :=
| Results (results : list (string * EmailResult))
| StatusEmailFailed (error : string).

Definition sendTicketUpdateStatusEmail (ticket : Ticket) (customer : Customer)
  : M StatusEmailOutcome :=
  tryCatch
    (let status := Js.toLowerCase (t_status ticket) in
     let customerName :=
       if Js.truthy_opt (c_name customer)
       then default "Customer" (c_name customer) else "Customer" in
     let ticketNumber := ticketNumberOf ticket in
     let updatedDate :=
       toLocaleString (default (t_createdAt ticket) (t_updatedAt ticket)) in
     let '(subject, template) :=
       status_switch status (t_status ticket) ticketNumber in
     let customerEmailHtml :=
       statusHtml templates template (APP_URL env) customerName ticketNumber
                  updatedDate in
     customerResult ← sendEmail (One (c_email customer)) subject
                                customerEmailHtml None None;
     mret (Results [("customer", customerResult)]))
    (fun error => mret (StatusEmailFailed (message error))).

(** *** agentController.js *)

(** [nameParts[0] || ''] and [nameParts.slice(1).join(' ') || ''] for
    [nameParts = name.split(' ')]. *)
Definition firstNameOf (name : string) : string :=
  Js.or_else (hd "" (Js.split_space name)) "".

Definition lastNameOf (name : string) : string :=
  Js.or_else (Js.join " " (tl (Js.split_space name))) "".

Definition json_ids (ids : list ObjectId) : Json := JArr (map JId ids).

Definition json_populated (cats : list (ObjectId * string)) : Json :=
  JArr (map (fun c => JObj [("_id", JId c.1); ("name", JStr c.2)]) cats).

(** [x !== undefined ? x : true]. *)
Definition defined_or_true (o : option bool) : bool := default true o.

(** Truthiness of a possibly [undefined] boolean. *)
Definition truthy_bool (o : option bool) : bool := default false o.

Definition server_error : Json :=
  JObj [("success", JBool false); ("message", JStr "Server error")].

Definition server_error_of (error : Thrown) : Json :=
  JObj [("success", JBool false);
        ("message", JStr (Js.or_else (message error) "Server error"))].

Definition agent_not_found : Json :=
  JObj [("success", JBool false); ("message", JStr "Agent not found")].

(** The phone [createAgent] looks up: the digits with [+1] in front when
    there are exactly ten of them, the raw input otherwise. *)
Definition normalizedPhone (phone : string) : string :=
  let phoneDigits := Js.digits_only phone in
  if (String.length phoneDigits =? 10)%nat then "+1" +:+ phoneDigits else phone.

Definition createAgent (req : HttpRequest) : M unit :=
  tryCatch
    (let firstName := Body.firstName (body req) in
     let lastName := Body.lastName (body req) in
     let email_ := Body.email (body req) in
     let phone := Body.phone (body req) in
     let password := Body.password (body req) in
     let categoryId := Body.categoryId (body req) in
     let name_ := Js.trim (firstName +:+ " " +:+ lastName) in
     existingEmail ← User_findOne UserFindOne_email [EmailIs email_];
     if existingEmail is Some _ then
       res_status_json 400
         (JObj [("message", JStr "User with this email already exists")])
     else
       existingPhone ←
         (if Js.truthy_opt phone
          then User_findOne UserFindOne_phone
                 [PhoneIs (normalizedPhone (default "" phone))]
          else mret None);
       if existingPhone is Some _ then
         res_status_json 400
           (JObj [("message", JStr "User with this phone number already exists")])
       else if negb (Js.truthy_opt password) then
         res_status_json 400 (JObj [("message", JStr "Password is required")])
       else
         agent ← User_create name_ email_ (default "" password) "agent"
                   (if Js.truthy_opt phone
                    then Js.digits_only (default "" phone) else "")
                   (default [] categoryId) "offline";
         logActivity None
           ("Agent " +:+ Js.dq +:+ name_ +:+ Js.dq +:+ " has been added") "added";;
         tryCatch
           (let emailHtml :=
              welcomeHtml templates firstName email_ (default "" password) in
            _ ← sendEmail (One email_)
                  "Welcome to Expand Machinery - Agent Account Created"
                  emailHtml None None;
            mret tt)
           (fun emailError => mret tt);;
         tryCatch
           (sendPushNotification
              (mkPush "Welcome to the Team!"
                 ("Your agent account has been created. Welcome aboard, "
                    +:+ firstName +:+ "!")
                 "agent_account_created" agent.1 [agent.1]))
           (fun pushError => mret tt);;
         res_status_json 201
           (JObj [("success", JBool true);
                  ("message", JStr "Agent created successfully");
                  ("data", JObj [("_id", JId agent.1);
                                 ("firstName", JStr firstName);
                                 ("lastName", JStr lastName);
                                 ("name", JStr (name agent.2));
                                 ("email", JStr (email agent.2));
                                 ("phone", JStr (default "" phone));
                                 ("role", JStr (role agent.2));
                                 ("categoryIds", json_ids (categoryIds agent.2));
                                 ("status", JStr (Js.or_else (status agent.2) "offline"));
                                 ("createdAt", JDate (createdAt agent.2))])]))
    (fun error => res_status_json 500 (server_error_of error)).

(** One agent of the list, as [getAgentsList] and [getAgent] show it. *)
Definition agent_json (a : nat * User) (cats : list (ObjectId * string)) : Json :=
  JObj [("_id", JId a.1);
        ("firstName", JStr (firstNameOf (name a.2)));
        ("lastName", JStr (lastNameOf (name a.2)));
        ("name", JStr (name a.2));
        ("email", JStr (email a.2));
        ("phone", JStr (Js.or_else (phone a.2) ""));
        ("role", JStr (role a.2));
        ("categoryIds", json_populated cats);
        ("status", JStr (Js.or_else (status a.2) "offline"));
        ("isActive", JBool (defined_or_true (isActive a.2)));
        ("createdAt", JDate (createdAt a.2))].

(** The query of [getAgentsList] for a search string. *)
Definition listQuery (search : string) : list Cond :=
  if Js.truthy search
  then [RoleIs "agent"; IsDeletedIs false;
        OrRegexI [(P_name, search); (P_email, search); (P_phone, search)]]
  else [RoleIs "agent"; IsDeletedIs false].

Definition getAgentsList (req : HttpRequest) : M unit :=
  tryCatch
    (let page := Js.num_or (Js.parseInt (query_page req)) 1 in
     let limit := Js.num_or (Js.parseInt (query_limit req)) 10 in
     let skip := (page - 1) * limit in
     let search := Js.or_else (default "" (query_search req)) "" in
     let searchQuery := listQuery search in
     totalAgents ← User_countDocuments searchQuery;
     let totalPages := Js.ceil_div totalAgents limit in
     agents ← User_find searchQuery (Some (skip, limit));
     cats ← gets categories;
     res_json
       (JObj [("success", JBool true);
              ("message", JStr "Agents list fetched successfully");
              ("pagination",
               JObj [("currentPage", JNum page);
                     ("totalPages", JNum totalPages);
                     ("totalAgents", JNum totalAgents);
                     ("hasNextPage", JBool (page <? totalPages));
                     ("hasPrevPage", JBool (1 <? page));
                     ("limit", JNum limit)]);
              ("data",
               JArr (map (fun a => agent_json a (populate cats (categoryIds a.2)))
                         agents))]))
    (fun error => res_status_json 500 server_error).

Definition getAgent (req : HttpRequest) : M unit :=
  tryCatch
    (let id := params req in
     agent ← User_findOne UserFindOne_agent [IdIs id; RoleIs "agent"];
     match agent with
     | None => res_status_json 404 agent_not_found
     | Some agent =>
         cats ← gets categories;
         res_json
           (JObj [("success", JBool true);
                  ("data", agent_json agent (populate cats (categoryIds agent.2)))])
     end)
    (fun error => res_status_json 500 server_error).

(** The [changes] lines of [updateAgent]'s activity message. *)
Definition change_line (label before after : string) : string :=
  label +:+ ": " +:+ Js.dq +:+ before +:+ Js.dq +:+ " -> "
        +:+ Js.dq +:+ after +:+ Js.dq.

Definition changes_of (original agent : User) : list string :=
  (if String.eqb (name original) (name agent) then []
   else [change_line "name" (name original) (name agent)])
  ++ (if String.eqb (email original) (email agent) then []
      else [change_line "email" (email original) (email agent)])
  ++ (if String.eqb (Js.or_else (phone original) "") (Js.or_else (phone agent) "")
      then []
      else [change_line "phone" (Js.or_else (phone original) "")
                        (Js.or_else (phone agent) "")])
  ++ (if bool_decide (categoryIds original = categoryIds agent) then []
      else ["categories: Changed"]).

Definition updateAgent (req : HttpRequest) : M unit :=
  tryCatch
    (let id := params req in
     let firstName := Body.firstName (body req) in
     let lastName := Body.lastName (body req) in
     let email_ := Body.email (body req) in
     let phone_ := Body.phone (body req) in
     let password_ := Body.password (body req) in
     let categoryId := Body.categoryId (body req) in
     found ← User_findOne UserFindOne_agent [IdIs id; RoleIs "agent"];
     match found with
     | None => res_status_json 404 agent_not_found
     | Some (aid, original) =>
         let agent1 :=
           if Js.truthy firstName && Js.truthy lastName
           then set_name (Js.trim (firstName +:+ " " +:+ lastName)) original
           else original in
         let agent2 := if Js.truthy email_ then set_email email_ agent1 else agent1 in
         let agent3 :=
           match phone_ with
           | Some p => set_phone (if Js.truthy p then Js.digits_only p else "") agent2
           | None => agent2
           end in
         let passwordSet :=
           match password_ with
           | Some p => Js.truthy p && negb (String.eqb (Js.trim p) "")
           | None => false
           end in
         let agent4 :=
           if passwordSet then set_password (default "" password_) agent3
           else agent3 in
         let agent5 :=
           match categoryId with
           | Some c => set_categoryIds c agent4
           | None => agent4
           end in
         agent ← User_save passwordSet (bool_decide (is_Some phone_)) (aid, agent5);
         let changes := changes_of original agent.2 in
         let changedText :=
           match changes with
           | [] => ""
           | _ => " (changes: " +:+ Js.join ", " changes +:+ ")"
           end in
         logActivity None
           ("You have successfully updated agent " +:+ Js.dq +:+ name agent.2
              +:+ Js.dq +:+ changedText) "updated";;
         tryCatch
           (sendPushNotification
              (mkPush "Profile Updated"
                 "Your account information has been updated by the admin."
                 "agent_profile_updated" agent.1 [agent.1]))
           (fun pushError => mret tt);;
         res_json
           (JObj [("success", JBool true);
                  ("message", JStr "Agent updated successfully");
                  ("data", JObj [("_id", JId agent.1);
                                 ("firstName", JStr (firstNameOf (name agent.2)));
                                 ("lastName", JStr (lastNameOf (name agent.2)));
                                 ("name", JStr (name agent.2));
                                 ("email", JStr (email agent.2));
                                 ("phone", JStr (Js.or_else (phone agent.2) ""));
                                 ("categoryIds", json_ids (categoryIds agent.2));
                                 ("createdAt", JDate (createdAt agent.2))])])
     end)
    (fun error => res_status_json 500 (server_error_of error)).

Definition deleteAgent (req : HttpRequest) : M unit :=
  tryCatch
    (let id := params req in
     found ← User_findOne UserFindOne_agent [IdIs id; RoleIs "agent"];
     match found with
     | None => res_status_json 404 agent_not_found
     | Some agent =>
         if truthy_bool (isDeleted agent.2) then
           res_status_json 400 (JObj [("message", JStr "Agent is already deleted")])
         else
           date ← gets now;
           agent ← User_save false false
                     (agent.1, set_deletedAt (Some date)
                                 (set_isDeleted (Some true) agent.2));
           let agentName := name agent.2 in
           Notification_create
             (mkNotification "Agent Removed"
                ("Agent " +:+ agentName +:+ " has been deleted by you")
                "warning" "agent" (user_id req) agent.1 agentName "deleted");;
           logActivity None
             ("Agent " +:+ Js.dq +:+ agentName +:+ Js.dq +:+ " has been deleted")
             "deleted";;
           res_json
             (JObj [("success", JBool true);
                    ("message", JStr "Agent deleted successfully")])
     end)
    (fun error => res_status_json 500 server_error).

Definition getCategoryList (req : HttpRequest) : M unit :=
  tryCatch
    (categoryList ← Category_find;
     res_json
       (JObj [("success", JBool true);
              ("data",
               JArr (map (fun c => JObj [("_id", JId c.1);
                                         ("name", JStr (cat_name c.2))])
                         categoryList))]))
    (fun error => res_status_json 500 server_error).

Definition json_opt_bool (o : option bool) : Json :=
  match o with Some b => JBool b | None => JNull end.

(** A whole document, as [res.json] serialises it. *)
Definition user_json (a : nat * User) : Json :=
  JObj [("_id", JId a.1);
        ("name", JStr (name a.2));
        ("email", JStr (email a.2));
        ("password", JStr (password a.2));
        ("role", JStr (role a.2));
        ("phone", JStr (phone a.2));
        ("categoryIds", json_ids (categoryIds a.2));
        ("status", JStr (status a.2));
        ("isActive", json_opt_bool (isActive a.2));
        ("isDeleted", json_opt_bool (isDeleted a.2));
        ("deletedAt", match deletedAt a.2 with Some t => JDate t | None => JNull end);
        ("createdAt", JDate (createdAt a.2))].

Definition toggleAgentStatus (req : HttpRequest) : M unit :=
  tryCatch
    (let id := params req in
     found ← User_findOne UserFindById [IdIs id];
     match found with
     | None => res_status_json 404 agent_not_found
     | Some agent =>
         if negb (String.eqb (role agent.2) "agent") then
           res_status_json 400
             (JObj [("success", JBool false);
                    ("message", JStr "User is not an agent")])
         else
           agent ← User_save false false
                     (agent.1,
                      set_isActive (Some (negb (truthy_bool (isActive agent.2))))
                                   agent.2);
           let action :=
             if truthy_bool (isActive agent.2) then "activated" else "deactivated" in
           logActivity (Some agent.1)
             ("Agent (" +:+ email agent.2 +:+ ") " +:+ action) "updated";;
           res_json
             (JObj [("success", JBool true);
                    ("message", JStr ("Agent " +:+ action +:+ " successfully"));
                    ("data", user_json agent)])
     end)
    (fun error => res_status_json 500 server_error).

(** The query of [exportAgents] for a search string. *)
Definition exportQuery (search : string) : list Cond :=
  if Js.truthy search
  then [RoleIs "agent";
        OrRegexI [(P_name, search); (P_email, search); (P_phone, search)]]
  else [RoleIs "agent"].

(** One row of the export. *)
Definition export_row (agent : nat * User) (cats : list (ObjectId * string)) : Json :=
  let categories := Js.or_else (Js.join ", " (map snd cats)) "" in
  JObj [("First Name", JStr (firstNameOf (name agent.2)));
        ("Last Name", JStr (lastNameOf (name agent.2)));
        ("Email", JStr (email agent.2));
        ("Phone", JStr (Js.or_else (phone agent.2) "N/A"));
        ("Status", JStr (Js.or_else (status agent.2) "offline"));
        ("Departments", JStr categories);
        ("Created Date", JStr (toLocaleDateString (createdAt agent.2)));
        ("Created Time", JStr (toLocaleTimeString (createdAt agent.2)))].

Definition exportAgents (req : HttpRequest) : M unit :=
  tryCatch
    (let search := Js.or_else (default "" (query_search req)) "" in
     let searchQuery := exportQuery search in
     agents ← User_find searchQuery None;
     cats ← gets categories;
     let exportData :=
       map (fun agent => export_row agent (populate cats (categoryIds agent.2)))
           agents in
     res_json
       (JObj [("success", JBool true);
              ("message", JStr "Agents data exported successfully");
              ("count", JNum (Z.of_nat (length exportData)));
              ("data", JArr exportData)]))
    (fun error => res_status_json 500 server_error).

End Backend.

(** ** The other senders of emailService.js *)

(** [s.startsWith(pat)] and [s.includes(pat)]. *)
Fixpoint starts_with (pat s : string) : bool :=
  match pat, s with
  | EmptyString, _ => true
  | String a pat', String b s' => Ascii.eqb a b && starts_with pat' s'
  | String _ _, EmptyString => false
  end.

Fixpoint includes (s pat : string) : bool :=
  starts_with pat s
  || match s with
     | EmptyString => false
     | String _ s' => includes s' pat
     end.

(** [`${x}`] for a value that may be [undefined]. *)
Definition interpolate (o : option string) : string := default "undefined" o.

(** A ticket as [sendTicketCreationEmail] and [sendTicketAdminNotify] read
    it. *)
Record TicketInfo := mkTicketInfo {
  ti_ticketNumber : option string;
  ti_status : string;
  ti_description : option string;
  ti_createdAt : Z
}.

(** An agent as [sendTicketCreationEmail] reads it: its e-mail address, if
    it has one. *)
Record AgentContact := mkAgentContact { contact_email : option string }.

(** The person of [sendCustomerWelcomeEmail] and
    [sendAdminRegistrationEmail]. *)
Record Registration := mkRegistration {
  reg_name : option string;
  reg_email : option string;
  reg_phone : option string
}.

(** The HTML bodies of these senders, as functions of the values they
    show; their text is not reproduced. *)
Record SenderTemplates := mkSenderTemplates {
  resetHtml : option string -> string -> string;
  confirmationHtml : option string -> string;
  verificationHtml : option string -> option string -> string -> string;
  appResetHtml : option string -> string -> string;
  ticketCreatedHtml : option string -> TicketInfo -> string;
  ticketAgentsHtml : option string -> TicketInfo -> Customer -> string;
  adminNotifyHtml : option string -> TicketInfo -> Customer -> string;
  customerWelcomeHtml : option string -> option string -> string;
  adminRegistrationHtml : option string -> Registration -> string
}.

(** An error as [sendPasswordResetEmail] inspects it: its name, its message,
    [error.statusCode] and [error.response?.statusCode]. *)
Record ApiError := mkApiError {
  ae_name : string;
  ae_message : string;
  ae_statusCode : option Z;
  ae_response_statusCode : option Z
}.

(** [new Error(m)]. *)
Definition new_Error (m : string) : ApiError := mkApiError "Error" m None None.

Definition not_configured : ApiError :=
  new_Error "Email service is not configured. Please contact administrator.".

Definition quota_exceeded : ApiError :=
  mkApiError "QUOTA_EXCEEDED"
    "Daily email sending quota exceeded. Please try again tomorrow or contact administrator to upgrade the email service plan."
    (Some 429) None.

(** What the senders that skip or fail on their own resolve to:
    [{ success: true, skipped: true }], the result of [sendEmail], or the
    failure object of their [catch]. *)
Inductive NotifyOutcome :=
| Skipped
| Delivered (result : EmailResult)
| NotifyFailed (error : string).

(** The sender address of the senders of the mobile app. *)
Definition fixed_sender : option string := Some "hello@expand.shabad-guru.org".

Section Senders.

Context (env : Env) (faults : Site -> option Thrown).
Context (messageId : SendSmtpEmail -> string).
Context (senderTemplates : SenderTemplates).
(** [process.env.ADMIN_EMAIL]. *)
Context (ADMIN_EMAIL : option string).
(** [apiInstance.sendTransacEmail] as [sendPasswordResetEmail] sees it: it
    rejects with an error or resolves with a message id. *)
Context (provider : SendSmtpEmail -> ApiError + string).

Definition sendPasswordResetEmail (email resetToken resetUrl : string) (w : World)
  : (ApiError + string) * World :=
  let attempt : (ApiError + string) * World :=
    if negb (Js.truthy_opt (BREVO_API_KEY env)) then (inl not_configured, w)
    else if negb (Js.truthy_opt (BREVO_API_KEY env)) then
      (inl (new_Error "BREVO_API_KEY is not defined in environment variables"), w)
    else
      let w1 := set_apiKeyAuth (BREVO_API_KEY env) w in
      let sendSmtpEmail :=
        mkSendSmtpEmail "Expand Machinery" (BREVO_API_EMEAIL env) [email]
          "Password Reset - Expand Machinery"
          (resetHtml senderTemplates (APP_URL env) resetUrl) None None in
      match provider sendSmtpEmail with
      | inl error => (inl error, w1)
      | inr result => (inr result, add_mail sendSmtpEmail w1)
      end in
  match attempt with
  | (inr result, w') => (inr result, w')
  | (inl error, w') =>
      if bool_decide (ae_statusCode error = Some 429)
         || bool_decide (ae_response_statusCode error = Some 429)
      then (inl quota_exceeded, w')
      else if includes (ae_message error) "BREVO_API_KEY"
              || includes (ae_message error) "not configured"
      then (inl not_configured, w')
      else (inl error, w')
  end.

Definition sendPasswordResetConfirmation (email : string) : M string :=
  tryCatch
    (getBrevoInstance env;;
     let sendSmtpEmail :=
       mkSendSmtpEmail "Expand Machinery" fixed_sender [email]
         "Password Reset Successful - Expand Machinery"
         (confirmationHtml senderTemplates (APP_URL env)) None None in
     result ← sendTransacEmail faults messageId sendSmtpEmail;
     mret result)
    (fun error => throw (Error "Failed to send confirmation email")).

Definition sendEmailVerificationOtp (name : option string) (email otp : string)
  : M string :=
  tryCatch
    (getBrevoInstance env;;
     let sendSmtpEmail :=
       mkSendSmtpEmail "Expand Machinery" fixed_sender [email]
         "Verify Your Email - Expand Machinery App"
         (verificationHtml senderTemplates (APP_URL env) name otp) None None in
     result ← sendTransacEmail faults messageId sendSmtpEmail;
     mret result)
    (fun error => throw (Error "Failed to send verification email")).

Definition sendAppPasswordResetEmail (email otp : string) : M string :=
  tryCatch
    (getBrevoInstance env;;
     let sendSmtpEmail :=
       mkSendSmtpEmail "Expand Machinery" fixed_sender [email]
         "Password Reset OTP - Expand Machinery App"
         (appResetHtml senderTemplates (APP_URL env) otp) None None in
     result ← sendTransacEmail faults messageId sendSmtpEmail;
     mret result)
    (fun error => throw (Error "Failed to send app password reset email")).

(** [agents.map(a => a.email).filter(Boolean)]. *)
Definition agentEmailsOf (agents : list AgentContact) : list string :=
  omap (fun a => match contact_email a with
                 | Some e => if Js.truthy e then Some e else None
                 | None => None
                 end) agents.

Definition sendTicketCreationEmail (ticket : TicketInfo) (customer : Customer)
           (agents : list AgentContact) : M StatusEmailOutcome :=
  tryCatch
    (let customerEmailHtml := ticketCreatedHtml senderTemplates (APP_URL env) ticket in
     customerResult ← sendEmail env faults messageId (One (c_email customer))
                        ("Ticket Created - " +:+ interpolate (ti_ticketNumber ticket))
                        customerEmailHtml None None;
     let results := [("customer", customerResult)] in
     if (0 <? length agents)%nat then
       let agentEmails := agentEmailsOf agents in
       if (0 <? length agentEmails)%nat then
         let agentEmailHtml :=
           ticketAgentsHtml senderTemplates (APP_URL env) ticket customer in
         agentsResult ← sendEmail env faults messageId (Many agentEmails)
                          ("New Ticket In Your Category - "
                             +:+ interpolate (ti_ticketNumber ticket))
                          agentEmailHtml None None;
         mret (Results (results ++ [("agents", agentsResult)])%list)
       else mret (Results results)
     else mret (Results results))
    (fun error => mret (StatusEmailFailed (message error))).

Definition sendTicketAdminNotify (ticket : TicketInfo) (customer : Customer)
  : M NotifyOutcome :=
  tryCatch
    (let recipient := Js.trim (Js.or_else (default "" ADMIN_EMAIL) "") in
     if negb (Js.truthy recipient) then mret Skipped
     else
       let subject := "New Support Ticket - " +:+ interpolate (ti_ticketNumber ticket) in
       let html := adminNotifyHtml senderTemplates (APP_URL env) ticket customer in
       result ← sendEmail env faults messageId (One recipient) subject html None None;
       mret (Delivered result))
    (fun error => mret (NotifyFailed (message error))).

Definition sendCustomerWelcomeEmail (person : Registration) : M NotifyOutcome :=
  tryCatch
    (if negb (Js.truthy_opt (reg_email person)) then
       mret (Delivered (Failure (ErrMessage "Missing customer email")))
     else
       result ← sendEmail env faults messageId (One (default "" (reg_email person)))
                  "Welcome to Expand Machinery"
                  (customerWelcomeHtml senderTemplates (APP_URL env) (reg_name person))
                  None None;
       mret (Delivered result))
    (fun error => mret (NotifyFailed (message error))).

Definition sendAdminRegistrationEmail (person : Registration) : M NotifyOutcome :=
  tryCatch
    (let adminEmail := Js.trim <$> ADMIN_EMAIL in
     if negb (Js.truthy_opt adminEmail) then mret Skipped
     else
       result ← sendEmail env faults messageId (One (default "" adminEmail))
                  "New Customer Registration"
                  (adminRegistrationHtml senderTemplates (APP_URL env) person)
                  None None;
       mret (Delivered result))
    (fun error => mret (NotifyFailed (message error))).

End Senders.

(** ** The exported handlers *)

Inductive HandlerName :=
| H_createAgent | H_getAgentsList | H_getAgent | H_updateAgent
| H_deleteAgent | H_getCategoryList | H_toggleAgentStatus | H_exportAgents.

Definition handler (model : UserModel) (env : Env) (faults : Site -> option Thrown)
           (regex_i : string -> string -> bool) (messageId : SendSmtpEmail -> string)
           (templates : Templates) (toLocaleDateString toLocaleTimeString : Z -> string)
           (h : HandlerName) : HttpRequest -> M unit :=
  match h with
  | H_createAgent => createAgent model env faults regex_i messageId templates
  | H_getAgentsList => getAgentsList faults regex_i
  | H_getAgent => getAgent faults regex_i
  | H_updateAgent => updateAgent model faults regex_i
  | H_deleteAgent => deleteAgent model faults regex_i
  | H_getCategoryList => getCategoryList faults
  | H_toggleAgentStatus => toggleAgentStatus model faults regex_i
  | H_exportAgents => exportAgents faults regex_i toLocaleDateString toLocaleTimeString
  end.

(** ** Specification vocabulary *)

(** A computation that leaves a component of the world as it found it,
    whether it returns or throws. *)
Definition keeps {A B} (proj : World -> B) (m : M A) : Prop :=
  forall w, proj (m w).2 = proj w.

(** A computation that sends no response. *)
Definition silent {A} (m : M A) : Prop := keeps responses m.

(** The status codes of a handler's own answers, the 500 of its [catch]
    apart. *)
Definition own_codes : list Z := [200; 201; 400; 404].

(** A computation that sends exactly one response when it returns and none
    when it throws. *)
Definition responds_once (m : M unit) : Prop :=
  forall w,
    match m w with
    | (inr _, w') => exists r, responses w' = (responses w ++ [r])%list /\ In (code r) own_codes
    | (inl _, w') => responses w' = responses w
    end.

(** A handler run that returns normally after sending exactly one response. *)
Definition single_shot (m : M unit) : Prop :=
  forall w, exists r w',
    m w = (inr tt, w') /\ responses w' = (responses w ++ [r])%list
    /\ In (code r) (own_codes ++ [500])%list.

(** Some user of the collection has this e-mail address, or this phone. *)
Definition email_taken (e : string) (m : gmap nat User) : Prop :=
  exists i u, m !! i = Some u /\ email u = e.

Definition phone_taken (p : string) (m : gmap nat User) : Prop :=
  exists i u, m !! i = Some u /\ phone u = p.

(** The document [createAgent] stores for a request, and its answer. *)
Definition created_user (model : UserModel) (req : HttpRequest) (w : World) : User :=
  preSave model true true
    (mkUser (Js.trim (Body.firstName (body req) +:+ " " +:+ Body.lastName (body req)))
            (Body.email (body req)) (default "" (Body.password (body req))) "agent"
            (if Js.truthy_opt (Body.phone (body req))
             then Js.digits_only (default "" (Body.phone (body req))) else "")
            (default [] (Body.categoryId (body req))) "offline"
            (default_isActive model) (default_isDeleted model) None (now w)).

Definition created_response (model : UserModel) (req : HttpRequest) (w : World) : Response :=
  let id := fresh (dom (users w)) in
  let agent := created_user model req w in
  mkResponse 201
    (JObj [("success", JBool true);
           ("message", JStr "Agent created successfully");
           ("data", JObj [("_id", JId id);
                          ("firstName", JStr (Body.firstName (body req)));
                          ("lastName", JStr (Body.lastName (body req)));
                          ("name", JStr (name agent));
                          ("email", JStr (email agent));
                          ("phone", JStr (default "" (Body.phone (body req))));
                          ("role", JStr (role agent));
                          ("categoryIds", json_ids (categoryIds agent));
                          ("status", JStr (Js.or_else (status agent) "offline"));
                          ("createdAt", JDate (createdAt agent))])]).

(** A body of the form [{ message }]. *)
Definition just_message (m : string) : Json := JObj [("message", JStr m)].

(** The answer of [toggleAgentStatus] for a user that is no agent. *)
Definition not_an_agent : Json :=
  JObj [("success", JBool false); ("message", JStr "User is not an agent")].

(** The answer of [deleteAgent] on success. *)
Definition agent_deleted : Json :=
  JObj [("success", JBool true); ("message", JStr "Agent deleted successfully")].

(** Shapes of a name part: it has a space (U+0020, where [split(' ')]
    cuts); it begins, or ends, with one of the white-space characters that
    [trim] removes. *)
Fixpoint contains_space (s : string) : bool :=
  match s with
  | EmptyString => false
  | String c s' => Js.is_space c || contains_space s'
  end.

Definition starts_with_ws (s : string) : bool := (0 <? Js.ws_width s)%nat.

(** A string that is one white-space character. *)
Definition is_ws_char (s : string) : bool :=
  (0 <? Js.ws_width s)%nat && (Js.ws_width s =? String.length s)%nat.

Fixpoint ends_with_ws (s : string) : bool :=
  match s with
  | EmptyString => false
  | String _ s' => is_ws_char s || ends_with_ws s'
  end.

(** What [getAgent] recovers from the name [createAgent] stores. *)
Definition name_round_trip (firstName lastName : string) : string * string :=
  let name := Js.trim (firstName +:+ " " +:+ lastName) in
  (firstNameOf name, lastNameOf name).

(** [createAgent] on a request, then [getAgent] on the [_id] the new agent
    was given: the [data] of the second answer. *)
Definition create_then_get (model : UserModel) (env : Env)
           (faults : Site -> option Thrown) (regex_i : string -> string -> bool)
           (messageId : SendSmtpEmail -> string) (templates : Templates)
           (req : HttpRequest) (w : World) : option Json :=
  let w1 := (createAgent model env faults regex_i messageId templates req w).2 in
  let id := fresh (dom (users w)) in
  let w2 := (getAgent faults regex_i
               (mkRequest (body req) id (query_page req) (query_limit req)
                          (query_search req) (user_id req)) w1).2 in
  r ← last (responses w2); field "data" (payload r).

(** The values [getAgentsList] reads from the query string. *)
Definition page_of (req : HttpRequest) : Z := Js.num_or (Js.parseInt (query_page req)) 1.
Definition limit_of (req : HttpRequest) : Z := Js.num_or (Js.parseInt (query_limit req)) 10.
Definition search_of (req : HttpRequest) : string :=
  Js.or_else (default "" (query_search req)) "".

(** Integers that JavaScript represents exactly. *)
Definition safe_integer (z : Z) : Prop := Z.abs z <= Js.MAX_SAFE_INTEGER.

(** A document matches the search string on its name, e-mail or phone. *)
Definition search_hit (regex_i : string -> string -> bool) (search : string)
           (u : User) : Prop :=
  regex_i search (name u) = true
  \/ regex_i search (email u) = true
  \/ regex_i search (phone u) = true.

(** The answer of [getAgentsList] when the database answers: [matching] are
    the documents the query selects, newest first. *)
Definition list_response (regex_i : string -> string -> bool) (req : HttpRequest)
           (w : World) : Response :=
  let page := page_of req in
  let limit := limit_of req in
  let matching :=
    merge_sort newer_first (select regex_i (listQuery (search_of req)) (users w)) in
  let totalAgents :=
    Z.of_nat (length (select regex_i (listQuery (search_of req)) (users w))) in
  let totalPages := Js.ceil_div totalAgents limit in
  let agents :=
    take (Z.to_nat limit) (drop (Z.to_nat ((page - 1) * limit)) matching) in
  mkResponse 200
    (JObj [("success", JBool true);
           ("message", JStr "Agents list fetched successfully");
           ("pagination",
            JObj [("currentPage", JNum page);
                  ("totalPages", JNum totalPages);
                  ("totalAgents", JNum totalAgents);
                  ("hasNextPage", JBool (page <? totalPages));
                  ("hasPrevPage", JBool (1 <? page));
                  ("limit", JNum limit)]);
           ("data",
            JArr (map (fun a => agent_json a (populate (categories w) (categoryIds a.2)))
                      agents))]).

(** The answer of [exportAgents] when the database answers. *)
Definition export_response (regex_i : string -> string -> bool)
           (toLocaleDateString toLocaleTimeString : Z -> string)
           (req : HttpRequest) (w : World) : Response :=
  let agents :=
    merge_sort newer_first (select regex_i (exportQuery (search_of req)) (users w)) in
  let exportData :=
    map (fun a => export_row toLocaleDateString toLocaleTimeString a
                    (populate (categories w) (categoryIds a.2)))
        agents in
  mkResponse 200
    (JObj [("success", JBool true);
           ("message", JStr "Agents data exported successfully");
           ("count", JNum (Z.of_nat (length exportData)));
           ("data", JArr exportData)]).

(** The [data] array of a response, when it has one. *)
Definition data_of (r : Response) : option (list Json) :=
  match field "data" (payload r) with
  | Some (JArr l) => Some l
  | _ => None
  end.

(** A computation that leaves the [User] collection alone or adds one
    document to it, under a fresh [_id], with role [agent] and status
    [offline]. *)
Definition adds_an_agent_at_most {A} (m : M A) : Prop :=
  forall w,
    users (m w).2 = users w
    \/ exists u, role u = "agent" /\ status u = "offline"
         /\ users (m w).2 = <[fresh (dom (users w)) := u]> (users w).

(** ** Sample data

    A small instance of every parameter, on which the statements below are
    exercised. *)

Definition sample_model : UserModel :=
  mkUserModel (fun p => "hash:" +:+ p)
              (fun p => if (String.length p =? 10)%nat then "+1" +:+ p else p)
              (Some true) (Some false).

(** No API key is configured. *)
Definition sample_env : Env := mkEnv None None None.

Definition configured_env : Env :=
  mkEnv (Some "xkeysib-1") (Some "support@example.com") (Some "https://example.com").

Definition all_up : Site -> option Thrown := fun _ => None.

(** The mail provider and the push service reject every call. *)
Definition mail_and_push_down : Site -> option Thrown := fun s =>
  match s with
  | SendTransacEmail => Some (Error "ECONNREFUSED")
  | SendPushNotification => Some (Error "push service unavailable")
  | _ => None
  end.

Fixpoint starts_with_i (pat s : string) : bool :=
  match pat, s with
  | EmptyString, _ => true
  | String a pat', String b s' =>
      Ascii.eqb (Js.lower_ascii a) (Js.lower_ascii b) && starts_with_i pat' s'
  | String _ _, EmptyString => false
  end.

(** A matcher for patterns without metacharacters: case-insensitive
    substring search. *)
Fixpoint sample_regex (pat s : string) : bool :=
  starts_with_i pat s
  || match s with
     | EmptyString => false
     | String _ s' => sample_regex pat s'
     end.

Definition sample_templates : Templates :=
  mkTemplates (fun firstName _ _ => "<h2>Welcome " +:+ firstName +:+ "!</h2>")
              (fun _ _ customerName _ _ => "<p>Hello " +:+ customerName +:+ ",</p>").

Definition sample_date (t : Z) : string := "1/1/2026".

Definition sample_messageId (m : SendSmtpEmail) : string := "<202601010000.1@smtp-relay>".

Definition root_admin : User :=
  mkUser "Root Admin" "root@example.com" "hash:r" "admin" "" [] "online"
         (Some true) (Some false) None 5.

Definition ann : User :=
  mkUser "Ann Lee" "ann@example.com" "hash:a" "agent" "+15551234567" [7%nat] "offline"
         (Some true) (Some false) None 10.

(** A soft-deleted agent. *)
Definition bob : User :=
  mkUser "Bob Ray" "bob@example.com" "hash:b" "agent" "" [] "offline"
         (Some true) (Some true) (Some 30) 20.

Definition cy : User :=
  mkUser "Cy Young" "cy@example.com" "hash:c" "agent" "" [] "online"
         (Some false) (Some false) None 40.

Definition sample_world : World :=
  mkWorld (<[1%nat := root_admin]> (<[2%nat := ann]> (<[3%nat := bob]> (<[4%nat := cy]> ∅))))
          (<[7%nat := mkCategory "Hydraulics"]> ∅)
          [] [] [] [] None [] 100.

Definition sample_body : Body.t :=
  Body.mk "Dee" "Dow" "dee@example.com" (Some "(555) 000-1111") (Some "s3cret") None.

Definition request_for (b : Body.t) (id : nat) : Request :=
  mkRequest b id None None None (Some 1%nat).

Definition query_request (page limit search : option string) : Request :=
  mkRequest sample_body 0%nat page limit search (Some 1%nat).

(** A request whose [id] parameter is no [ObjectId]. *)
Definition malformed_request : HttpRequest :=
  mkHttpRequest sample_body (NotAnId "abc") None None None (Some 1%nat).

(** A request whose e-mail address is Ann's. *)
Definition duplicate_email_body : Body.t :=
  Body.mk "Ann" "Other" "ann@example.com" None (Some "pw") None.

(** A request without password. *)
Definition no_password_body : Body.t :=
  Body.mk "Eve" "Fox" "eve@example.com" None None None.

(** A last name that ends with a space. *)
Definition trailing_space_body : Body.t :=
  Body.mk "Al" "Smith " "al@example.com" None (Some "pw") None.

Definition pending_ticket : Ticket :=
  mkTicket "PENDING" (Some "TCK-42") "665f1c2e9b1d8a0012345678" None 50.

Definition sample_customer : Customer := mkCustomer (Some "Pat") "pat@example.com".

(** A handler that only reads: whatever happens, it leaves everything but
    the list of responses as it found it. *)
Definition read_only (m : M unit) : Prop :=
  forall w,
    let w' := (m w).2 in
    users w' = users w /\ categories w' = categories w
    /\ notifications w' = notifications w /\ activityLog w' = activityLog w
    /\ pushed w' = pushed w /\ outbox w' = outbox w
    /\ apiKeyAuth w' = apiKeyAuth w /\ now w' = now w.

(** The collection [m'] differs from [m] at most in the document stored
    under [id], which is neither added nor removed and keeps its role, its
    status and its creation date. *)
Definition confined_to (id : nat) (m m' : gmap nat User) : Prop :=
  dom m' = dom m
  /\ (forall j, j <> id -> m' !! j = m !! j)
  /\ (forall u u', m !! id = Some u -> m' !! id = Some u' ->
        role u' = role u /\ status u' = status u /\ createdAt u' = createdAt u).

(** A computation that, started in a world satisfying [P], changes the
    collection within [confined_to id]. *)
Definition confines {A} (id : nat) (P : World -> Prop) (m : M A) : Prop :=
  forall w, P w -> confined_to id (users w) (users (m w).2).

(** The document [updateAgent] saves for a request body, from the one it
    found. *)
Definition updated_doc (model : UserModel) (b : Body.t) (original : User) : User :=
  let agent1 :=
    if Js.truthy (Body.firstName b) && Js.truthy (Body.lastName b)
    then set_name (Js.trim (Body.firstName b +:+ " " +:+ Body.lastName b)) original
    else original in
  let agent2 :=
    if Js.truthy (Body.email b) then set_email (Body.email b) agent1 else agent1 in
  let agent3 :=
    match Body.phone b with
    | Some p => set_phone (if Js.truthy p then Js.digits_only p else "") agent2
    | None => agent2
    end in
  let passwordSet :=
    match Body.password b with
    | Some p => Js.truthy p && negb (String.eqb (Js.trim p) "")
    | None => false
    end in
  let agent4 :=
    if passwordSet then set_password (default "" (Body.password b)) agent3
    else agent3 in
  let agent5 :=
    match Body.categoryId b with
    | Some c => set_categoryIds c agent4
    | None => agent4
    end in
  preSave model passwordSet (bool_decide (is_Some (Body.phone b))) agent5.

(** The entry [updateAgent] writes to the activity log. *)
Definition update_activity (original agent : User) : Activity :=
  let changes := changes_of original agent in
  let changedText :=
    match changes with
    | [] => ""
    | _ => " (changes: " +:+ Js.join ", " changes +:+ ")"
    end in
  mkActivity None
    ("You have successfully updated agent " +:+ Js.dq +:+ name agent
       +:+ Js.dq +:+ changedText) "updated".

(** The answer of [updateAgent] on success. *)
Definition update_response (id : nat) (agent : User) : Response :=
  mkResponse 200
    (JObj [("success", JBool true);
           ("message", JStr "Agent updated successfully");
           ("data", JObj [("_id", JId id);
                          ("firstName", JStr (firstNameOf (name agent)));
                          ("lastName", JStr (lastNameOf (name agent)));
                          ("name", JStr (name agent));
                          ("email", JStr (email agent));
                          ("phone", JStr (Js.or_else (phone agent) ""));
                          ("categoryIds", json_ids (categoryIds agent));
                          ("createdAt", JDate (createdAt agent))])]).

(** A password that [updateAgent] takes as given: present and not blank. *)
Definition password_given (o : option string) : bool :=
  match o with
  | Some p => Js.truthy p && negb (String.eqb (Js.trim p) "")
  | None => false
  end.

(** The document [deleteAgent] saves, from the one it found, at time [t]. *)
Definition soft_deleted (model : UserModel) (t : Z) (u : User) : User :=
  preSave model false false (set_deletedAt (Some t) (set_isDeleted (Some true) u)).

(** The answer of [getAgent] for a stored agent. *)
Definition agent_response (w : World) (id : nat) (u : User) : Response :=
  mkResponse 200
    (JObj [("success", JBool true);
           ("data", agent_json (id, u) (populate (categories w) (categoryIds u)))]).

(** The agents [getAgentsList] shows for a request: the page of the
    matching agents, newest first. *)
Definition page_agents (regex_i : string -> string -> bool) (req : HttpRequest)
           (w : World) : list (nat * User) :=
  take (Z.to_nat (limit_of req))
       (drop (Z.to_nat ((page_of req - 1) * limit_of req))
             (merge_sort newer_first
                (select regex_i (listQuery (search_of req)) (users w)))).

(** How [getAgentsList] and [getAgent] show an agent of a world. *)
Definition shown (w : World) (a : nat * User) : Json :=
  agent_json a (populate (categories w) (categoryIds a.2)).

(** ** More sample data *)

(** The notification collection rejects every write. *)
Definition notifications_down : Site -> option Thrown := fun s =>
  match s with
  | NotificationCreate => Some (Error "E11000 duplicate key")
  | _ => None
  end.

(** The activity log rejects every write. *)
Definition log_down : Site -> option Thrown := fun s =>
  match s with
  | LogActivity => Some (Error "activity log unreachable")
  | _ => None
  end.

(** The mail provider rejects every message. *)
Definition mail_down : Site -> option Thrown := fun s =>
  match s with
  | SendTransacEmail => Some (Error "ECONNREFUSED")
  | _ => None
  end.

(** The no-break space U+00A0, in UTF-8. *)
Definition nbsp : string := String (ascii_of_nat 194) (String (ascii_of_nat 160) "").

(** Names with white space around them. *)
Definition padded_body : Body.t :=
  Body.mk (nbsp +:+ "Dee") ("Dow " +:+ nbsp) "dee@example.com" None (Some "s3cret") None.

(** An update that renames the agent and gives a blank password. *)
Definition rename_body : Body.t :=
  Body.mk " Anna" "Leigh " "" (Some "555 123 4567") (Some "   ") (Some [7%nat; 8%nat]).

(** Updates that give nothing, with and without a password. *)
Definition empty_body : Body.t := Body.mk "" "" "" None None None.
Definition password_only_body : Body.t := Body.mk "" "" "" None (Some "n3w") None.

(** Dee's phone, written otherwise, with another address. *)
Definition same_phone_body : Body.t :=
  Body.mk "Flo" "Ray" "flo@example.com" (Some "555.000.1111") (Some "pw") None.

Definition sample_senderTemplates : SenderTemplates :=
  mkSenderTemplates
    (fun _ resetUrl => "<a>" +:+ resetUrl +:+ "</a>")
    (fun _ => "<p>Your password has been successfully reset</p>")
    (fun _ _ otp => "<b>" +:+ otp +:+ "</b>")
    (fun _ otp => "<b>" +:+ otp +:+ "</b>")
    (fun _ ticket => "<p>" +:+ default "undefined" (ti_ticketNumber ticket) +:+ "</p>")
    (fun _ ticket customer => "<p>" +:+ default "undefined" (c_name customer) +:+ "</p>")
    (fun _ ticket customer => "<p>" +:+ c_email customer +:+ "</p>")
    (fun _ name => "<p>Hi " +:+ default "there" name +:+ "</p>")
    (fun _ person => "<p>" +:+ default "N/A" (reg_name person) +:+ "</p>").

Definition accepting_provider : SendSmtpEmail -> ApiError + string :=
  fun _ => inr "<202601010000.7@smtp-relay>".

(** A provider that is over its quota. *)
Definition quota_provider : SendSmtpEmail -> ApiError + string :=
  fun _ => inl (mkApiError "Error" "Too Many Requests" None (Some 429)).

(** A provider whose error names the key. *)
Definition leaking_provider : SendSmtpEmail -> ApiError + string :=
  fun _ => inl (new_Error "Invalid BREVO_API_KEY supplied").

Definition sample_ticketInfo : TicketInfo :=
  mkTicketInfo (Some "TCK-42") "open" (Some "Pump leaks") 50.

Definition sample_agents : list AgentContact :=
  [mkAgentContact (Some "ann@example.com"); mkAgentContact None;
   mkAgentContact (Some ""); mkAgentContact (Some "cy@example.com")].

Definition sample_person : Registration :=
  mkRegistration (Some "Pat") (Some "pat@example.com") None.

(** The two pages of the sample collection, one agent a page. *)
Definition page_requests (k : nat) : HttpRequest :=
  query_request (Some (match k with O => "1" | _ => "2" end)) (Some "1") None.

(** * Properties *)

(** The [id] parameter of a [Request] is the hex form of its [params_id]. *)
Ltac cast_id :=
  repeat change (params (http ?r)) with (IdParam (params_id r)) in *.

Section Properties.

Context (model : UserModel) (env : Env) (faults : Site -> option Thrown).
Context (regex_i : string -> string -> bool).
Context (messageId : SendSmtpEmail -> string).
Context (templates : Templates).
Context (toLocaleDateString toLocaleTimeString toLocaleString : Z -> string).

(** *** Frames *)

Lemma keeps_ret {A B} (proj : World -> B) (a : A) : keeps proj (mret a).
Proof. intros w. reflexivity. Qed.

Lemma keeps_throw {A B} (proj : World -> B) (e : Thrown) : keeps proj (@throw A e).
Proof. intros w. reflexivity. Qed.

Lemma keeps_gets {A B} (proj : World -> B) (f : World -> A) : keeps proj (gets f).
Proof. intros w. reflexivity. Qed.

Lemma keeps_modify {B} (proj : World -> B) (f : World -> World) :
  (forall w, proj (f w) = proj w) -> keeps proj (modify f).
Proof. intros H w. apply H. Qed.

Lemma keeps_bind {A A' B} (proj : World -> B) (m : M A) (k : A -> M A') :
  keeps proj m -> (forall a, keeps proj (k a)) -> keeps proj (m ≫= k).
Proof.
  intros Hm Hk w. unfold mbind, M_bind. specialize (Hm w).
  destruct (m w) as [[e|a] w']; simpl in *; [done|].
  rewrite Hk. exact Hm.
Qed.

Lemma keeps_tryCatch {A B} (proj : World -> B) (m : M A) (h : Thrown -> M A) :
  keeps proj m -> (forall e, keeps proj (h e)) -> keeps proj (tryCatch m h).
Proof.
  intros Hm Hh w. unfold tryCatch. specialize (Hm w).
  destruct (m w) as [[e|a] w']; simpl in *; [|done].
  rewrite Hh. exact Hm.
Qed.

Lemma keeps_external {A B} (proj : World -> B) (s : Site) (act : M A) :
  keeps proj act -> keeps proj (external faults s act).
Proof. intros H. unfold external. destruct (faults s); [apply keeps_throw|exact H]. Qed.

Lemma keeps_fun {A B} (proj : World -> B) (f : World -> (Thrown + A) * World) :
  (forall w, proj (f w).2 = proj w) -> keeps proj (f : M A).
Proof. intros H w. apply H. Qed.

(** [sendEmail] touches the outbox and the SDK's key, nothing else. *)
Lemma keeps_sendEmail {B} (proj : World -> B) to subject html text reply :
  (forall x w, proj (add_mail x w) = proj w) ->
  (forall x w, proj (set_apiKeyAuth x w) = proj w) ->
  keeps proj (sendEmail env faults messageId to subject html text reply).
Proof.
  intros Hmail Hkey. unfold sendEmail, getBrevoInstance, sendTransacEmail.
  apply keeps_tryCatch; [|intros e; apply keeps_ret].
  apply keeps_bind.
  - destruct (negb _); [apply keeps_throw|]. by apply keeps_modify.
  - intros _. apply keeps_bind; [|intros r; apply keeps_ret].
    apply keeps_external. apply keeps_fun. intros w. apply Hmail.
Qed.

Lemma keeps_findOne {B} (proj : World -> B) s q :
  keeps proj (User_findOne faults regex_i s q).
Proof.
  unfold User_findOne. destruct (castError q); [apply keeps_throw|].
  apply keeps_external, keeps_gets.
Qed.

Lemma keeps_find {B} (proj : World -> B) q win :
  keeps proj (User_find faults regex_i q win).
Proof.
  apply keeps_external, keeps_fun. intros w.
  destruct win as [[s l]|]; [|done]. simpl. by destruct (window s l _).
Qed.

Lemma keeps_logActivity {B} (proj : World -> B) u m s :
  (forall x w, proj (add_activity x w) = proj w) ->
  keeps proj (logActivity faults u m s).
Proof. intros H. apply keeps_external, keeps_modify. intros w. apply H. Qed.

Lemma keeps_push {B} (proj : World -> B) p :
  (forall x w, proj (add_push x w) = proj w) ->
  keeps proj (sendPushNotification faults p).
Proof. intros H. apply keeps_external, keeps_modify. intros w. apply H. Qed.

Lemma keeps_notification {B} (proj : World -> B) n :
  (forall x w, proj (add_notification x w) = proj w) ->
  keeps proj (Notification_create faults n).
Proof. intros H. apply keeps_external, keeps_modify. intros w. apply H. Qed.

Lemma silent_save pm fm d : silent (User_save model faults pm fm d).
Proof. apply keeps_external. by apply keeps_fun. Qed.

(** *** Responses *)

Lemma once_res c j : In c own_codes -> responds_once (res_status_json c j).
Proof. intros H w. simpl. eexists. split; [reflexivity|exact H]. Qed.

Lemma once_bind {A} (m : M A) (k : A -> M unit) :
  silent m -> (forall a, responds_once (k a)) -> responds_once (m ≫= k).
Proof.
  intros Hm Hk w. unfold mbind, M_bind. specialize (Hm w).
  destruct (m w) as [[e|a] w']; simpl in *; [done|].
  specialize (Hk a w'). destruct (k a w') as [[e|u] w'']; by rewrite <- Hm.
Qed.

Lemma single_tryCatch (m : M unit) (h : Thrown -> Json) :
  responds_once m ->
  single_shot (tryCatch m (fun e => res_status_json 500 (h e))).
Proof.
  intros Hm w. unfold tryCatch. specialize (Hm w).
  destruct (m w) as [[e|[]] w'].
  - eexists _, _. split; [reflexivity|]. simpl. rewrite Hm.
    split; [reflexivity|]. unfold own_codes. simpl. tauto.
  - destruct Hm as (r & Hr & Hc). exists r, w'. repeat split; [done|].
    apply in_or_app. by left.
Qed.

Ltac keeps_tac :=
  unfold silent;
  repeat first
    [ apply keeps_findOne | apply silent_save | apply keeps_find
    | apply keeps_logActivity; reflexivity
    | apply keeps_push; reflexivity
    | apply keeps_notification; reflexivity
    | apply keeps_sendEmail; reflexivity
    | apply keeps_ret | apply keeps_gets | apply keeps_throw
    | apply keeps_external
    | apply keeps_modify; intros; reflexivity
    | apply keeps_fun; intros; reflexivity
    | apply keeps_tryCatch; [|intros ?]
    | apply keeps_bind; [|intros ?]
    | match goal with
      | |- keeps _ (if ?b then _ else _) => destruct b
      | |- keeps _ (match ?x with _ => _ end) => destruct x
      end ].

Ltac once_tac :=
  repeat first
    [ apply once_res; unfold own_codes; simpl; tauto
    | apply once_bind; [solve [keeps_tac]|intros ?]
    | match goal with
      | |- responds_once (if ?b then _ else _) => destruct b
      | |- responds_once (match ?x with _ => _ end) => destruct x
      | |- responds_once (let (_, _) := ?x in _) => destruct x
      end ].

(** C10. Every handler exported by the agent controller returns normally
    after sending exactly one response, whatever the request, the state of
    the collections and the failures of the services it calls; the response
    is one of the handler's own (200, 201, 400, 404) or the 500 of its
    [catch] block. *)
Theorem handlers_single_shot (h : HandlerName) (req : HttpRequest) :
  single_shot (handler model env faults regex_i messageId templates
                       toLocaleDateString toLocaleTimeString h req).
Proof.
  clear toLocaleString.
  destruct h; simpl.
  - unfold createAgent. apply (single_tryCatch _ server_error_of). once_tac.
  - unfold getAgentsList. apply (single_tryCatch _ (fun _ => server_error)). once_tac.
  - unfold getAgent. apply (single_tryCatch _ (fun _ => server_error)). once_tac.
  - unfold updateAgent. apply (single_tryCatch _ server_error_of). once_tac.
  - unfold deleteAgent. apply (single_tryCatch _ (fun _ => server_error)). once_tac.
  - unfold getCategoryList. apply (single_tryCatch _ (fun _ => server_error)). once_tac.
  - unfold toggleAgentStatus. apply (single_tryCatch _ (fun _ => server_error)). once_tac.
  - unfold exportAgents. apply (single_tryCatch _ (fun _ => server_error)). once_tac.
Qed.

(** *** Queries *)

Lemma select_spec (q : list Cond) (m : gmap nat User) (d : nat * User) :
  In d (select regex_i q m) <-> m !! d.1 = Some d.2 /\ matches regex_i q d = true.
Proof.
  unfold select. rewrite filter_In, <- list_elem_of_In.
  destruct d as [i u]. by rewrite elem_of_map_to_list.
Qed.

Lemma findOne_Some (q : list Cond) (m : gmap nat User) (d : nat * User) :
  head (select regex_i q m) = Some d ->
  m !! d.1 = Some d.2 /\ matches regex_i q d = true.
Proof.
  intros H. apply select_spec.
  destruct (select regex_i q m) as [|x l]; simplify_eq/=. by left.
Qed.

Lemma findOne_None (q : list Cond) (m : gmap nat User) :
  head (select regex_i q m) = None <->
  forall i u, m !! i = Some u -> matches regex_i q (i, u) = false.
Proof.
  split.
  - intros H i u Hi. destruct (matches regex_i q (i, u)) eqn:E; [|done].
    assert (In (i, u) (select regex_i q m)) as Hin by by apply select_spec.
    destruct (select regex_i q m); [done|discriminate].
  - intros H. destruct (select regex_i q m) as [|[i u] l] eqn:E; [done|].
    assert (In (i, u) (select regex_i q m)) as Hin by (rewrite E; by left).
    apply select_spec in Hin as [Hi Hm]. by rewrite (H i u Hi) in Hm.
Qed.

(** A query with an [_id] clause finds the document stored under that key,
    if it satisfies the rest of the query. *)
Lemma findOne_by_id (id : nat) (rest : list Cond) (m : gmap nat User) :
  head (select regex_i (IdIs (IdParam id) :: rest) m)
  = match m !! id with
    | Some u => if matches regex_i rest (id, u) then Some (id, u) else None
    | None => None
    end.
Proof.
  destruct (head (select regex_i (IdIs (IdParam id) :: rest) m)) as [[i u]|] eqn:E.
  - apply findOne_Some in E as [Hi Hm]. simpl in *.
    apply andb_prop in Hm as [Hid Hr]. apply bool_decide_eq_true in Hid.
    simpl in Hid. subst i. by rewrite Hi, Hr.
  - rewrite findOne_None in E. destruct (m !! id) as [u|] eqn:Hu; [|done].
    specialize (E id u Hu). simpl in E.
    rewrite bool_decide_eq_true_2 in E by done. simpl in E. by rewrite E.
Qed.

(** *** Running a handler *)

Ltac unfold_all :=
  unfold createAgent, getAgentsList, getAgent, updateAgent, deleteAgent,
         getCategoryList, toggleAgentStatus, exportAgents,
         sendEmail, getBrevoInstance, sendTransacEmail,
         User_findOne, User_countDocuments, User_find, User_create, User_save,
         Category_find, Notification_create, logActivity, sendPushNotification,
         res_json, res_status_json,
         tryCatch, external, gets, modify, throw, mbind, M_bind, mret, M_ret in *;
  cast_id; cbn [castError] in *.

Lemma run_findOne s q w :
  faults s = None ->
  castError q = None ->
  User_findOne faults regex_i s q w = (inr (head (select regex_i q (users w))), w).
Proof. intros F C. unfold User_findOne, external. by rewrite C, F. Qed.

(** A query whose [_id] is no [ObjectId] is rejected before it is sent. *)
Lemma run_findOne_cast s raw rest w :
  User_findOne faults regex_i s (IdIs (NotAnId raw) :: rest) w
  = (inl (CastError raw), w).
Proof. reflexivity. Qed.

Lemma run_create n e p r ph c s w :
  faults UserCreate = None ->
  let id := fresh (dom (users w)) in
  let u := preSave model true true
             (mkUser n e p r ph c s (default_isActive model)
                     (default_isDeleted model) None (now w)) in
  User_create model faults n e p r ph c s w = (inr (id, u), set_users (insert id u) w).
Proof. intros F. unfold User_create, external. by rewrite F. Qed.

Lemma run_save pm fm d w :
  faults UserSave = None ->
  User_save model faults pm fm d w
  = (inr (d.1, preSave model pm fm d.2),
     set_users (insert d.1 (preSave model pm fm d.2)) w).
Proof. intros F. unfold User_save, external. by rewrite F. Qed.

Lemma run_logActivity u m s w :
  faults LogActivity = None ->
  logActivity faults u m s w = (inr tt, add_activity (mkActivity u m s) w).
Proof. intros F. unfold logActivity, external. by rewrite F. Qed.

Lemma run_notification n w :
  faults NotificationCreate = None ->
  Notification_create faults n w = (inr tt, add_notification n w).
Proof. intros F. unfold Notification_create, external. by rewrite F. Qed.

(** Steps of a run that ends normally in a world satisfying [P]. *)
Lemma step_try (m : M unit) (h : Thrown -> M unit) (w : World) (P : World -> Prop) :
  (exists w', m w = (inr tt, w') /\ P w') ->
  exists w', tryCatch m h w = (inr tt, w') /\ P w'.
Proof. intros (w' & E & HP). exists w'. unfold tryCatch. by rewrite E. Qed.

Lemma step_bind {A} (m : M A) (k : A -> M unit) (w w1 : World) (a : A)
      (P : World -> Prop) :
  m w = (inr a, w1) ->
  (exists w', k a w1 = (inr tt, w') /\ P w') ->
  exists w', (m ≫= k) w = (inr tt, w') /\ P w'.
Proof. intros E (w' & E' & HP). exists w'. unfold mbind, M_bind. by rewrite E. Qed.

(** A [try] whose [catch] only logs: it returns, and changes what its body
    changes. *)
Lemma step_swallow (m : M unit) (k : unit -> M unit) (w : World) (P : World -> Prop) :
  (forall w1,
      (forall B (proj : World -> B), keeps proj m -> proj w1 = proj w) ->
      exists w', k tt w1 = (inr tt, w') /\ P w') ->
  exists w', (tryCatch m (fun _ => mret tt) ≫= k) w = (inr tt, w') /\ P w'.
Proof.
  intros H. unfold mbind, M_bind, tryCatch.
  destruct (m w) as [[e|[]] w1] eqn:E; simpl;
    apply H; intros B proj Hk; specialize (Hk w); by rewrite E in Hk.
Qed.

Lemma findOne_email_None (e : string) (m : gmap nat User) :
  head (select regex_i [EmailIs e] m) = None <-> ~ email_taken e m.
Proof.
  rewrite findOne_None. unfold email_taken. split.
  - intros H (i & u & Hi & He). specialize (H i u Hi). simpl in H.
    rewrite andb_true_r in H. by apply String.eqb_neq in H.
  - intros H i u Hi. simpl. rewrite andb_true_r. apply String.eqb_neq.
    intros He. apply H. eauto.
Qed.

Lemma findOne_phone_None (p : string) (m : gmap nat User) :
  head (select regex_i [PhoneIs p] m) = None <-> ~ phone_taken p m.
Proof.
  rewrite findOne_None. unfold phone_taken. split.
  - intros H (i & u & Hi & He). specialize (H i u Hi). simpl in H.
    rewrite andb_true_r in H. by apply String.eqb_neq in H.
  - intros H i u Hi. simpl. rewrite andb_true_r. apply String.eqb_neq.
    intros He. apply H. eauto.
Qed.

(** The path of [createAgent] on which every check passes and the database
    and the activity log answer: the agent is stored and the handler answers
    201, whatever the mail provider and the push service do. *)
Lemma createAgent_created (req : HttpRequest) w :
  faults UserFindOne_email = None ->
  faults UserFindOne_phone = None ->
  faults UserCreate = None ->
  faults LogActivity = None ->
  ~ email_taken (Body.email (body req)) (users w) ->
  (Js.truthy_opt (Body.phone (body req)) = true ->
   ~ phone_taken (normalizedPhone (default "" (Body.phone (body req)))) (users w)) ->
  Js.truthy_opt (Body.password (body req)) = true ->
  exists w',
    createAgent model env faults regex_i messageId templates req w = (inr tt, w')
    /\ (users w' = <[fresh (dom (users w)) := created_user model req w]> (users w)
        /\ categories w' = categories w
        /\ responses w' = (responses w ++ [created_response model req w])%list).
Proof.
  intros F1 F2 F3 F4 He Hp Hpw.
  apply findOne_email_None in He.
  unfold createAgent. apply step_try. cbv zeta.
  eapply step_bind; [by apply run_findOne|]. rewrite He.
  eapply (step_bind _ _ w w None).
  { destruct (Js.truthy_opt (Body.phone (body req))) eqn:Hph; [|done].
    rewrite run_findOne by done. apply findOne_phone_None in Hp; [|done].
    by rewrite Hp. }
  rewrite Hpw. cbv [negb].
  eapply step_bind; [by apply run_create|].
  eapply step_bind; [by apply run_logActivity|].
  apply step_swallow. intros w3 K3.
  apply step_swallow. intros w4 K4.
  eexists. split; [reflexivity|].
  assert (forall B (proj : World -> B),
             (forall x v, proj (add_mail x v) = proj v) ->
             (forall x v, proj (set_apiKeyAuth x v) = proj v) ->
             (forall x v, proj (add_push x v) = proj v) ->
             proj w4
             = proj (add_activity
                       (mkActivity None
                          ("Agent " +:+ Js.dq
                             +:+ Js.trim (Body.firstName (body req) +:+ " "
                                            +:+ Body.lastName (body req))
                             +:+ Js.dq +:+ " has been added") "added")
                       (set_users
                          (insert (fresh (dom (users w))) (created_user model req w)) w)))
    as K.
  { intros B proj H1 H2 H3. rewrite K4, K3; [reflexivity| |].
    - apply keeps_bind; [by apply keeps_sendEmail|intros ?; apply keeps_ret].
    - by apply keeps_push. }
  split_and!.
  - change (users (add_response ?r w4)) with (users w4). by rewrite K.
  - change (categories (add_response ?r w4)) with (categories w4). by rewrite K.
  - change (responses (add_response ?r w4)) with (responses w4 ++ [r])%list.
    by rewrite K.
Qed.

(** *** What [createAgent] can do to the collection *)

Lemma adds_keeps {A} (m : M A) : keeps users m -> adds_an_agent_at_most m.
Proof. intros H w. left. apply H. Qed.

Lemma adds_bind_l {A B} (m : M A) (k : A -> M B) :
  keeps users m -> (forall a, adds_an_agent_at_most (k a)) ->
  adds_an_agent_at_most (m ≫= k).
Proof.
  intros Hm Hk w. unfold mbind, M_bind. specialize (Hm w).
  destruct (m w) as [[e|a] w1]; simpl in *; [by left|].
  specialize (Hk a w1). by rewrite Hm in Hk.
Qed.

Lemma adds_bind_r {A B} (m : M A) (k : A -> M B) :
  adds_an_agent_at_most m -> (forall a, keeps users (k a)) ->
  adds_an_agent_at_most (m ≫= k).
Proof.
  intros Hm Hk w. unfold mbind, M_bind. specialize (Hm w).
  destruct (m w) as [[e|a] w1]; simpl in *; [done|].
  by rewrite (Hk a w1).
Qed.

Lemma adds_tryCatch {A} (m : M A) (h : Thrown -> M A) :
  adds_an_agent_at_most m -> (forall e, keeps users (h e)) ->
  adds_an_agent_at_most (tryCatch m h).
Proof.
  intros Hm Hh w. unfold tryCatch. specialize (Hm w).
  destruct (m w) as [[e|a] w1]; simpl in *; [|done].
  by rewrite (Hh e w1).
Qed.

Lemma adds_create n e p ph c :
  adds_an_agent_at_most (User_create model faults n e p "agent" ph c "offline").
Proof.
  intros w. unfold User_create, external.
  destruct (faults UserCreate); [by left|]. right.
  eexists. split_and!; [| |reflexivity]; reflexivity.
Qed.

(** On every path, [createAgent] leaves the collection alone or adds one
    document, under a fresh [_id], with role [agent] and status [offline]. *)
Lemma createAgent_users (req : HttpRequest) :
  adds_an_agent_at_most (createAgent model env faults regex_i messageId templates req).
Proof.
  unfold createAgent.
  apply adds_tryCatch; [|intros e; keeps_tac].
  apply adds_bind_l; [keeps_tac|intros existingEmail].
  destruct existingEmail; [apply adds_keeps; keeps_tac|].
  apply adds_bind_l; [keeps_tac|intros existingPhone].
  destruct existingPhone; [apply adds_keeps; keeps_tac|].
  destruct (negb _); [apply adds_keeps; keeps_tac|].
  apply adds_bind_r; [apply adds_create|intros agent; keeps_tac].
Qed.
Lemma run_try {A} (m : M A) (h : Thrown -> M A) (w : World) (a : A) (w' : World) :
  m w = (inr a, w') -> tryCatch m h w = (inr a, w').
Proof. intros E. unfold tryCatch. by rewrite E. Qed.

Lemma run_bind {A B} (m : M A) (k : A -> M B) (w : World) (a : A) (w1 : World)
      (r : (Thrown + B) * World) :
  m w = (inr a, w1) -> k a w1 = r -> (m ≫= k) w = r.
Proof. intros E E'. unfold mbind, M_bind. by rewrite E. Qed.

(** The three handlers that look an agent up by [{ _id, role: 'agent' }]
    answer 404 when no agent has the id. *)
Lemma agent_lookup_404 (req : Request) w :
  faults UserFindOne_agent = None ->
  (forall u, users w !! params_id req = Some u -> role u <> "agent") ->
  let not_found := (inr tt, add_response (mkResponse 404 agent_not_found) w) in
  getAgent faults regex_i req w = not_found
  /\ updateAgent model faults regex_i req w = not_found
  /\ deleteAgent model faults regex_i req w = not_found.
Proof.
  intros F Hrole.
  assert (head (select regex_i [IdIs (IdParam (params_id req)); RoleIs "agent"]
                       (users w)) = None) as E.
  { rewrite findOne_by_id. destruct (users w !! params_id req) as [u|] eqn:Hu; [|done].
    specialize (Hrole u eq_refl). apply String.eqb_neq in Hrole.
    simpl. by rewrite Hrole. }
  unfold_all. by rewrite F, E.
Qed.

(** C1 (amended). Agent-role invariant of the CRUD interface. Every
    document [createAgent] adds to the collection has role [agent] and status
    [offline]. For an id parameter that is the hex form of an [ObjectId]
    under which no user with role [agent] is stored, [getAgent],
    [updateAgent] and [deleteAgent] answer 404 'Agent not found' and change
    nothing, the look-up answering; [toggleAgentStatus] answers 400 'User is
    not an agent' for an existing user with another role. For an id parameter
    that is no [ObjectId] the look-up is rejected with a cast error before it
    reaches the database, and the four handlers answer 500, not 404:
    [getAgent], [deleteAgent] and [toggleAgentStatus] with 'Server error',
    [updateAgent] with the message of the cast error. *)
Theorem agent_role_invariant (req : Request) (w : World) :
  (forall id u,
      users w !! id = None ->
      users (createAgent model env faults regex_i messageId templates req w).2 !! id
        = Some u ->
      role u = "agent" /\ status u = "offline")
  /\ (faults UserFindOne_agent = None ->
      (forall u, users w !! params_id req = Some u -> role u <> "agent") ->
      let not_found := (inr tt, add_response (mkResponse 404 agent_not_found) w) in
      message_of (mkResponse 404 agent_not_found) = Some (JStr "Agent not found")
      /\ getAgent faults regex_i req w = not_found
      /\ updateAgent model faults regex_i req w = not_found
      /\ deleteAgent model faults regex_i req w = not_found)
  /\ (faults UserFindById = None ->
      forall u, users w !! params_id req = Some u -> role u <> "agent" ->
      message_of (mkResponse 400 not_an_agent) = Some (JStr "User is not an agent")
      /\ toggleAgentStatus model faults regex_i req w
         = (inr tt, add_response (mkResponse 400 not_an_agent) w))
  /\ (forall (bad : HttpRequest) (raw : string),
      params bad = NotAnId raw ->
      let failed := (inr tt, add_response (mkResponse 500 server_error) w) in
      message_of (mkResponse 500 server_error) = Some (JStr "Server error")
      /\ getAgent faults regex_i bad w = failed
      /\ deleteAgent model faults regex_i bad w = failed
      /\ toggleAgentStatus model faults regex_i bad w = failed
      /\ updateAgent model faults regex_i bad w
         = (inr tt,
            add_response (mkResponse 500 (server_error_of (CastError raw))) w)).
Proof.
  split_and!.
  - intros id u Hid Hu.
    destruct (createAgent_users req w) as [E|(u' & Hr & Hs & E)];
      rewrite E in Hu; [congruence|].
    destruct (decide (id = fresh (dom (users w)))) as [->|Hne].
    + rewrite lookup_insert_eq in Hu. by simplify_eq.
    + rewrite lookup_insert_ne in Hu by done. congruence.
  - intros F Hrole. split; [reflexivity|]. by apply agent_lookup_404.
  - intros F u Hu Hrole. split; [reflexivity|].
    unfold_all. rewrite F, findOne_by_id, Hu. simpl.
    apply String.eqb_neq in Hrole. by rewrite Hrole.
  - intros bad raw Hbad. split; [reflexivity|].
    unfold getAgent, deleteAgent, toggleAgentStatus, updateAgent. cbv zeta.
    rewrite Hbad. split_and!; reflexivity.
Qed.

(** C2. Validation of [createAgent], the two look-ups answering. A user with
    the given e-mail: 400 'User with this email already exists'. Otherwise, a
    phone supplied (present and not empty) and a user with the normalized
    phone: 400 'User with this phone number already exists'. Otherwise, no
    password (absent or empty): 400 'Password is required'. In the three
    cases the collection is unchanged; the password is looked at only after
    the two duplicate checks. The normalized phone is the digits of the input
    with [+1] in front when there are exactly ten of them, and the raw input
    otherwise. *)
Theorem createAgent_validation (req : Request) (w : World) :
  faults UserFindOne_email = None ->
  faults UserFindOne_phone = None ->
  let run := createAgent model env faults regex_i messageId templates req w in
  let rejected (m : string) :=
    (inr tt, add_response (mkResponse 400 (just_message m)) w) in
  let phone_ := default "" (Body.phone (body req)) in
  let duplicate_phone :=
    Js.truthy_opt (Body.phone (body req)) = true
    /\ phone_taken (normalizedPhone phone_) (users w) in
  (email_taken (Body.email (body req)) (users w) ->
   run = rejected "User with this email already exists")
  /\ (~ email_taken (Body.email (body req)) (users w) ->
      duplicate_phone ->
      run = rejected "User with this phone number already exists")
  /\ (~ email_taken (Body.email (body req)) (users w) ->
      ~ duplicate_phone ->
      Js.truthy_opt (Body.password (body req)) = false ->
      run = rejected "Password is required")
  /\ (forall m, users (rejected m).2 = users w
                /\ message_of (mkResponse 400 (just_message m)) = Some (JStr m))
  /\ normalizedPhone phone_
     = (if (String.length (Js.digits_only phone_) =? 10)%nat
        then "+1" +:+ Js.digits_only phone_ else phone_).
Proof.
  intros F1 F2 run rejected phone_ duplicate_phone.
  subst run rejected phone_ duplicate_phone. split_and!.
  - intros He. unfold createAgent. apply run_try. cbv zeta.
    eapply run_bind; [by apply run_findOne|].
    destruct (head (select regex_i [EmailIs (Body.email (body req))] (users w)))
      as [d|] eqn:E; [done|].
    by apply findOne_email_None in E.
  - intros He [Hs Hp]. apply findOne_email_None in He.
    unfold createAgent. apply run_try. cbv zeta.
    eapply run_bind; [by apply run_findOne|]. rewrite He, Hs.
    eapply run_bind; [by apply run_findOne|].
    destruct (head (select regex_i [PhoneIs _] (users w))) as [d|] eqn:E; [done|].
    by apply findOne_phone_None in E.
  - intros He Hp Hpw. apply findOne_email_None in He.
    unfold createAgent. apply run_try. cbv zeta.
    eapply run_bind; [by apply run_findOne|]. rewrite He.
    eapply (run_bind _ _ w None w).
    { destruct (Js.truthy_opt (Body.phone (body req))) eqn:Hs; [|done].
      rewrite run_findOne by done.
      destruct (head (select regex_i [PhoneIs _] (users w))) as [d|] eqn:E; [|done].
      exfalso. apply Hp. split; [done|].
      apply findOne_Some in E as [Hd Hm]. simpl in Hm. rewrite andb_true_r in Hm.
      apply String.eqb_eq in Hm. by exists d.1, d.2. }
    by rewrite Hpw.
  - intros m. split; reflexivity.
  - reflexivity.
Qed.

(** C6. [sendEmail] never throws: on every input it resolves to a success
    or a failure object, and to the failure carrying the configuration
    error's message when [BREVO_API_KEY] is not set. Hence [createAgent],
    once its checks pass and the database and the activity log answer, stores
    the agent and answers 201 'Agent created successfully' with the agent's
    data, whether or not the mail provider and the push service fail. *)
Theorem sendEmail_total_createAgent_201 :
  (forall to subject html text reply w,
      exists result w',
        sendEmail env faults messageId to subject html text reply w = (inr result, w')
        /\ ((exists data, result = Success data)
            \/ (exists error, result = Failure error))
        /\ (Js.truthy_opt (BREVO_API_KEY env) = false ->
            result = Failure (ErrMessage
                       "BREVO_API_KEY is not defined in environment variables")))
  /\ (forall req w,
      faults UserFindOne_email = None ->
      faults UserFindOne_phone = None ->
      faults UserCreate = None ->
      faults LogActivity = None ->
      ~ email_taken (Body.email (body req)) (users w) ->
      (Js.truthy_opt (Body.phone (body req)) = true ->
       ~ phone_taken (normalizedPhone (default "" (Body.phone (body req)))) (users w)) ->
      Js.truthy_opt (Body.password (body req)) = true ->
      exists w' r id u,
        createAgent model env faults regex_i messageId templates req w = (inr tt, w')
        /\ responses w' = (responses w ++ [r])%list
        /\ users w !! id = None
        /\ users w' !! id = Some u
        /\ code r = 201
        /\ message_of r = Some (JStr "Agent created successfully")
        /\ field "data" (payload r)
           = Some (JObj [("_id", JId id);
                         ("firstName", JStr (Body.firstName (body req)));
                         ("lastName", JStr (Body.lastName (body req)));
                         ("name", JStr (name u));
                         ("email", JStr (email u));
                         ("phone", JStr (default "" (Body.phone (body req))));
                         ("role", JStr "agent");
                         ("categoryIds", json_ids (categoryIds u));
                         ("status", JStr "offline");
                         ("createdAt", JDate (createdAt u))])).
Proof.
  split.
  - intros to subject html text reply w. unfold_all.
    destruct (Js.truthy_opt (BREVO_API_KEY env)) eqn:Hk; simpl.
    + destruct (faults SendTransacEmail) as [e|]; eexists _, _;
        (split; [reflexivity|]); (split; [eauto|done]).
    + eexists _, _. split; [reflexivity|]. split; [eauto|done].
  - intros req w F1 F2 F3 F4 He Hp Hpw.
    destruct (createAgent_created req w F1 F2 F3 F4 He Hp Hpw)
      as (w' & Hrun & Hu & _ & Hr).
    exists w', (created_response model req w), (fresh (dom (users w))),
           (created_user model req w).
    split_and!; try done.
    + apply not_elem_of_dom, is_fresh.
    + rewrite Hu. apply lookup_insert_eq.
Qed.

(** *** Names *)

Lemma is_space_eq (c : ascii) : Js.is_space c = true -> c = " "%char.
Proof.
  unfold Js.is_space. intros H. apply Nat.eqb_eq in H.
  rewrite <- (ascii_nat_embedding c), H. reflexivity.
Qed.

Lemma split_space_nonempty (s : string) : Js.split_space s <> [].
Proof.
  induction s as [|c s IH]; simpl; [done|].
  destruct (Js.is_space c); [done|]. by destruct (Js.split_space s).
Qed.

Lemma join_split_space (s : string) : Js.join " " (Js.split_space s) = s.
Proof.
  induction s as [|c s IH]; [done|]. simpl.
  destruct (Js.is_space c) eqn:Hc.
  - apply is_space_eq in Hc. subst c.
    pose proof (split_space_nonempty s) as Hne.
    destruct (Js.split_space s) as [|x l]; [done|].
    change (Js.join " " ("" :: x :: l)) with (" " +:+ Js.join " " (x :: l)).
    by rewrite IH.
  - destruct (Js.split_space s) as [|x [|y l]]; simpl in *; by rewrite <- IH.
Qed.

Lemma split_space_first (first rest : string) :
  contains_space first = false ->
  Js.split_space (first +:+ String " " rest) = first :: Js.split_space rest.
Proof.
  induction first as [|c f IH]; simpl; [done|].
  intros H. apply orb_false_elim in H as [Hc Hf]. by rewrite Hc, (IH Hf).
Qed.

Lemma split_space_single (first : string) :
  contains_space first = false -> Js.split_space first = [first].
Proof.
  induction first as [|c f IH]; simpl; [done|].
  intros H. apply orb_false_elim in H as [Hc Hf]. by rewrite Hc, (IH Hf).
Qed.

Lemma trimStart_eq (s : string) :
  Js.trimStart s
  = match s with
    | EmptyString => EmptyString
    | String a r =>
        if Js.is_ws a then Js.trimStart r
        else match r with
             | String b r' =>
                 if Js.is_ws2 a b then Js.trimStart r'
                 else match r' with
                      | String c r'' => if Js.is_ws3 a b c then Js.trimStart r'' else s
                      | EmptyString => s
                      end
             | EmptyString => s
             end
    end.
Proof. by destruct s. Qed.

(** A string that starts with a white-space character is that character
    followed by a rest. *)
Lemma ws_width_split (s : string) :
  (0 < Js.ws_width s)%nat ->
  exists w r, s = w +:+ r /\ is_ws_char w = true /\ Js.trimStart s = Js.trimStart r
              /\ (String.length r < String.length s)%nat.
Proof.
  rewrite (trimStart_eq s). unfold is_ws_char, Js.ws_width.
  destruct s as [|a r]; [lia|].
  destruct (Js.is_ws a) eqn:Ea.
  { intros _. exists (String a ""), r. rewrite Ea. split_and!; try done. simpl. lia. }
  destruct r as [|b r]; [lia|].
  destruct (Js.is_ws2 a b) eqn:Eb.
  { intros _. exists (String a (String b "")), r. rewrite Ea, Eb.
    split_and!; try done. simpl. lia. }
  destruct r as [|c r]; [lia|].
  destruct (Js.is_ws3 a b c) eqn:Ec; [|lia].
  intros _. exists (String a (String b (String c ""))), r. rewrite Ea, Eb, Ec.
  split_and!; try done. simpl. lia.
Qed.

Lemma trimStart_id (s : string) : starts_with_ws s = false -> Js.trimStart s = s.
Proof.
  unfold starts_with_ws, Js.ws_width. rewrite (trimStart_eq s).
  destruct s as [|a r]; [done|].
  destruct (Js.is_ws a); [done|].
  destruct r as [|b r]; [done|].
  destruct (Js.is_ws2 a b); [done|].
  destruct r as [|c r]; [done|].
  by destruct (Js.is_ws3 a b c).
Qed.

Lemma append_cons (a : ascii) (w r : string) : String a w +:+ r = String a (w +:+ r).
Proof. reflexivity. Qed.

Lemma append_nil (r : string) : "" +:+ r = r.
Proof. reflexivity. Qed.

Lemma trimStart_ws_char (w r : string) :
  is_ws_char w = true -> Js.trimStart (w +:+ r) = Js.trimStart r.
Proof.
  unfold is_ws_char, Js.ws_width. rewrite (trimStart_eq (w +:+ r)).
  destruct w as [|a w]; [done|].
  intros H. apply andb_prop in H as [_ H]. apply Nat.eqb_eq in H. revert H.
  rewrite append_cons. cbn [String.length].
  destruct (Js.is_ws a).
  { destruct w; [reflexivity|]. simpl. lia. }
  destruct w as [|b w]; [done|]. rewrite append_cons. cbn [String.length].
  destruct (Js.is_ws2 a b).
  { destruct w; [reflexivity|]. simpl. lia. }
  destruct w as [|c w]; [done|]. rewrite append_cons. cbn [String.length].
  destruct (Js.is_ws3 a b c); [|done].
  destruct w; [reflexivity|]. simpl. lia.
Qed.

(** Induction along [trimStart]. *)
Lemma trimStart_ind (P : string -> Prop) :
  (forall s, starts_with_ws s = false -> P s) ->
  (forall w r, is_ws_char w = true -> P r -> P (w +:+ r)) ->
  forall s, P s.
Proof.
  intros H0 Hw s.
  remember (String.length s) as n eqn:Hn.
  revert s Hn. induction (lt_wf n) as [n _ IH]. intros s ->.
  destruct (starts_with_ws s) eqn:E; [|by apply H0].
  unfold starts_with_ws in E. apply Nat.ltb_lt in E.
  destruct (ws_width_split s E) as (w & r & -> & Hc & _ & Hlen).
  apply Hw; [done|]. by eapply IH.
Qed.

(** A space is no part of a white-space character of several bytes. *)
Lemma is_ws2_space (a : ascii) : Js.is_ws2 a " " = false.
Proof. unfold Js.is_ws2. apply andb_false_r. Qed.

Lemma is_ws3_space_2 (a c : ascii) : Js.is_ws3 a " " c = false.
Proof.
  unfold Js.is_ws3. cbv zeta.
  change (nat_of_ascii " ") with 32%nat.
  change (32 =? 154)%nat with false. change (32 =? 128)%nat with false.
  change (32 =? 129)%nat with false. change (32 =? 187)%nat with false.
  by rewrite !andb_false_r.
Qed.

Lemma is_ws3_space_3 (a b : ascii) : Js.is_ws3 a b " " = false.
Proof.
  unfold Js.is_ws3. cbv zeta.
  change (nat_of_ascii " ") with 32%nat.
  by rewrite !andb_false_r.
Qed.

Lemma ws_width_le (s : string) : (Js.ws_width s <= 3)%nat.
Proof.
  unfold Js.ws_width. repeat case_match; lia.
Qed.

(** What follows a white-space character does not change it. *)
Lemma ws_width_app (x y : string) :
  (0 < Js.ws_width x)%nat -> Js.ws_width (x +:+ y) = Js.ws_width x.
Proof.
  unfold Js.ws_width.
  destruct x as [|a x]; [lia|]. rewrite append_cons.
  destruct (Js.is_ws a); [done|].
  destruct x as [|b x]; [lia|]. rewrite append_cons.
  destruct (Js.is_ws2 a b); [done|].
  destruct x as [|c x]; [lia|]. by rewrite append_cons.
Qed.

Lemma starts_with_ws_prefix (x y : string) :
  starts_with_ws (x +:+ y) = false -> starts_with_ws x = false.
Proof.
  unfold starts_with_ws. intros H. apply Nat.ltb_ge in H. apply Nat.ltb_ge.
  destruct (Js.ws_width x) as [|n] eqn:E; [lia|].
  rewrite ws_width_app in H; lia.
Qed.

(** A space after a non-empty string does not complete a white-space
    character. *)
Lemma ws_width_app_space (x y : string) :
  x <> "" -> Js.ws_width (x +:+ String " " y) = Js.ws_width x.
Proof.
  intros Hx. unfold Js.ws_width.
  destruct x as [|a x]; [done|]. rewrite append_cons.
  destruct (Js.is_ws a); [done|].
  destruct x as [|b x].
  { rewrite append_nil, is_ws2_space. destruct y; [done|]. by rewrite is_ws3_space_2. }
  rewrite append_cons.
  destruct (Js.is_ws2 a b); [done|].
  destruct x as [|c x].
  { by rewrite append_nil, is_ws3_space_3. }
  by rewrite append_cons.
Qed.

Lemma ends_with_ws_app_r (x r : string) :
  ends_with_ws r = true -> ends_with_ws (x +:+ r) = true.
Proof.
  intros H. induction x as [|a x IH]; [done|].
  rewrite append_cons. cbn [ends_with_ws]. rewrite IH. apply orb_true_r.
Qed.

Lemma ends_with_ws_cons (a : ascii) (s : string) :
  ends_with_ws (String a s) = is_ws_char (String a s) || ends_with_ws s.
Proof. reflexivity. Qed.

Lemma is_ws_char_ends (w : string) : is_ws_char w = true -> ends_with_ws w = true.
Proof. destruct w as [|a w]; [done|]. rewrite ends_with_ws_cons. by intros ->. Qed.

Lemma append_empty_r (s : string) : s +:+ "" = s.
Proof. induction s as [|a s IH]; [done|]. by rewrite append_cons, IH. Qed.

Lemma append_assoc (a b c : string) : (a +:+ b) +:+ c = a +:+ (b +:+ c).
Proof. induction a as [|x a IH]; [done|]. by rewrite !append_cons, IH. Qed.

(** A non-empty string of white space ends with white space. *)
Lemma all_ws_ends (s : string) :
  s <> "" -> Js.trimStart s = "" -> ends_with_ws s = true.
Proof.
  induction s as [s Hs|w r Hw IH] using trimStart_ind.
  - intros Hne. by rewrite (trimStart_id _ Hs).
  - intros _. rewrite (trimStart_ws_char _ _ Hw). intros Hr.
    destruct (decide (r = "")) as [->|Hne].
    + rewrite append_empty_r. by apply is_ws_char_ends.
    + apply ends_with_ws_app_r. by apply IH.
Qed.

Lemma trimEnd_cons (c : ascii) (s : string) :
  Js.trimEnd (String c s)
  = if Js.is_empty (Js.trimStart (String c s)) then "" else String c (Js.trimEnd s).
Proof. reflexivity. Qed.

Lemma is_empty_false (s : string) : s <> "" -> Js.is_empty s = false.
Proof. by destruct s. Qed.

Lemma is_empty_true (s : string) : Js.is_empty s = true -> s = "".
Proof. by destruct s. Qed.

Lemma trimEnd_id (s : string) : ends_with_ws s = false -> Js.trimEnd s = s.
Proof.
  induction s as [|c s IH]; [done|].
  rewrite trimEnd_cons. intros H.
  destruct (Js.is_empty (Js.trimStart (String c s))) eqn:E.
  - apply is_empty_true, all_ws_ends in E; [congruence|done].
  - rewrite ends_with_ws_cons in H. apply orb_false_elim in H as [_ Hs].
    by rewrite (IH Hs).
Qed.

(** [trimStart] and a space added at the end. *)
Lemma trimStart_app_space (x : string) :
  Js.trimStart (x +:+ " ")
  = if Js.is_empty (Js.trimStart x) then "" else Js.trimStart x +:+ " ".
Proof.
  induction x as [x Hx|w r Hw IH] using trimStart_ind.
  - destruct (decide (x = "")) as [->|Hne]; [done|].
    rewrite (trimStart_id _ Hx), (is_empty_false _ Hne).
    apply trimStart_id. unfold starts_with_ws in *.
    by rewrite ws_width_app_space.
  - by rewrite append_assoc, !(trimStart_ws_char _ _ Hw).
Qed.

Lemma trimEnd_app_space (s : string) : Js.trimEnd (s +:+ " ") = Js.trimEnd s.
Proof.
  induction s as [|c s IH]; [done|].
  rewrite append_cons, !trimEnd_cons, <- append_cons, trimStart_app_space, IH.
  destruct (Js.trimStart (String c s)) as [|d t]; [done|].
  by rewrite append_cons.
Qed.

Lemma length_append (a b : string) :
  String.length (a +:+ b) = (String.length a + String.length b)%nat.
Proof.
  induction a as [|x a IH]; [done|]. rewrite append_cons. cbn [String.length].
  by rewrite IH.
Qed.

(** With a space in between, only the second part decides whether the
    whole ends with white space. *)
Lemma ends_with_ws_app_space (a b : string) :
  b <> "" -> ends_with_ws (a +:+ String " " b) = ends_with_ws b.
Proof.
  intros Hb. destruct b as [|d b]; [done|].
  assert (forall x, is_ws_char (x +:+ String " " (String d b)) = false) as Hno.
  { intros x. unfold is_ws_char.
    destruct x as [|p x]; [by rewrite append_nil|].
    rewrite ws_width_app_space by done.
    destruct (Js.ws_width (String p x) =? _)%nat eqn:E; [|apply andb_false_r].
    apply Nat.eqb_eq in E. exfalso. revert E.
    rewrite length_append. cbn [String.length]. unfold Js.ws_width.
    destruct (Js.is_ws p); [lia|].
    destruct x as [|q x]; [lia|]. cbn [String.length].
    destruct (Js.is_ws2 p q); [lia|].
    destruct x as [|r x]; [lia|]. cbn [String.length].
    destruct (Js.is_ws3 p q r); lia. }
  induction a as [|c a IH].
  - rewrite append_nil, ends_with_ws_cons.
    specialize (Hno ""). rewrite append_nil in Hno. by rewrite Hno.
  - rewrite append_cons, ends_with_ws_cons, <- append_cons, (Hno (String c a)).
    exact IH.
Qed.

(** [trimEnd] removes a string of white space. *)
Lemma trimEnd_split (s : string) :
  exists r, s = Js.trimEnd s +:+ r /\ Js.trimStart r = "".
Proof.
  induction s as [|c s (r & Hr & Hws)].
  - by exists "".
  - rewrite trimEnd_cons.
    destruct (Js.is_empty (Js.trimStart (String c s))) eqn:E.
    + exists (String c s). split; [done|]. by apply is_empty_true.
    + exists r. split; [|done]. by rewrite append_cons, <- Hr.
Qed.

Lemma ends_with_ws_trimEnd (s : string) : ends_with_ws (Js.trimEnd s) = false.
Proof.
  induction s as [|c s IH]; [done|].
  rewrite trimEnd_cons.
  destruct (Js.is_empty (Js.trimStart (String c s))) eqn:E; [done|].
  rewrite ends_with_ws_cons, IH, orb_false_r.
  destruct (is_ws_char (String c (Js.trimEnd s))) eqn:Hc; [|done].
  destruct (trimEnd_split s) as (r & Hr & Hws).
  rewrite Hr, <- append_cons, (trimStart_ws_char _ _ Hc), Hws in E. done.
Qed.

Lemma starts_with_ws_trimStart (s : string) : starts_with_ws (Js.trimStart s) = false.
Proof.
  induction s as [s Hs|w r Hw IH] using trimStart_ind.
  - by rewrite (trimStart_id _ Hs).
  - by rewrite (trimStart_ws_char _ _ Hw).
Qed.

Lemma starts_with_ws_trimEnd (s : string) :
  starts_with_ws s = false -> starts_with_ws (Js.trimEnd s) = false.
Proof.
  intros H. destruct (trimEnd_split s) as (r & Hr & _).
  rewrite Hr in H. by apply starts_with_ws_prefix in H.
Qed.

(** A trimmed string neither begins nor ends with white space. *)
Lemma trim_trimmed (s : string) :
  starts_with_ws (Js.trim s) = false /\ ends_with_ws (Js.trim s) = false.
Proof.
  unfold Js.trim. split.
  - apply starts_with_ws_trimEnd, starts_with_ws_trimStart.
  - apply ends_with_ws_trimEnd.
Qed.

Lemma trim_idempotent (s : string) : Js.trim (Js.trim s) = Js.trim s.
Proof.
  destruct (trim_trimmed s) as [H1 H2].
  unfold Js.trim at 1. by rewrite trimStart_id, trimEnd_id.
Qed.

Lemma or_else_empty (s : string) : Js.or_else s "" = s.
Proof. by destruct s. Qed.

(** The name round trip, on the strings alone. *)
Lemma name_round_trip_ok (first last : string) :
  first <> "" ->
  contains_space first = false ->
  starts_with_ws first = false ->
  ends_with_ws (if Js.is_empty last then first else last) = false ->
  name_round_trip first last = (first, last).
Proof.
  intros Hne Hsp Hst Hend. unfold name_round_trip, firstNameOf, lastNameOf, Js.trim.
  rewrite !or_else_empty.
  change (first +:+ " " +:+ last) with (first +:+ String " " last).
  assert (starts_with_ws (first +:+ String " " last) = false) as Hst'.
  { unfold starts_with_ws in *. by rewrite ws_width_app_space. }
  rewrite (trimStart_id _ Hst').
  destruct (decide (last = "")) as [->|Hl].
  - simpl in Hend.
    change (first +:+ String " " "") with (first +:+ " ").
    by rewrite trimEnd_app_space, (trimEnd_id _ Hend), (split_space_single _ Hsp).
  - rewrite (is_empty_false _ Hl) in Hend.
    rewrite trimEnd_id.
    + rewrite (split_space_first _ _ Hsp). cbn [hd tl].
      by rewrite join_split_space.
    + by rewrite ends_with_ws_app_space.
Qed.

Lemma getAgent_found (req : Request) w u :
  faults UserFindOne_agent = None ->
  users w !! params_id req = Some u ->
  role u = "agent" ->
  getAgent faults regex_i req w
  = (inr tt,
     add_response
       (mkResponse 200
          (JObj [("success", JBool true);
                 ("data", agent_json (params_id req, u)
                            (populate (categories w) (categoryIds u)))])) w).
Proof.
  intros F Hu Hr. unfold_all. rewrite F, findOne_by_id, Hu. simpl.
  by rewrite Hr.
Qed.

(** C9 (amended). [createAgent] stores the trimmed [firstName + ' ' +
    lastName] and [getAgent] splits the stored name at its first space.
    Creating an agent and fetching it gives back the original pair whenever
    [firstName] is not empty, has no space, does not begin with white space,
    and the last character of the pair ([lastName]'s, or [firstName]'s when
    [lastName] is empty) is not white space, white space being every
    character that [trim] removes, U+00A0 and the other Unicode spaces
    included; and some pair whose [firstName] has a space comes back
    different. *)
Theorem name_round_trip_amended (req : Request) (w : World) :
  faults UserFindOne_email = None ->
  faults UserFindOne_phone = None ->
  faults UserCreate = None ->
  faults LogActivity = None ->
  faults UserFindOne_agent = None ->
  ~ email_taken (Body.email (body req)) (users w) ->
  (Js.truthy_opt (Body.phone (body req)) = true ->
   ~ phone_taken (normalizedPhone (default "" (Body.phone (body req)))) (users w)) ->
  Js.truthy_opt (Body.password (body req)) = true ->
  let first := Body.firstName (body req) in
  let last := Body.lastName (body req) in
  first <> "" ->
  contains_space first = false ->
  starts_with_ws first = false ->
  ends_with_ws (if Js.is_empty last then first else last) = false ->
  (exists data,
      create_then_get model env faults regex_i messageId templates req w = Some data
      /\ field "firstName" data = Some (JStr first)
      /\ field "lastName" data = Some (JStr last))
  /\ name_round_trip first last = (first, last)
  /\ (exists first' last',
         contains_space first' = true
         /\ name_round_trip first' last' <> (first', last')).
Proof.
  intros F1 F2 F3 F4 F5 He Hp Hpw first last Hne Hsp Hst Hend.
  pose proof (name_round_trip_ok first last Hne Hsp Hst Hend) as Hrt.
  split_and!; [|exact Hrt|by exists "Mary Ann", "Smith"].
  destruct (createAgent_created req w F1 F2 F3 F4 He Hp Hpw)
    as (w1 & Hrun & Hu & _ & _).
  unfold create_then_get. rewrite Hrun. cbn [snd].
  rewrite (getAgent_found _ w1 (created_user model req w));
    [|exact F5|cbn [params_id]; rewrite Hu; apply lookup_insert_eq|done].
  cbn [snd]. change (responses (add_response ?r w1)) with (responses w1 ++ [r])%list.
  rewrite last_snoc.
  eexists. split; [reflexivity|].
  unfold name_round_trip in Hrt. injection Hrt as H1 H2.
  split.
  - change (Some (JStr (firstNameOf (Js.trim (first +:+ " " +:+ last))))
            = Some (JStr first)).
    by rewrite H1.
  - change (Some (JStr (lastNameOf (Js.trim (first +:+ " " +:+ last))))
            = Some (JStr last)).
    by rewrite H2.
Qed.

(** C7. [deleteAgent] is a soft delete. When the agent exists and is not
    deleted, and the services answer, the handler answers 200 'Agent deleted
    successfully'; the document stays in the collection with [isDeleted] true
    and [deletedAt] the current time, every other field as it was, and every
    other document untouched. Deleting the same agent again answers 400
    'Agent is already deleted' and changes nothing but the list of
    responses. *)
Theorem deleteAgent_soft_delete (req : Request) (w : World) (u : User) :
  faults UserFindOne_agent = None ->
  faults UserSave = None ->
  faults NotificationCreate = None ->
  faults LogActivity = None ->
  users w !! params_id req = Some u ->
  role u = "agent" ->
  truthy_bool (isDeleted u) = false ->
  exists w1 u1,
    deleteAgent model faults regex_i req w = (inr tt, w1)
    /\ responses w1 = (responses w ++ [mkResponse 200 agent_deleted])%list
    /\ users w1 !! params_id req = Some u1
    /\ isDeleted u1 = Some true
    /\ deletedAt u1 = Some (now w)
    /\ name u1 = name u /\ email u1 = email u /\ phone u1 = phone u
    /\ role u1 = role u /\ categoryIds u1 = categoryIds u
    /\ password u1 = password u /\ status u1 = status u
    /\ isActive u1 = isActive u /\ createdAt u1 = createdAt u
    /\ (forall j, j <> params_id req -> users w1 !! j = users w !! j)
    /\ dom (users w1) = dom (users w)
    /\ deleteAgent model faults regex_i req w1
       = (inr tt,
          add_response (mkResponse 400 (just_message "Agent is already deleted")) w1).
Proof.
  intros F1 F2 F3 F4 Hu Hr Hd.
  assert (forall m v, m !! params_id req = Some v -> role v = "agent" ->
            head (select regex_i [IdIs (IdParam (params_id req)); RoleIs "agent"] m)
            = Some (params_id req, v)) as Hfind.
  { intros m v Hv Hrv. rewrite findOne_by_id, Hv. simpl. by rewrite Hrv. }
  eexists _, _. split_and!.
  - unfold_all. rewrite F1, (Hfind _ _ Hu Hr). simpl. rewrite Hd, F2. simpl.
    rewrite F3, F4. reflexivity.
  - reflexivity.
  - simpl. apply lookup_insert_eq.
  - reflexivity.
  - reflexivity.
  - reflexivity.
  - reflexivity.
  - reflexivity.
  - reflexivity.
  - reflexivity.
  - reflexivity.
  - reflexivity.
  - reflexivity.
  - reflexivity.
  - intros j Hj. simpl. by rewrite lookup_insert_ne.
  - simpl. by apply dom_insert_lookup_L.
  - unfold_all. rewrite F1. simpl users.
    erewrite Hfind; [|apply lookup_insert_eq|exact Hr]. reflexivity.
Qed.

(** *** Listing *)

#[local] Instance newer_first_total : Total newer_first.
Proof. intros a b. unfold newer_first. lia. Qed.

#[local] Instance newer_first_trans : Transitive newer_first.
Proof. intros a b c. unfold newer_first. lia. Qed.

Lemma StronglySorted_take_drop {A} (R : relation A) (n k : nat) (l : list A) :
  StronglySorted R l -> StronglySorted R (take n (drop k l)).
Proof.
  intros H. rewrite <- (take_drop k l) in H.
  apply StronglySorted_app_1_r in H.
  rewrite <- (take_drop n (drop k l)) in H.
  by apply StronglySorted_app_1_l in H.
Qed.

Lemma ceil_div_spec (a l : Z) :
  1 <= l -> (Js.ceil_div a l - 1) * l < a <= Js.ceil_div a l * l.
Proof.
  intros Hl. unfold Js.ceil_div.
  pose proof (Z.mul_div_le (- a) l ltac:(lia)).
  pose proof (Z.mul_succ_div_gt (- a) l ltac:(lia)).
  nia.
Qed.

Lemma getAgentsList_run (req : HttpRequest) w :
  faults UserCountDocuments = None ->
  faults UserFind = None ->
  0 <= (page_of req - 1) * limit_of req ->
  limit_of req <> 0 ->
  0 <= limit_of req ->
  getAgentsList faults regex_i req w
  = (inr tt, add_response (list_response regex_i req w) w).
Proof.
  intros F1 F2 Hs Hl Hl'. unfold_all. unfold list_response, window.
  fold (page_of req) (limit_of req) (search_of req).
  rewrite F1, F2. simpl.
  destruct ((page_of req - 1) * limit_of req <? 0) eqn:E; [lia|].
  destruct (limit_of req =? 0) eqn:E'; [lia|].
  by rewrite Z.abs_eq.
Qed.

Lemma listQuery_spec (search : string) (d : nat * User) :
  matches regex_i (listQuery search) d = true <->
  role d.2 = "agent" /\ isDeleted d.2 = Some false
  /\ (search <> "" -> search_hit regex_i search d.2).
Proof.
  unfold listQuery, search_hit. destruct search as [|c s]; simpl.
  - rewrite andb_true_r, andb_true_iff, String.eqb_eq, bool_decide_eq_true. tauto.
  - rewrite !andb_true_iff, !orb_true_iff, String.eqb_eq, bool_decide_eq_true.
    intuition congruence.
Qed.

Lemma exportQuery_spec (search : string) (d : nat * User) :
  matches regex_i (exportQuery search) d = true <->
  role d.2 = "agent" /\ (search <> "" -> search_hit regex_i search d.2).
Proof.
  unfold exportQuery, search_hit. destruct search as [|c s]; simpl.
  - rewrite andb_true_r, String.eqb_eq. tauto.
  - rewrite !andb_true_iff, !orb_true_iff, String.eqb_eq.
    intuition congruence.
Qed.

(** C3 (amended). Pagination of [getAgentsList], for a page [p] and a limit
    [l] that are at least 1 (each is 1, respectively 10, when the parameter
    is absent, not numeric or parses to 0, and the parsed number otherwise),
    where [p], [l], the skip [(p - 1) * l] and the number of matching agents
    are safe integers. The database answering, the handler answers 200 with
    the agents that follow the first [(p - 1) * l] of the matching ones,
    newest first, at most [l] of them, and with [currentPage = p],
    [totalPages = ceil (totalAgents / l)], [hasNextPage] iff [p < totalPages]
    and [hasPrevPage] iff [p > 1]. *)
Theorem getAgentsList_pagination (req : HttpRequest) (w : World) :
  faults UserCountDocuments = None ->
  faults UserFind = None ->
  let p := page_of req in
  let l := limit_of req in
  let found := select regex_i (listQuery (search_of req)) (users w) in
  let totalAgents := Z.of_nat (length found) in
  1 <= p ->
  1 <= l ->
  safe_integer p ->
  safe_integer l ->
  safe_integer ((p - 1) * l) ->
  safe_integer totalAgents ->
  let totalPages := Js.ceil_div totalAgents l in
  let agents :=
    take (Z.to_nat l) (drop (Z.to_nat ((p - 1) * l)) (merge_sort newer_first found)) in
  let r := list_response regex_i req w in
  getAgentsList faults regex_i req w = (inr tt, add_response r w)
  /\ code r = 200
  /\ data_of r
     = Some (map (fun a => agent_json a (populate (categories w) (categoryIds a.2)))
                 agents)
  /\ Z.of_nat (length agents) <= l
  /\ StronglySorted newer_first agents
  /\ merge_sort newer_first found ≡ₚ found
  /\ field "pagination" (payload r)
     = Some (JObj [("currentPage", JNum p);
                   ("totalPages", JNum totalPages);
                   ("totalAgents", JNum totalAgents);
                   ("hasNextPage", JBool (p <? totalPages));
                   ("hasPrevPage", JBool (1 <? p));
                   ("limit", JNum l)])
  /\ (totalPages - 1) * l < totalAgents <= totalPages * l
  /\ (forall v, Js.parseInt (query_page req) = Some v -> v <> 0 -> p = v)
  /\ (Js.parseInt (query_page req) = None \/ Js.parseInt (query_page req) = Some 0 ->
      p = 1)
  /\ (forall v, Js.parseInt (query_limit req) = Some v -> v <> 0 -> l = v)
  /\ (Js.parseInt (query_limit req) = None \/ Js.parseInt (query_limit req) = Some 0 ->
      l = 10).
Proof.
  intros F1 F2 p l found totalAgents Hp Hl _ _ _ _ totalPages agents r.
  split_and!.
  - apply getAgentsList_run; try done; subst p l; nia.
  - reflexivity.
  - reflexivity.
  - subst agents. rewrite length_take. lia.
  - subst agents. apply StronglySorted_take_drop, StronglySorted_merge_sort; apply _.
  - apply merge_sort_Permutation.
  - reflexivity.
  - by apply ceil_div_spec.
  - by apply ceil_div_spec.
  - intros v Hv Hne. subst p. unfold page_of. rewrite Hv. simpl.
    by destruct (Z.eqb_spec v 0).
  - intros [H|H]; subst p; unfold page_of; by rewrite H.
  - intros v Hv Hne. subst l. unfold limit_of. rewrite Hv. simpl.
    by destruct (Z.eqb_spec v 0).
  - intros [H|H]; subst l; unfold limit_of; by rewrite H.
Qed.

(** C4. Search of [getAgentsList]. The documents its query selects are
    exactly the users with role [agent] and [isDeleted] false that, when the
    search string is not empty, match it as a case-insensitive regular
    expression on the name, the e-mail or the phone; an empty or absent
    search selects every user with role [agent] and [isDeleted] false. The
    handler counts these documents and lists them. *)
Theorem getAgentsList_search (req : Request) (w : World) (d : nat * User) :
  let search := search_of req in
  let found := select regex_i (listQuery search) (users w) in
  (In d found <->
   users w !! d.1 = Some d.2 /\ role d.2 = "agent" /\ isDeleted d.2 = Some false
   /\ (search <> "" -> search_hit regex_i search d.2))
  /\ (query_search req = None \/ query_search req = Some "" ->
      (In d found <->
       users w !! d.1 = Some d.2 /\ role d.2 = "agent" /\ isDeleted d.2 = Some false))
  /\ (forall s, query_search req = Some s -> search = s)
  /\ (faults UserCountDocuments = None ->
      faults UserFind = None ->
      1 <= page_of req ->
      1 <= limit_of req ->
      getAgentsList faults regex_i req w
      = (inr tt, add_response (list_response regex_i req w) w)
      /\ field "totalAgents" (default JNull (field "pagination"
                                (payload (list_response regex_i req w))))
         = Some (JNum (Z.of_nat (length found)))
      /\ (Z.of_nat (length found) <= limit_of req ->
          page_of req = 1 ->
          exists agents,
            agents ≡ₚ found
            /\ data_of (list_response regex_i req w)
               = Some (map (fun a => agent_json a
                                       (populate (categories w) (categoryIds a.2)))
                           agents))).
Proof.
  intros search found. split_and!.
  - subst found. rewrite select_spec, listQuery_spec. tauto.
  - intros Hq. subst found. rewrite select_spec, listQuery_spec.
    assert (search = "") as -> by (subst search; unfold search_of; by destruct Hq as [-> | ->]).
    tauto.
  - intros s Hs. subst search. unfold search_of. rewrite Hs. apply or_else_empty.
  - intros F1 F2 Hp Hl. split_and!.
    + apply getAgentsList_run; try done; nia.
    + reflexivity.
    + intros Hlen Hp1. exists (merge_sort newer_first found).
      split; [apply merge_sort_Permutation|].
      assert (take (Z.to_nat (limit_of req))
                (drop (Z.to_nat ((page_of req - 1) * limit_of req))
                      (merge_sort newer_first found))
              = merge_sort newer_first found) as Htake.
      { rewrite Hp1. change (Z.to_nat ((1 - 1) * limit_of req)) with 0%nat.
        rewrite drop_0. apply take_ge.
        rewrite (Permutation_length (merge_sort_Permutation newer_first found)).
        lia. }
      rewrite <- Htake. reflexivity.
Qed.

(** C8. [exportAgents] does not look at [isDeleted]. Its query selects every
    user with role [agent] that, when the search string is not empty, matches
    it case-insensitively on the name, the e-mail or the phone; so a
    soft-deleted agent is selected by the export and not by [getAgentsList].
    The database answering, the handler answers with all the selected
    documents, whatever [page] and [limit] say, newest first, and with their
    number as [count]. *)
Theorem exportAgents_includes_deleted (req : Request) (w : World) (d : nat * User) :
  let search := search_of req in
  let exported := select regex_i (exportQuery search) (users w) in
  let listed := select regex_i (listQuery search) (users w) in
  let agents := merge_sort newer_first exported in
  let r := export_response regex_i toLocaleDateString toLocaleTimeString req w in
  (In d exported <->
   users w !! d.1 = Some d.2 /\ role d.2 = "agent"
   /\ (search <> "" -> search_hit regex_i search d.2))
  /\ (In d exported -> isDeleted d.2 = Some true -> ~ In d listed)
  /\ (In d listed -> In d exported)
  /\ (faults UserFind = None ->
      exportAgents faults regex_i toLocaleDateString toLocaleTimeString req w
      = (inr tt, add_response r w))
  /\ code r = 200
  /\ field "count" (payload r) = Some (JNum (Z.of_nat (length exported)))
  /\ data_of r
     = Some (map (fun a => export_row toLocaleDateString toLocaleTimeString a
                             (populate (categories w) (categoryIds a.2)))
                 agents)
  /\ agents ≡ₚ exported
  /\ StronglySorted newer_first agents.
Proof.
  intros search exported listed agents r. split_and!.
  - subst exported. rewrite select_spec, exportQuery_spec. tauto.
  - subst exported listed. rewrite !select_spec, listQuery_spec.
    intros _ Hd (_ & _ & Hd' & _). congruence.
  - subst exported listed. rewrite !select_spec, listQuery_spec, exportQuery_spec.
    tauto.
  - intros F. unfold_all. rewrite F. reflexivity.
  - reflexivity.
  - transitivity (Some (JNum (Z.of_nat (length
        (map (fun a => export_row toLocaleDateString toLocaleTimeString a
                         (populate (categories w) (categoryIds a.2)))
             (merge_sort newer_first exported)))))); [reflexivity|].
    by rewrite length_map,
         (Permutation_length (merge_sort_Permutation newer_first exported)).
  - reflexivity.
  - apply merge_sort_Permutation.
  - apply StronglySorted_merge_sort; apply _.
Qed.

(** *** Ticket status e-mail *)

(** [sendEmail] resolves, and hands at most one message to the provider:
    exactly one when the key is configured and the provider accepts it. *)
Lemma sendEmail_run (to : Recipients) (subject html : string)
      (text reply : option string) (w : World) :
  let msg :=
    mkSendSmtpEmail "Expand Machinery" (BREVO_API_EMEAIL env)
      (match to with Many l => l | One a => [a] end) subject html
      (if Js.truthy_opt text then text else None)
      (if Js.truthy_opt reply then reply else None) in
  exists result w',
    sendEmail env faults messageId to subject html text reply w = (inr result, w')
    /\ (outbox w' = outbox w \/ outbox w' = (outbox w ++ [msg])%list)
    /\ (Js.truthy_opt (BREVO_API_KEY env) = true ->
        faults SendTransacEmail = None ->
        result = Success (messageId msg) /\ outbox w' = (outbox w ++ [msg])%list).
Proof.
  unfold_all.
  destruct (Js.truthy_opt (BREVO_API_KEY env)) eqn:Hk; simpl.
  - destruct (faults SendTransacEmail) as [e|]; eexists _, _;
      (split; [reflexivity|]); simpl; split; eauto; done.
  - eexists _, _. split; [reflexivity|]. simpl. split; eauto; done.
Qed.

(** C5. [sendTicketUpdateStatusEmail] picks subject and template by the
    lower-cased status: [reopen] and [reopened] give 'Ticket Reopened - N',
    [pending] 'Ticket Pending - N', [in_progress] 'Ticket In Progress - N',
    [resolved] 'Ticket Resolved - N', [closed] 'Ticket Closed - N' and every
    other status 'Ticket Status Updated - N', where N is the ticket number
    (the ticket's [_id] when it has none). Two statuses that differ only in
    the case of their letters give the same subject. Each call makes one call
    of [sendEmail], to the customer's address with that subject, and reports
    its result; at most one message reaches the provider, and exactly one
    when the key is configured and the provider accepts. *)
Theorem ticket_status_email (ticket : Ticket) (customer : Customer) (w : World) :
  let status := Js.toLowerCase (t_status ticket) in
  let n := ticketNumberOf ticket in
  let choice := status_switch status (t_status ticket) n in
  let customerName :=
    if Js.truthy_opt (c_name customer) then default "Customer" (c_name customer)
    else "Customer" in
  let html :=
    statusHtml templates choice.2 (APP_URL env) customerName n
      (toLocaleString (default (t_createdAt ticket) (t_updatedAt ticket))) in
  let msg :=
    mkSendSmtpEmail "Expand Machinery" (BREVO_API_EMEAIL env)
      [c_email customer] choice.1 html None None in
  (status = "reopen" \/ status = "reopened" ->
   choice = ("Ticket Reopened - " +:+ n, TplReopened))
  /\ (status = "pending" -> choice = ("Ticket Pending - " +:+ n, TplPending))
  /\ (status = "in_progress" ->
      choice = ("Ticket In Progress - " +:+ n, TplInProgress))
  /\ (status = "resolved" -> choice = ("Ticket Resolved - " +:+ n, TplResolved))
  /\ (status = "closed" -> choice = ("Ticket Closed - " +:+ n, TplClosed))
  /\ (~ In status ["reopen"; "reopened"; "pending"; "in_progress"; "resolved"; "closed"] ->
      choice = ("Ticket Status Updated - " +:+ n,
                TplFallback (Js.toUpperCase (t_status ticket))))
  /\ (forall other,
         Js.toLowerCase (t_status other) = status ->
         ticketNumberOf other = n ->
         (status_switch (Js.toLowerCase (t_status other)) (t_status other)
                        (ticketNumberOf other)).1 = choice.1)
  /\ (exists result w',
         sendEmail env faults messageId (One (c_email customer)) choice.1 html
                   None None w = (inr result, w')
         /\ sendTicketUpdateStatusEmail env faults messageId templates toLocaleString
              ticket customer w
            = (inr (Results [("customer", result)]), w')
         /\ (outbox w' = outbox w \/ outbox w' = (outbox w ++ [msg])%list)
         /\ (Js.truthy_opt (BREVO_API_KEY env) = true ->
             faults SendTransacEmail = None ->
             result = Success (messageId msg)
             /\ outbox w' = (outbox w ++ [msg])%list)).
Proof.
  clear regex_i toLocaleDateString toLocaleTimeString model.
  intros status n choice customerName html msg. split_and!.
  - intros [H|H]; subst choice; unfold status_switch; by rewrite H.
  - intros H; subst choice; unfold status_switch; by rewrite H.
  - intros H; subst choice; unfold status_switch; by rewrite H.
  - intros H; subst choice; unfold status_switch; by rewrite H.
  - intros H; subst choice; unfold status_switch; by rewrite H.
  - intros H. subst choice. unfold status_switch.
    repeat match goal with
           | |- context [String.eqb status ?s] =>
               destruct (String.eqb_spec status s) as [E|_];
               [exfalso; apply H; rewrite E; simpl; tauto|]
           end.
    reflexivity.
  - intros other Hs Hn. rewrite Hs, Hn. subst choice. unfold status_switch.
    by repeat case_match.
  - destruct (sendEmail_run (One (c_email customer)) choice.1 html None None w)
      as (result & w' & Hrun & Hout & Hok).
    exists result, w'. split_and!; [exact Hrun| |exact Hout|exact Hok].
    unfold sendTicketUpdateStatusEmail. apply run_try. cbv zeta.
    change (status_switch (Js.toLowerCase (t_status ticket)) (t_status ticket)
                          (ticketNumberOf ticket)) with choice.
    subst html msg. clearbody choice. destruct choice as [subject template].
    cbv beta iota. eapply run_bind; [exact Hrun|reflexivity].
Qed.


End Properties.

(** * The statements on the sample data *)

Lemma agent_role_invariant_witness :
  let req := request_for sample_body 1 in
  let created :=
    createAgent sample_model sample_env all_up sample_regex sample_messageId
                sample_templates req sample_world in
  (users sample_world !! 5%nat = None
   /\ users created.2 !! 5%nat = Some (created_user sample_model req sample_world)
   /\ role (created_user sample_model req sample_world) = "agent"
   /\ status (created_user sample_model req sample_world) = "offline")
  /\ (all_up UserFindOne_agent = None
      /\ (forall u, users sample_world !! 1%nat = Some u -> role u <> "agent")
      /\ getAgent all_up sample_regex req sample_world
         = (inr tt, add_response (mkResponse 404 agent_not_found) sample_world))
  /\ (all_up UserFindById = None
      /\ users sample_world !! 1%nat = Some root_admin
      /\ role root_admin <> "agent"
      /\ toggleAgentStatus sample_model all_up sample_regex req sample_world
         = (inr tt, add_response (mkResponse 400 not_an_agent) sample_world))
  /\ (params malformed_request = NotAnId "abc"
      /\ deleteAgent sample_model all_up sample_regex malformed_request sample_world
         = (inr tt, add_response (mkResponse 500 server_error) sample_world)).
Proof.
  intros req created.
  pose proof (agent_role_invariant sample_model sample_env all_up sample_regex
                sample_messageId sample_templates req sample_world)
    as (Hcreated & H404 & H400 & H500).
  assert (users sample_world !! 1%nat = Some root_admin) as Hadmin
    by (vm_compute; reflexivity).
  assert (forall u, users sample_world !! 1%nat = Some u -> role u <> "agent") as Hrole.
  { intros u Hu. rewrite Hadmin in Hu. injection Hu as <-. discriminate. }
  assert (users sample_world !! 5%nat = None) as Hfree by (vm_compute; reflexivity).
  assert (users created.2 !! 5%nat = Some (created_user sample_model req sample_world))
    as Hnew by (vm_compute; reflexivity).
  split; [|split; [|split]].
  - split; [exact Hfree|]. split; [exact Hnew|]. exact (Hcreated 5%nat _ Hfree Hnew).
  - split; [reflexivity|]. split; [exact Hrole|]. apply (H404 eq_refl Hrole).
  - split; [reflexivity|]. split; [exact Hadmin|]. split; [discriminate|].
    apply (H400 eq_refl root_admin Hadmin). discriminate.
  - split; [reflexivity|]. apply (H500 malformed_request "abc" eq_refl).
Defined.

(** C1, as stated, fails for an id that is no [ObjectId]: the parameter
    'abc' matches no user, with or without role [agent], and [getAgent],
    [updateAgent] and [deleteAgent] answer 500 and not 404, although the
    database answers every call. *)
Lemma agent_role_invariant_counterexample :
  let answer (run : (Thrown + unit) * World) := last (responses run.2) in
  params malformed_request = NotAnId "abc"
  /\ (forall i, params malformed_request <> IdParam i)
  /\ (forall s, all_up s = None)
  /\ answer (getAgent all_up sample_regex malformed_request sample_world)
     = Some (mkResponse 500 server_error)
  /\ answer (deleteAgent sample_model all_up sample_regex malformed_request
                         sample_world)
     = Some (mkResponse 500 server_error)
  /\ answer (updateAgent sample_model all_up sample_regex malformed_request
                         sample_world)
     = Some (mkResponse 500
               (JObj [("success", JBool false);
                      ("message", JStr (message (CastError "abc")))]))
  /\ message_of (mkResponse 500 server_error) <> Some (JStr "Agent not found")
  /\ code (mkResponse 500 server_error) <> 404.
Proof.
  intros answer. split; [reflexivity|]. split; [discriminate|].
  split; [reflexivity|]. split; [reflexivity|]. split; [reflexivity|].
  split; [reflexivity|]. split; discriminate.
Qed.

Lemma createAgent_validation_witness :
  let taken := request_for duplicate_email_body 0 in
  let bare := request_for no_password_body 0 in
  let run req :=
    createAgent sample_model sample_env all_up sample_regex sample_messageId
                sample_templates req sample_world in
  let rejected m :=
    (inr tt, add_response (mkResponse 400 (just_message m)) sample_world) in
  all_up UserFindOne_email = None
  /\ all_up UserFindOne_phone = None
  /\ email_taken "ann@example.com" (users sample_world)
  /\ run taken = rejected "User with this email already exists"
  /\ ~ email_taken "eve@example.com" (users sample_world)
  /\ Js.truthy_opt (Body.password no_password_body) = false
  /\ run bare = rejected "Password is required".
Proof.
  intros taken bare run rejected.
  assert (email_taken "ann@example.com" (users sample_world)) as Hann.
  { exists 2%nat, ann. split; [vm_compute|]; reflexivity. }
  assert (~ email_taken "eve@example.com" (users sample_world)) as Heve.
  { apply (findOne_email_None sample_regex). vm_compute. reflexivity. }
  split; [reflexivity|]. split; [reflexivity|]. split; [exact Hann|].
  split; [|split; [exact Heve|split; [reflexivity|]]].
  - apply (createAgent_validation sample_model sample_env all_up sample_regex
             sample_messageId sample_templates taken sample_world eq_refl eq_refl).
    exact Hann.
  - apply (createAgent_validation sample_model sample_env all_up sample_regex
             sample_messageId sample_templates bare sample_world eq_refl eq_refl);
      [exact Heve| |reflexivity].
    intros [Hs _]. discriminate Hs.
Defined.

Lemma sendEmail_total_createAgent_201_witness :
  let req := request_for sample_body 0 in
  mail_and_push_down UserFindOne_email = None
  /\ mail_and_push_down UserFindOne_phone = None
  /\ mail_and_push_down UserCreate = None
  /\ mail_and_push_down LogActivity = None
  /\ mail_and_push_down SendTransacEmail <> None
  /\ mail_and_push_down SendPushNotification <> None
  /\ ~ email_taken "dee@example.com" (users sample_world)
  /\ ~ phone_taken "+15550001111" (users sample_world)
  /\ Js.truthy_opt (Body.password sample_body) = true
  /\ exists w' r id u,
       createAgent sample_model sample_env mail_and_push_down sample_regex
                   sample_messageId sample_templates req sample_world = (inr tt, w')
       /\ responses w' = (responses sample_world ++ [r])%list
       /\ users sample_world !! id = None
       /\ users w' !! id = Some u
       /\ code r = 201
       /\ message_of r = Some (JStr "Agent created successfully").
Proof.
  intros req.
  assert (~ email_taken "dee@example.com" (users sample_world)) as He.
  { apply (findOne_email_None sample_regex). vm_compute. reflexivity. }
  assert (~ phone_taken "+15550001111" (users sample_world)) as Hp.
  { apply (findOne_phone_None sample_regex). vm_compute. reflexivity. }
  do 4 (split; [reflexivity|]). do 2 (split; [discriminate|]).
  split; [exact He|]. split; [exact Hp|]. split; [reflexivity|].
  destruct (proj2 (sendEmail_total_createAgent_201 sample_model sample_env
                     mail_and_push_down sample_regex sample_messageId sample_templates)
              req sample_world eq_refl eq_refl eq_refl eq_refl He (fun _ => Hp) eq_refl)
    as (w' & r & id & u & H1 & H2 & H3 & H4 & H5 & H6 & _).
  by exists w', r, id, u.
Defined.

(** C3, as stated, fails for a negative limit or page: with [limit=-5] the
    handler asks the driver for five documents and answers 200 with the two
    agents of the sample collection, which is more than [l = -5]; with
    [page=-1] it asks to skip [-20] documents, the driver rejects that, and
    the answer is the 500 of the [catch] block, without pagination. *)
Lemma getAgentsList_pagination_counterexample :
  let req := query_request None (Some "-5") None in
  let req' := query_request (Some "-1") None None in
  (exists r agents,
      limit_of req = -5
      /\ page_of req = 1
      /\ getAgentsList all_up sample_regex req sample_world
         = (inr tt, add_response r sample_world)
      /\ code r = 200
      /\ data_of r = Some agents
      /\ ~ (Z.of_nat (length agents) <= limit_of req))
  /\ page_of req' = -1
  /\ limit_of req' = 10
  /\ getAgentsList all_up sample_regex req' sample_world
     = (inr tt, add_response (mkResponse 500 server_error) sample_world)
  /\ field "pagination" server_error = None.
Proof.
  intros req req'. split.
  - assert (exists r, getAgentsList all_up sample_regex req sample_world
                      = (inr tt, add_response r sample_world)
                      /\ code r = 200
                      /\ exists agents, data_of r = Some agents /\ length agents = 2%nat)
      as (r & Hrun & Hcode & agents & Hdata & Hlen).
    { eexists. split; [vm_compute; reflexivity|]. split; [reflexivity|].
      eexists. split; reflexivity. }
    exists r, agents. rewrite Hlen.
    split; [reflexivity|]. split; [reflexivity|]. split; [exact Hrun|].
    split; [exact Hcode|]. split; [exact Hdata|].
    vm_compute. intros H. by apply H.
  - split; [reflexivity|]. split; [reflexivity|].
    split; [vm_compute; reflexivity|reflexivity].
Qed.

Lemma getAgentsList_pagination_witness :
  let req := query_request (Some "2") (Some "1") None in
  all_up UserCountDocuments = None
  /\ all_up UserFind = None
  /\ 1 <= page_of req
  /\ 1 <= limit_of req
  /\ safe_integer (page_of req)
  /\ safe_integer (limit_of req)
  /\ safe_integer ((page_of req - 1) * limit_of req)
  /\ safe_integer
       (Z.of_nat (length (select sample_regex (listQuery (search_of req))
                                 (users sample_world))))
  /\ getAgentsList all_up sample_regex req sample_world
     = (inr tt, add_response (list_response sample_regex req sample_world) sample_world)
  /\ data_of (list_response sample_regex req sample_world)
     = Some [agent_json (2%nat, ann) [(7%nat, "Hydraulics")]].
Proof.
  intros req.
  assert (1 <= page_of req) as Hp by (by vm_compute).
  assert (1 <= limit_of req) as Hl by (by vm_compute).
  assert (safe_integer (page_of req)) as Sp by (by vm_compute).
  assert (safe_integer (limit_of req)) as Sl by (by vm_compute).
  assert (safe_integer ((page_of req - 1) * limit_of req)) as Ss by (by vm_compute).
  assert (safe_integer
            (Z.of_nat (length (select sample_regex (listQuery (search_of req))
                                      (users sample_world))))) as St
    by (by vm_compute).
  do 2 (split; [reflexivity|]). split; [exact Hp|]. split; [exact Hl|].
  split; [exact Sp|]. split; [exact Sl|]. split; [exact Ss|]. split; [exact St|].
  destruct (getAgentsList_pagination all_up sample_regex req sample_world
              eq_refl eq_refl Hp Hl Sp Sl Ss St) as (Hrun & _ & Hdata & _).
  split; [exact Hrun|]. rewrite Hdata. vm_compute. reflexivity.
Defined.

Lemma getAgentsList_search_witness :
  let req := query_request None None (Some "LEE") in
  all_up UserCountDocuments = None
  /\ all_up UserFind = None
  /\ 1 <= page_of req
  /\ 1 <= limit_of req
  /\ search_of req = "LEE"
  /\ (In (2%nat, ann) (select sample_regex (listQuery "LEE") (users sample_world))
      <-> users sample_world !! 2%nat = Some ann /\ role ann = "agent"
          /\ isDeleted ann = Some false
          /\ ("LEE" <> "" -> search_hit sample_regex "LEE" ann))
  /\ getAgentsList all_up sample_regex req sample_world
     = (inr tt, add_response (list_response sample_regex req sample_world) sample_world).
Proof.
  intros req.
  assert (1 <= page_of req) as Hp by (by vm_compute).
  assert (1 <= limit_of req) as Hl by (by vm_compute).
  destruct (getAgentsList_search all_up sample_regex req sample_world (2%nat, ann))
    as (Hset & _ & Hsearch & Hrun).
  do 2 (split; [reflexivity|]). split; [exact Hp|]. split; [exact Hl|].
  split; [exact (Hsearch "LEE" eq_refl)|]. split; [exact Hset|].
  exact (proj1 (Hrun eq_refl eq_refl Hp Hl)).
Defined.

Lemma exportAgents_includes_deleted_witness :
  let req := query_request (Some "2") (Some "1") None in
  let exported := select sample_regex (exportQuery "") (users sample_world) in
  let listed := select sample_regex (listQuery "") (users sample_world) in
  all_up UserFind = None
  /\ isDeleted bob = Some true
  /\ In (3%nat, bob) exported
  /\ ~ In (3%nat, bob) listed
  /\ exportAgents all_up sample_regex sample_date sample_date req sample_world
     = (inr tt,
        add_response (export_response sample_regex sample_date sample_date req
                                      sample_world) sample_world)
  /\ field "count" (payload (export_response sample_regex sample_date sample_date req
                                             sample_world))
     = Some (JNum 3).
Proof.
  intros req exported listed.
  destruct (exportAgents_includes_deleted all_up sample_regex sample_date sample_date
              req sample_world (3%nat, bob))
    as (Hset & Hdel & _ & Hrun & _ & Hcount & _).
  assert (In (3%nat, bob) exported) as Hin.
  { apply Hset. split; [vm_compute; reflexivity|]. split; [reflexivity|]. by intros []. }
  split; [reflexivity|]. split; [reflexivity|]. split; [exact Hin|].
  split; [exact (Hdel Hin eq_refl)|]. split; [exact (Hrun eq_refl)|].
  rewrite Hcount. vm_compute. reflexivity.
Defined.

Lemma ticket_status_email_witness :
  let n := ticketNumberOf pending_ticket in
  let html :=
    statusHtml sample_templates TplPending (APP_URL configured_env) "Pat" n
               (sample_date 50) in
  let msg :=
    mkSendSmtpEmail "Expand Machinery" (BREVO_API_EMEAIL configured_env)
                    ["pat@example.com"] "Ticket Pending - TCK-42" html None None in
  Js.toLowerCase (t_status pending_ticket) = "pending"
  /\ status_switch (Js.toLowerCase (t_status pending_ticket))
                   (t_status pending_ticket) n
     = ("Ticket Pending - TCK-42", TplPending)
  /\ Js.truthy_opt (BREVO_API_KEY configured_env) = true
  /\ all_up SendTransacEmail = None
  /\ sendTicketUpdateStatusEmail configured_env all_up sample_messageId
       sample_templates sample_date pending_ticket sample_customer sample_world
     = (inr (Results [("customer", Success (sample_messageId msg))]),
        add_mail msg (set_apiKeyAuth (BREVO_API_KEY configured_env) sample_world)).
Proof.
  intros n html msg.
  destruct (ticket_status_email configured_env all_up sample_messageId
              sample_templates sample_date pending_ticket sample_customer sample_world)
    as (_ & Hpending & _ & _ & _ & _ & _ & result & w' & Hsend & Hrun & _ & Hok).
  split; [reflexivity|]. split; [exact (Hpending eq_refl)|].
  split; [reflexivity|]. split; [reflexivity|].
  destruct (Hok eq_refl eq_refl) as [Hres Hout].
  rewrite Hrun, Hres. f_equal.
  vm_compute in Hsend. by injection Hsend as _ <-.
Defined.

Lemma deleteAgent_soft_delete_witness :
  let req := request_for sample_body 2 in
  all_up UserFindOne_agent = None
  /\ all_up UserSave = None
  /\ all_up NotificationCreate = None
  /\ all_up LogActivity = None
  /\ users sample_world !! 2%nat = Some ann
  /\ role ann = "agent"
  /\ truthy_bool (isDeleted ann) = false
  /\ exists w1 u1,
       deleteAgent sample_model all_up sample_regex req sample_world = (inr tt, w1)
       /\ users w1 !! 2%nat = Some u1
       /\ isDeleted u1 = Some true
       /\ deletedAt u1 = Some 100
       /\ name u1 = "Ann Lee"
       /\ deleteAgent sample_model all_up sample_regex req w1
          = (inr tt,
             add_response (mkResponse 400 (just_message "Agent is already deleted")) w1).
Proof.
  intros req.
  assert (users sample_world !! 2%nat = Some ann) as Hann by (vm_compute; reflexivity).
  do 4 (split; [reflexivity|]). split; [exact Hann|]. do 2 (split; [reflexivity|]).
  destruct (deleteAgent_soft_delete sample_model all_up sample_regex req sample_world ann
              eq_refl eq_refl eq_refl eq_refl Hann eq_refl eq_refl)
    as (w1 & u1 & Hrun & _ & Hu1 & Hdel & Hat & Hname & Hrest).
  exists w1, u1. split; [exact Hrun|]. split; [exact Hu1|]. split; [exact Hdel|].
  split; [exact Hat|]. split; [exact Hname|].
  apply Hrest.
Defined.

(** C9, as stated, fails for a last name that ends with a space: the first
    name 'Al' is not empty and has no space, and the pair ('Al', 'Smith ')
    comes back as ('Al', 'Smith'). *)
Lemma name_round_trip_counterexample :
  let req := request_for trailing_space_body 0 in
  Body.firstName (body req) <> ""
  /\ contains_space (Body.firstName (body req)) = false
  /\ Body.lastName (body req) = "Smith "
  /\ create_then_get sample_model sample_env all_up sample_regex sample_messageId
       sample_templates req sample_world ≫= field "firstName" = Some (JStr "Al")
  /\ create_then_get sample_model sample_env all_up sample_regex sample_messageId
       sample_templates req sample_world ≫= field "lastName" = Some (JStr "Smith")
  /\ name_round_trip "Al" "Smith " <> ("Al", "Smith ").
Proof.
  intros req. split; [discriminate|]. split; [reflexivity|]. split; [reflexivity|].
  split; [vm_compute; reflexivity|]. split; [vm_compute; reflexivity|].
  vm_compute. discriminate.
Qed.

Lemma name_round_trip_amended_witness :
  let req := request_for sample_body 0 in
  all_up UserFindOne_email = None
  /\ all_up UserFindOne_phone = None
  /\ all_up UserCreate = None
  /\ all_up LogActivity = None
  /\ all_up UserFindOne_agent = None
  /\ ~ email_taken "dee@example.com" (users sample_world)
  /\ ~ phone_taken "+15550001111" (users sample_world)
  /\ Js.truthy_opt (Body.password sample_body) = true
  /\ "Dee" <> ""
  /\ contains_space "Dee" = false
  /\ starts_with_ws "Dee" = false
  /\ ends_with_ws "Dow" = false
  /\ exists data,
       create_then_get sample_model sample_env all_up sample_regex sample_messageId
                       sample_templates req sample_world = Some data
       /\ field "firstName" data = Some (JStr "Dee")
       /\ field "lastName" data = Some (JStr "Dow").
Proof.
  intros req.
  assert (~ email_taken "dee@example.com" (users sample_world)) as He.
  { apply (findOne_email_None sample_regex). vm_compute. reflexivity. }
  assert (~ phone_taken "+15550001111" (users sample_world)) as Hp.
  { apply (findOne_phone_None sample_regex). vm_compute. reflexivity. }
  do 5 (split; [reflexivity|]). split; [exact He|]. split; [exact Hp|].
  split; [reflexivity|]. split; [discriminate|]. do 3 (split; [reflexivity|]).
  apply (name_round_trip_amended sample_model sample_env all_up sample_regex
           sample_messageId sample_templates req sample_world
           eq_refl eq_refl eq_refl eq_refl eq_refl He (fun _ => Hp) eq_refl);
    [discriminate|reflexivity|reflexivity|reflexivity].
Defined.

(** * The primitives on examples *)

Example trim_ex : Js.trim "  Ann Lee  " = "Ann Lee".
Proof. reflexivity. Qed.

Example trim_unicode_ex :
  Js.trim (nbsp +:+ " Ann" +:+ nbsp +:+ "Lee " +:+ nbsp) = "Ann" +:+ nbsp +:+ "Lee".
Proof. reflexivity. Qed.

Example split_ex : Js.split_space "a  b c" = ["a"; ""; "b"; "c"].
Proof. reflexivity. Qed.

Example parseInt_ex :
  map Js.parseInt_string ["12abc"; " -7"; "abc"; "0x1A"; "0"; ""; "+3"]
  = [Some 12; Some (-7); None; Some 26; Some 0; None; Some 3].
Proof. reflexivity. Qed.

Example parseInt_unicode_ex : Js.parseInt_string (nbsp +:+ " 2") = Some 2.
Proof. reflexivity. Qed.

Example ceil_ex :
  map (fun a => Js.ceil_div a 10) [0; 1; 10; 11; 25] = [0; 1; 1; 2; 3].
Proof. reflexivity. Qed.

Example normalizedPhone_ex :
  map normalizedPhone ["(555) 000-1111"; "555-0001"; "+1 555 000 1111"]
  = ["+15550001111"; "555-0001"; "+1 555 000 1111"].
Proof. reflexivity. Qed.

Example name_round_trip_space :
  name_round_trip "Mary Ann" "Smith" = ("Mary", "Ann Smith").
Proof. reflexivity. Qed.

Example name_round_trip_nbsp :
  name_round_trip "Al" ("Smith" +:+ nbsp) = ("Al", "Smith").
Proof. reflexivity. Qed.

Example status_switch_ex :
  map (fun s => (status_switch (Js.toLowerCase s) s "T-1").1)
      ["ReOpen"; "REOPENED"; "pending"; "In_Progress"; "resolved"; "Closed"; "open"]
  = ["Ticket Reopened - T-1"; "Ticket Reopened - T-1"; "Ticket Pending - T-1";
     "Ticket In Progress - T-1"; "Ticket Resolved - T-1"; "Ticket Closed - T-1";
     "Ticket Status Updated - T-1"].
Proof. reflexivity. Qed.

Example sendEmail_without_key :
  (sendEmail sample_env all_up sample_messageId (One "pat@example.com") "Hello"
             "<p>Hi</p>" None None sample_world).1
  = inr (Failure (ErrMessage "BREVO_API_KEY is not defined in environment variables")).
Proof. reflexivity. Qed.

(** * Further properties of the controller and of the e-mail service *)

Section More.

Context (model : UserModel) (env : Env) (faults : Site -> option Thrown).
Context (regex_i : string -> string -> bool).
Context (messageId : SendSmtpEmail -> string).
Context (templates : Templates).
Context (toLocaleDateString toLocaleTimeString toLocaleString : Z -> string).

#[local] Existing Instances newer_first_total newer_first_trans.

Lemma keeps_save {B} (proj : World -> B) pm fm d :
  (forall f w, proj (set_users f w) = proj w) ->
  keeps proj (User_save model faults pm fm d).
Proof. intros H. apply keeps_external, keeps_fun. intros w. apply H. Qed.

Lemma keeps_res {B} (proj : World -> B) c j :
  (forall r w, proj (add_response r w) = proj w) ->
  keeps proj (res_status_json c j).
Proof. intros H. apply keeps_modify. intros w. apply H. Qed.

Ltac frame_tac :=
  repeat first
    [ apply keeps_findOne | apply keeps_find
    | apply keeps_res; reflexivity
    | apply keeps_save; reflexivity
    | apply keeps_logActivity; reflexivity
    | apply keeps_push; reflexivity
    | apply keeps_notification; reflexivity
    | apply keeps_sendEmail; reflexivity
    | apply keeps_ret | apply keeps_gets | apply keeps_throw
    | apply keeps_external
    | apply keeps_tryCatch; [|intros ?]
    | apply keeps_bind; [|intros ?]
    | match goal with
      | |- keeps _ (if ?b then _ else _) => destruct b
      | |- keeps _ (match ?x with _ => _ end) => destruct x
      end ].

Lemma read_only_intro (m : M unit) :
  keeps users m -> keeps categories m -> keeps notifications m ->
  keeps activityLog m -> keeps pushed m -> keeps outbox m ->
  keeps apiKeyAuth m -> keeps now m -> read_only m.
Proof. intros H1 H2 H3 H4 H5 H6 H7 H8 w. repeat split; by auto. Qed.

(** X1. The four handlers that only read ([getAgentsList], [getAgent],
    [getCategoryList], [exportAgents]) change nothing but the list of
    responses, on every path: no document is written, nothing is logged,
    pushed or mailed, whether the database answers or not. *)
Theorem read_handlers_read_only (req : HttpRequest) :
  read_only (getAgentsList faults regex_i req)
  /\ read_only (getAgent faults regex_i req)
  /\ read_only (getCategoryList faults req)
  /\ read_only (exportAgents faults regex_i toLocaleDateString toLocaleTimeString req).
Proof.
  clear model env messageId templates toLocaleString.
  split_and!.
  - unfold getAgentsList, User_countDocuments, res_json.
    apply read_only_intro; frame_tac.
  - unfold getAgent, res_json. apply read_only_intro; frame_tac.
  - unfold getCategoryList, Category_find, res_json. apply read_only_intro; frame_tac.
  - unfold exportAgents, res_json. apply read_only_intro; frame_tac.
Qed.

(** *** The handlers that write *)

Lemma confined_refl (id : nat) (m : gmap nat User) : confined_to id m m.
Proof. split_and!; [done|done|]. intros u u' H1 H2. by simplify_eq. Qed.

Lemma confined_insert (id : nat) (u u1 : User) (m : gmap nat User) :
  m !! id = Some u ->
  role u1 = role u -> status u1 = status u -> createdAt u1 = createdAt u ->
  confined_to id m (<[id := u1]> m).
Proof.
  intros Hu Hr Hs Hc. split_and!.
  - by apply dom_insert_lookup_L.
  - intros j Hj. by rewrite lookup_insert_ne.
  - intros v v' Hv Hv'. rewrite lookup_insert_eq in Hv'. by simplify_eq.
Qed.

Lemma confines_keeps {A} (id : nat) (P : World -> Prop) (m : M A) :
  keeps users m -> confines id P m.
Proof. intros H w _. rewrite (H w). apply confined_refl. Qed.

Lemma confines_tryCatch {A} (id : nat) (P : World -> Prop) (m : M A)
      (h : Thrown -> M A) :
  confines id P m -> (forall e, keeps users (h e)) -> confines id P (tryCatch m h).
Proof.
  intros Hm Hh w HP. specialize (Hm w HP). unfold tryCatch.
  destruct (m w) as [[e|a] w1]; simpl in *; [|done].
  by rewrite (Hh e w1).
Qed.

Lemma confines_gets {A B} (id : nat) (P : World -> Prop) (f : World -> A)
      (k : A -> M B) :
  (forall a, confines id P (k a)) -> confines id P (gets f ≫= k).
Proof. intros Hk w HP. apply (Hk (f w) w HP). Qed.

Lemma confines_findOne {B} (id : nat) (P : World -> Prop) (s : Site)
      (q : list Cond) (k : option (nat * User) -> M B) :
  (forall found,
      confines id (fun w => P w /\ head (select regex_i q (users w)) = found) (k found)) ->
  confines id P (User_findOne faults regex_i s q ≫= k).
Proof.
  intros Hk w HP. unfold mbind, M_bind, User_findOne, external.
  destruct (castError q) as [e|]; [apply confined_refl|].
  destruct (faults s) as [e|]; [apply confined_refl|].
  by apply (Hk _ w).
Qed.

Lemma confines_save {B} (id : nat) (P : World -> Prop) (pm fm : bool)
      (d : nat * User) (k : nat * User -> M B) :
  (forall w, P w ->
     d.1 = id /\ exists u, users w !! id = Some u /\ role d.2 = role u
                           /\ status d.2 = status u /\ createdAt d.2 = createdAt u) ->
  (forall a, keeps users (k a)) ->
  confines id P (User_save model faults pm fm d ≫= k).
Proof.
  intros Hd Hk w HP. destruct (Hd w HP) as (Hid & u & Hu & Hr & Hs & Hc).
  unfold mbind, M_bind, User_save, external.
  destruct (faults UserSave) as [e|]; [apply confined_refl|].
  rewrite (Hk _ _). rewrite Hid. simpl. by apply (confined_insert id u).
Qed.

(** The document a query by [_id] and role finds is the one stored under
    the id. *)
Lemma found_by_id (id : nat) (rest : list Cond) (m : gmap nat User) (d : nat * User) :
  head (select regex_i (IdIs (IdParam id) :: rest) m) = Some d ->
  d.1 = id /\ m !! id = Some d.2.
Proof.
  rewrite findOne_by_id. destruct (m !! id) as [u|]; [|done].
  destruct (matches regex_i rest (id, u)); [|done]. by intros [= <-].
Qed.

(** X2. On every path, whatever fails, [updateAgent], [deleteAgent] and
    [toggleAgentStatus] neither add nor remove a document, leave every
    document but the one named by the request as it is, and never change the
    role, the status or the creation date of that one. *)
Theorem writers_confined (req : Request) (w : World) :
  confined_to (params_id req) (users w)
              (users (updateAgent model faults regex_i req w).2)
  /\ confined_to (params_id req) (users w)
                 (users (deleteAgent model faults regex_i req w).2)
  /\ confined_to (params_id req) (users w)
                 (users (toggleAgentStatus model faults regex_i req w).2).
Proof.
  clear env messageId templates toLocaleDateString toLocaleTimeString toLocaleString.
  split_and!.
  - apply (confines_tryCatch _ (fun _ => True)); [|intros e; frame_tac|done].
    cbv zeta. apply confines_findOne. intros [[aid original]|];
      [|apply confines_keeps; frame_tac].
    apply confines_save; [|intros a; frame_tac].
    intros v [_ Hf]. apply found_by_id in Hf as [Hid Hu]. simpl in *.
    split; [done|]. exists original. split; [done|].
    repeat case_match; done.
  - apply (confines_tryCatch _ (fun _ => True)); [|intros e; frame_tac|done].
    apply confines_findOne. intros [agent|]; [|apply confines_keeps; frame_tac].
    destruct (truthy_bool (isDeleted agent.2)); [apply confines_keeps; frame_tac|].
    apply confines_gets. intros date.
    apply confines_save; [|intros a; frame_tac].
    intros v [_ Hf]. apply found_by_id in Hf as [Hid Hu].
    split; [done|]. by exists agent.2.
  - apply (confines_tryCatch _ (fun _ => True)); [|intros e; frame_tac|done].
    apply confines_findOne. intros [agent|]; [|apply confines_keeps; frame_tac].
    destruct (negb _); [apply confines_keeps; frame_tac|].
    apply confines_save; [|intros a; frame_tac].
    intros v [_ Hf]. apply found_by_id in Hf as [Hid Hu].
    split; [done|]. by exists agent.2.
Qed.

(** The run of [toggleAgentStatus] on an agent, the services answering. *)
Lemma toggle_run (req : Request) (w : World) (u : User) :
  faults UserFindById = None ->
  faults UserSave = None ->
  faults LogActivity = None ->
  users w !! params_id req = Some u ->
  role u = "agent" ->
  let id := params_id req in
  let u1 := preSave model false false
              (set_isActive (Some (negb (truthy_bool (isActive u)))) u) in
  let action := if truthy_bool (isActive u1) then "activated" else "deactivated" in
  toggleAgentStatus model faults regex_i req w
  = (inr tt,
     add_response
       (mkResponse 200
          (JObj [("success", JBool true);
                 ("message", JStr ("Agent " +:+ action +:+ " successfully"));
                 ("data", user_json (id, u1))]))
       (add_activity
          (mkActivity (Some id) ("Agent (" +:+ email u1 +:+ ") " +:+ action) "updated")
          (set_users (insert id u1) w))).
Proof.
  intros F1 F2 F3 Hu Hr id u1 action.
  unfold toggleAgentStatus. apply run_try. cbv zeta. cast_id.
  eapply run_bind; [by apply run_findOne|].
  rewrite findOne_by_id, Hu.
  change (matches regex_i [] (params_id req, u)) with true. cbv beta iota.
  cbn [snd fst]. rewrite Hr. change (negb ("agent" =? "agent")%string) with false.
  cbv beta iota.
  eapply run_bind; [by apply run_save|].
  eapply run_bind; [by apply run_logActivity|].
  reflexivity.
Qed.

(** X3. [toggleAgentStatus] on an agent, the services answering: the stored
    document gets the opposite activity status (an undefined one counts as
    inactive) and keeps every other field; the handler logs the change under
    the agent's id and answers 200 with 'Agent activated successfully' or
    'Agent deactivated successfully' according to the new status, and with
    the updated document. *)
Theorem toggle_flips_isActive (req : Request) (w : World) (u : User) :
  faults UserFindById = None ->
  faults UserSave = None ->
  faults LogActivity = None ->
  users w !! params_id req = Some u ->
  role u = "agent" ->
  let id := params_id req in
  let active := negb (truthy_bool (isActive u)) in
  let action := if active then "activated" else "deactivated" in
  exists w1 u1 r,
    toggleAgentStatus model faults regex_i req w = (inr tt, w1)
    /\ users w1 = <[id := u1]> (users w)
    /\ isActive u1 = Some active
    /\ name u1 = name u /\ email u1 = email u /\ password u1 = password u
    /\ role u1 = role u /\ phone u1 = phone u /\ categoryIds u1 = categoryIds u
    /\ status u1 = status u /\ isDeleted u1 = isDeleted u
    /\ deletedAt u1 = deletedAt u /\ createdAt u1 = createdAt u
    /\ activityLog w1
       = (activityLog w
            ++ [mkActivity (Some id) ("Agent (" +:+ email u +:+ ") " +:+ action)
                           "updated"])%list
    /\ responses w1 = (responses w ++ [r])%list
    /\ code r = 200
    /\ message_of r = Some (JStr ("Agent " +:+ action +:+ " successfully"))
    /\ field "data" (payload r) = Some (user_json (id, u1)).
Proof.
  clear env messageId templates toLocaleDateString toLocaleTimeString toLocaleString.
  intros F1 F2 F3 Hu Hr id active action.
  eexists _, _, _. split; [by apply toggle_run|].
  split_and!; reflexivity.
Qed.

(** X4. Toggling an agent twice, the services answering, gives back its
    activity status (an undefined one becomes [false]) and leaves every other
    field of the document, and every other document, as they were. *)
Theorem toggle_twice (req : Request) (w : World) (u : User) :
  faults UserFindById = None ->
  faults UserSave = None ->
  faults LogActivity = None ->
  users w !! params_id req = Some u ->
  role u = "agent" ->
  let id := params_id req in
  exists w1 w2 u2,
    toggleAgentStatus model faults regex_i req w = (inr tt, w1)
    /\ toggleAgentStatus model faults regex_i req w1 = (inr tt, w2)
    /\ users w2 !! id = Some u2
    /\ isActive u2 = Some (truthy_bool (isActive u))
    /\ name u2 = name u /\ email u2 = email u /\ password u2 = password u
    /\ role u2 = role u /\ phone u2 = phone u /\ categoryIds u2 = categoryIds u
    /\ status u2 = status u /\ isDeleted u2 = isDeleted u
    /\ deletedAt u2 = deletedAt u /\ createdAt u2 = createdAt u
    /\ (forall j, j <> id -> users w2 !! j = users w !! j).
Proof.
  clear env messageId templates toLocaleDateString toLocaleTimeString toLocaleString.
  intros F1 F2 F3 Hu Hr id.
  eexists _, _, _. split; [by apply toggle_run|].
  split.
  { apply (toggle_run req _
             (preSave model false false
                (set_isActive (Some (negb (truthy_bool (isActive u)))) u)));
      [done|done|done| |exact Hr].
    cbn [users set_users add_response add_activity]. apply lookup_insert_eq. }
  split; [cbn [users set_users add_response add_activity]; apply lookup_insert_eq|].
  split.
  { cbn [isActive preSave set_isActive]. f_equal.
    by destruct (truthy_bool (isActive u)). }
  split_and!; try reflexivity.
  intros j Hj. cbn [users set_users add_response add_activity].
  by rewrite !lookup_insert_ne.
Qed.

(** The run of [updateAgent] on an agent, the database and the activity log
    answering, whatever the push service does. *)
Lemma updateAgent_run (req : Request) (w : World) (u : User) :
  faults UserFindOne_agent = None ->
  faults UserSave = None ->
  faults LogActivity = None ->
  users w !! params_id req = Some u ->
  role u = "agent" ->
  let id := params_id req in
  let u' := updated_doc model (body req) u in
  exists w',
    updateAgent model faults regex_i req w = (inr tt, w')
    /\ (users w' = <[id := u']> (users w)
        /\ activityLog w' = (activityLog w ++ [update_activity u u'])%list
        /\ responses w' = (responses w ++ [update_response id u'])%list
        /\ outbox w' = outbox w
        /\ notifications w' = notifications w).
Proof.
  intros F1 F2 F3 Hu Hr id u'.
  unfold updateAgent. apply step_try. cbv zeta. cast_id.
  eapply step_bind; [by apply run_findOne|].
  rewrite findOne_by_id, Hu.
  replace (matches regex_i [RoleIs "agent"] (params_id req, u)) with true
    by (cbn [matches forallb cond_matches snd]; by rewrite Hr).
  cbv beta iota.
  eapply step_bind; [by apply run_save|].
  eapply step_bind; [by apply run_logActivity|].
  apply step_swallow. intros w3 K3.
  eexists. split; [reflexivity|].
  assert (forall B (proj : World -> B),
             (forall x v, proj (add_push x v) = proj v) ->
             proj w3 = proj (add_activity (update_activity u u')
                               (set_users (insert id u') w))) as K.
  { intros B proj H. rewrite K3; [reflexivity|]. by apply keeps_push. }
  split_and!.
  - change (users (add_response ?r w3)) with (users w3). by rewrite K.
  - change (activityLog (add_response ?r w3)) with (activityLog w3). by rewrite K.
  - change (responses (add_response ?r w3)) with (responses w3 ++ [r])%list.
    by rewrite K.
  - change (outbox (add_response ?r w3)) with (outbox w3). by rewrite K.
  - change (notifications (add_response ?r w3)) with (notifications w3). by rewrite K.
Qed.

Lemma updated_doc_fields (b : Body.t) (u : User) :
  let u' := updated_doc model b u in
  name u' = (if Js.truthy (Body.firstName b) && Js.truthy (Body.lastName b)
             then Js.trim (Body.firstName b +:+ " " +:+ Body.lastName b)
             else name u)
  /\ email u' = (if Js.truthy (Body.email b) then Body.email b else email u)
  /\ phone u' = match Body.phone b with
                | Some p => normalizePhone model
                              (if Js.truthy p then Js.digits_only p else "")
                | None => phone u
                end
  /\ password u' = (if password_given (Body.password b)
                    then hashPassword model (default "" (Body.password b))
                    else password u)
  /\ categoryIds u' = default (categoryIds u) (Body.categoryId b)
  /\ role u' = role u /\ status u' = status u /\ isActive u' = isActive u
  /\ isDeleted u' = isDeleted u /\ deletedAt u' = deletedAt u
  /\ createdAt u' = createdAt u.
Proof.
  unfold updated_doc, password_given.
  destruct (Js.truthy (Body.firstName b) && Js.truthy (Body.lastName b)),
    (Js.truthy (Body.email b)), (Body.phone b) as [p|],
    (Body.categoryId b) as [c|], (Body.password b) as [pw|];
    try destruct (Js.truthy pw && negb (String.eqb (Js.trim pw) ""));
    cbv zeta; split_and!; reflexivity.
Qed.

(** X5. [updateAgent] on an agent, the database and the activity log
    answering (the push service may fail): the handler answers 200 and the
    stored document is the old one except that the name is the trimmed
    [firstName + ' ' + lastName] when both are non-empty, the e-mail is the
    given one when it is non-empty, the phone, when the field is present, is
    what the model's hook makes of the digits of the input, the password is
    the hash of the given one when that is present and not blank, and the
    categories are the given ones when the field is present. Role, status,
    activity, deletion marks and creation date are never changed. *)
Theorem updateAgent_fields (req : Request) (w : World) (u : User) :
  faults UserFindOne_agent = None ->
  faults UserSave = None ->
  faults LogActivity = None ->
  users w !! params_id req = Some u ->
  role u = "agent" ->
  let b := body req in
  exists w' u',
    updateAgent model faults regex_i req w = (inr tt, w')
    /\ users w' = <[params_id req := u']> (users w)
    /\ responses w' = (responses w ++ [update_response (params_id req) u'])%list
    /\ name u' = (if Js.truthy (Body.firstName b) && Js.truthy (Body.lastName b)
                  then Js.trim (Body.firstName b +:+ " " +:+ Body.lastName b)
                  else name u)
    /\ email u' = (if Js.truthy (Body.email b) then Body.email b else email u)
    /\ phone u' = match Body.phone b with
                  | Some p => normalizePhone model
                                (if Js.truthy p then Js.digits_only p else "")
                  | None => phone u
                  end
    /\ password u' = (if password_given (Body.password b)
                      then hashPassword model (default "" (Body.password b))
                      else password u)
    /\ categoryIds u' = default (categoryIds u) (Body.categoryId b)
    /\ role u' = role u /\ status u' = status u /\ isActive u' = isActive u
    /\ isDeleted u' = isDeleted u /\ deletedAt u' = deletedAt u
    /\ createdAt u' = createdAt u.
Proof.
  clear env messageId templates toLocaleDateString toLocaleTimeString toLocaleString.
  intros F1 F2 F3 Hu Hr b.
  destruct (updateAgent_run req w u F1 F2 F3 Hu Hr) as (w' & Hrun & Hus & _ & Hres & _).
  exists w', (updated_doc model (body req) u).
  split; [exact Hrun|]. split; [exact Hus|]. split; [exact Hres|].
  apply updated_doc_fields.
Qed.

(** X6. An update that gives nothing (no complete name, no e-mail, no phone
    field, no password or a blank one, no categories) leaves every field of
    the document as it was; the handler still answers 200 and logs an update
    without a list of changes. *)
Theorem updateAgent_nothing_given (req : Request) (w : World) (u : User) :
  faults UserFindOne_agent = None ->
  faults UserSave = None ->
  faults LogActivity = None ->
  users w !! params_id req = Some u ->
  role u = "agent" ->
  let b := body req in
  Js.truthy (Body.firstName b) && Js.truthy (Body.lastName b) = false ->
  Js.truthy (Body.email b) = false ->
  Body.phone b = None ->
  password_given (Body.password b) = false ->
  Body.categoryId b = None ->
  exists w' u',
    updateAgent model faults regex_i req w = (inr tt, w')
    /\ users w' = <[params_id req := u']> (users w)
    /\ name u' = name u /\ email u' = email u /\ phone u' = phone u
    /\ password u' = password u /\ categoryIds u' = categoryIds u
    /\ role u' = role u /\ status u' = status u /\ isActive u' = isActive u
    /\ isDeleted u' = isDeleted u /\ deletedAt u' = deletedAt u
    /\ createdAt u' = createdAt u
    /\ activityLog w'
       = (activityLog w
            ++ [mkActivity None
                  ("You have successfully updated agent " +:+ Js.dq +:+ name u
                     +:+ Js.dq) "updated"])%list
    /\ responses w' = (responses w ++ [update_response (params_id req) u'])%list.
Proof.
  clear env messageId templates toLocaleDateString toLocaleTimeString toLocaleString.
  intros F1 F2 F3 Hu Hr b Hn He Hp Hpw Hc. subst b.
  destruct (updateAgent_run req w u F1 F2 F3 Hu Hr) as (w' & Hrun & Hus & Hact & Hres & _).
  destruct (updated_doc_fields (body req) u)
    as (H1 & H2 & H3 & H4 & H5 & H6 & H7 & H8 & H9 & H10 & H11).
  rewrite Hn in H1. rewrite He in H2.
  rewrite Hp in H3. rewrite Hpw in H4. rewrite Hc in H5.
  change (categoryIds (updated_doc model (body req) u) = categoryIds u) in H5.
  exists w', (updated_doc model (body req) u).
  split; [exact Hrun|]. split; [exact Hus|].
  do 11 (split; [assumption|]). split; [|exact Hres].
  rewrite Hact. do 2 f_equal.
  unfold update_activity, changes_of.
  rewrite H1, H2, H3, H5, !String.eqb_refl, bool_decide_eq_true_2 by done.
  cbn [app]. cbv iota.
  assert (forall s, s +:+ "" = s) as Happ.
  { intros s. induction s as [|c s IH]; [done|].
    change (String c s +:+ "") with (String c (s +:+ "")). by rewrite IH. }
  by rewrite Happ.
Qed.

(** X7. The activity-log entry of [updateAgent] does not depend on the
    password: two requests for the same agent that differ only in the
    password log the same entry. *)
Theorem updateAgent_log_ignores_password (req req' : Request) (w : World) (u : User) :
  faults UserFindOne_agent = None ->
  faults UserSave = None ->
  faults LogActivity = None ->
  users w !! params_id req = Some u ->
  role u = "agent" ->
  params_id req' = params_id req ->
  Body.firstName (body req') = Body.firstName (body req) ->
  Body.lastName (body req') = Body.lastName (body req) ->
  Body.email (body req') = Body.email (body req) ->
  Body.phone (body req') = Body.phone (body req) ->
  Body.categoryId (body req') = Body.categoryId (body req) ->
  exists w1 w1' entry,
    updateAgent model faults regex_i req w = (inr tt, w1)
    /\ updateAgent model faults regex_i req' w = (inr tt, w1')
    /\ activityLog w1 = (activityLog w ++ [entry])%list
    /\ activityLog w1' = (activityLog w ++ [entry])%list.
Proof.
  clear env messageId templates toLocaleDateString toLocaleTimeString toLocaleString.
  intros F1 F2 F3 Hu Hr Hid Hf Hl He Hp Hc.
  destruct (updateAgent_run req w u F1 F2 F3 Hu Hr) as (w1 & Hrun & _ & Hact & _).
  assert (users w !! params_id req' = Some u) as Hu' by (by rewrite Hid).
  destruct (updateAgent_run req' w u F1 F2 F3 Hu' Hr) as (w1' & Hrun' & _ & Hact' & _).
  exists w1, w1', (update_activity u (updated_doc model (body req) u)).
  split; [exact Hrun|]. split; [exact Hrun'|]. split; [exact Hact|].
  rewrite Hact'. do 2 f_equal.
  destruct (updated_doc_fields (body req) u) as (H1 & H2 & H3 & _ & H5 & _).
  destruct (updated_doc_fields (body req') u) as (H1' & H2' & H3' & _ & H5' & _).
  rewrite Hf, Hl in H1'. rewrite He in H2'. rewrite Hp in H3'. rewrite Hc in H5'.
  unfold update_activity, changes_of.
  by rewrite H1, H2, H3, H5, H1', H2', H3', H5'.
Qed.

(** *** Deleting, and what fails half-way *)

Lemma findOne_agent (id : nat) (m : gmap nat User) (u : User) :
  m !! id = Some u -> role u = "agent" ->
  head (select regex_i [IdIs (IdParam id); RoleIs "agent"] m) = Some (id, u).
Proof.
  intros Hu Hr. rewrite findOne_by_id, Hu.
  cbn [matches forallb cond_matches snd]. by rewrite Hr.
Qed.

(** The run of [deleteAgent] up to the write. *)
Lemma deleteAgent_saved (req : Request) (w : World) (u : User) :
  faults UserFindOne_agent = None ->
  faults UserSave = None ->
  users w !! params_id req = Some u ->
  role u = "agent" ->
  truthy_bool (isDeleted u) = false ->
  let id := params_id req in
  let u1 := soft_deleted model (now w) u in
  deleteAgent model faults regex_i req w
  = tryCatch
      (fun w1 =>
         (Notification_create faults
            (mkNotification "Agent Removed"
               ("Agent " +:+ name u1 +:+ " has been deleted by you")
               "warning" "agent" (user_id req) id (name u1) "deleted");;
          logActivity faults None
            ("Agent " +:+ Js.dq +:+ name u1 +:+ Js.dq +:+ " has been deleted")
            "deleted";;
          res_json agent_deleted) w1)
      (fun error => res_status_json 500 server_error)
      (set_users (insert id u1) w).
Proof.
  intros F1 F2 Hu Hr Hd id u1.
  unfold deleteAgent, tryCatch. cbv zeta. cast_id.
  unfold mbind at 1, M_bind at 1. rewrite run_findOne by done.
  rewrite (findOne_agent _ _ u) by done. cbv beta iota. cbn [snd fst]. rewrite Hd.
  unfold mbind at 1, M_bind at 1. unfold gets at 1. cbv beta iota.
  unfold mbind at 1, M_bind at 1. rewrite run_save by done. cbv beta iota.
  reflexivity.
Qed.

(** X8. A soft-deleted agent is still served by id: after a successful
    [deleteAgent], [getAgent] on the same id answers 200 with the agent's
    data, its query having no [isDeleted] clause, while no search of
    [getAgentsList] selects the agent any more and the export without search
    still does. *)
Theorem deleted_agent_still_fetched (req : Request) (w : World) (u : User) :
  faults UserFindOne_agent = None ->
  faults UserSave = None ->
  faults NotificationCreate = None ->
  faults LogActivity = None ->
  users w !! params_id req = Some u ->
  role u = "agent" ->
  truthy_bool (isDeleted u) = false ->
  let id := params_id req in
  exists w1 u1,
    deleteAgent model faults regex_i req w = (inr tt, w1)
    /\ users w1 !! id = Some u1
    /\ isDeleted u1 = Some true
    /\ name u1 = name u
    /\ getAgent faults regex_i req w1
       = (inr tt, add_response (agent_response w1 id u1) w1)
    /\ (forall search, ~ In (id, u1) (select regex_i (listQuery search) (users w1)))
    /\ In (id, u1) (select regex_i (exportQuery "") (users w1)).
Proof.
  clear env messageId templates toLocaleDateString toLocaleTimeString toLocaleString.
  intros F1 F2 F3 F4 Hu Hr Hd id.
  eexists _, (soft_deleted model (now w) u).
  split.
  { rewrite (deleteAgent_saved req w u) by done.
    apply run_try. eapply run_bind; [by apply run_notification|].
    eapply run_bind; [by apply run_logActivity|]. reflexivity. }
  cbn [users add_response add_activity add_notification set_users].
  split; [apply lookup_insert_eq|]. split; [reflexivity|]. split; [reflexivity|].
  split.
  { apply getAgent_found; [done| |done].
    cbn [users add_response add_activity add_notification set_users].
    apply lookup_insert_eq. }
  split.
  - intros search Hin. apply select_spec in Hin as [_ Hm].
    apply listQuery_spec in Hm as (_ & Hdel & _). discriminate Hdel.
  - apply select_spec. split; [apply lookup_insert_eq|].
    apply exportQuery_spec. split; [exact Hr|]. by intros [].
Qed.

(** X9. [deleteAgent] does not undo its write: when the notification cannot
    be created after the document was saved, the handler answers 500 'Server
    error' and logs nothing, yet the agent is soft-deleted, and deleting it
    again answers 400 'Agent is already deleted'. *)
Theorem deleteAgent_no_rollback (req : Request) (w : World) (u : User) (e : Thrown) :
  faults UserFindOne_agent = None ->
  faults UserSave = None ->
  faults NotificationCreate = Some e ->
  users w !! params_id req = Some u ->
  role u = "agent" ->
  truthy_bool (isDeleted u) = false ->
  let id := params_id req in
  exists w1 u1,
    deleteAgent model faults regex_i req w = (inr tt, w1)
    /\ responses w1 = (responses w ++ [mkResponse 500 server_error])%list
    /\ activityLog w1 = activityLog w
    /\ notifications w1 = notifications w
    /\ users w1 = <[id := u1]> (users w)
    /\ isDeleted u1 = Some true
    /\ deletedAt u1 = Some (now w)
    /\ deleteAgent model faults regex_i req w1
       = (inr tt,
          add_response (mkResponse 400 (just_message "Agent is already deleted")) w1).
Proof.
  clear env messageId templates toLocaleDateString toLocaleTimeString toLocaleString.
  intros F1 F2 F3 Hu Hr Hd id.
  eexists _, (soft_deleted model (now w) u).
  split.
  { rewrite (deleteAgent_saved req w u) by done.
    unfold tryCatch, mbind at 1, M_bind at 1, Notification_create, external.
    rewrite F3. reflexivity. }
  do 6 (split; [reflexivity|]).
  unfold deleteAgent. apply run_try. cbv zeta. cast_id.
  eapply run_bind; [by apply run_findOne|].
  rewrite (findOne_agent _ _ (soft_deleted model (now w) u));
    [reflexivity| |exact Hr].
  cbn [users add_response set_users]. apply lookup_insert_eq.
Qed.

(** *** Creating, again and half-way *)

Lemma run_try_catch {A} (m : M A) (h : Thrown -> M A) (w : World) (e : Thrown)
      (w1 : World) (r : (Thrown + A) * World) :
  m w = (inl e, w1) -> h e w1 = r -> tryCatch m h w = r.
Proof. intros E E'. unfold tryCatch. by rewrite E. Qed.

Lemma run_bind_throw {A B} (m : M A) (k : A -> M B) (w : World) (e : Thrown)
      (w1 : World) :
  m w = (inl e, w1) -> (m ≫= k) w = (inl e, w1).
Proof. intros E. unfold mbind, M_bind. by rewrite E. Qed.

Lemma createAgent_rejects_taken (req : Request) (w : World) :
  faults UserFindOne_email = None ->
  email_taken (Body.email (body req)) (users w) ->
  createAgent model env faults regex_i messageId templates req w
  = (inr tt,
     add_response
       (mkResponse 400 (just_message "User with this email already exists")) w).
Proof.
  intros F1 He. unfold createAgent. apply run_try. cbv zeta.
  eapply run_bind; [by apply run_findOne|].
  destruct (head (select regex_i [EmailIs (Body.email (body req))] (users w)))
    as [d|] eqn:E; [done|].
  by apply findOne_email_None in E.
Qed.

Lemma created_email_taken (req : Request) (w : World) :
  email_taken (Body.email (body req))
              (<[fresh (dom (users w)) := created_user model req w]> (users w)).
Proof.
  exists (fresh (dom (users w))), (created_user model req w).
  split; [apply lookup_insert_eq|reflexivity].
Qed.

(** X10. [createAgent] does not undo its write either: when the activity
    log fails after the agent was stored, the handler answers 500 with the
    error's message ('Server error' when it has none), sends neither the
    welcome e-mail nor the push notification, and the agent is in the
    collection; the same request sent again is answered 400 'User with this
    email already exists'. *)
Theorem createAgent_no_rollback (req : Request) (w : World) (e : Thrown) :
  faults UserFindOne_email = None ->
  faults UserFindOne_phone = None ->
  faults UserCreate = None ->
  faults LogActivity = Some e ->
  ~ email_taken (Body.email (body req)) (users w) ->
  (Js.truthy_opt (Body.phone (body req)) = true ->
   ~ phone_taken (normalizedPhone (default "" (Body.phone (body req)))) (users w)) ->
  Js.truthy_opt (Body.password (body req)) = true ->
  exists w1,
    createAgent model env faults regex_i messageId templates req w = (inr tt, w1)
    /\ responses w1
       = (responses w
            ++ [mkResponse 500
                  (JObj [("success", JBool false);
                         ("message", JStr (Js.or_else (message e) "Server error"))])])%list
    /\ users w1 = <[fresh (dom (users w)) := created_user model req w]> (users w)
    /\ outbox w1 = outbox w
    /\ pushed w1 = pushed w
    /\ createAgent model env faults regex_i messageId templates req w1
       = (inr tt,
          add_response
            (mkResponse 400 (just_message "User with this email already exists")) w1).
Proof.
  clear toLocaleDateString toLocaleTimeString toLocaleString.
  intros F1 F2 F3 F4 He Hp Hpw. apply (findOne_email_None regex_i) in He.
  eexists. split.
  { unfold createAgent. eapply run_try_catch; [|reflexivity]. cbv zeta.
    eapply run_bind; [by apply run_findOne|]. rewrite He.
    eapply (run_bind _ _ w None w).
    { destruct (Js.truthy_opt (Body.phone (body req))) eqn:Hph; [|done].
      rewrite run_findOne by done. apply (findOne_phone_None regex_i) in Hp; [|done].
      by rewrite Hp. }
    rewrite Hpw. cbv [negb].
    eapply run_bind; [by apply run_create|].
    apply run_bind_throw. unfold logActivity, external. rewrite F4. reflexivity. }
  do 4 (split; [reflexivity|]).
  apply createAgent_rejects_taken; [done|]. apply created_email_taken.
Qed.

(** X11. [createAgent] cannot be repeated: after a request that created an
    agent, the same request is answered 400 'User with this email already
    exists' and adds nothing. *)
Theorem createAgent_twice (req : Request) (w : World) :
  faults UserFindOne_email = None ->
  faults UserFindOne_phone = None ->
  faults UserCreate = None ->
  faults LogActivity = None ->
  ~ email_taken (Body.email (body req)) (users w) ->
  (Js.truthy_opt (Body.phone (body req)) = true ->
   ~ phone_taken (normalizedPhone (default "" (Body.phone (body req)))) (users w)) ->
  Js.truthy_opt (Body.password (body req)) = true ->
  exists w1 w2,
    createAgent model env faults regex_i messageId templates req w = (inr tt, w1)
    /\ responses w1 = (responses w ++ [created_response model req w])%list
    /\ createAgent model env faults regex_i messageId templates req w1 = (inr tt, w2)
    /\ responses w2
       = (responses w1
            ++ [mkResponse 400 (just_message "User with this email already exists")])%list
    /\ users w2 = users w1
    /\ size (users w1) = S (size (users w)).
Proof.
  clear toLocaleDateString toLocaleTimeString toLocaleString.
  intros F1 F2 F3 F4 He Hp Hpw.
  destruct (createAgent_created model env faults regex_i messageId templates req w
              F1 F2 F3 F4 He Hp Hpw) as (w1 & Hrun & Hu & _ & Hr).
  eexists w1, _. split; [exact Hrun|]. split; [exact Hr|].
  split.
  { apply createAgent_rejects_taken; [done|]. rewrite Hu. apply created_email_taken. }
  split; [reflexivity|]. split; [reflexivity|].
  rewrite Hu. apply map_size_insert_None, not_elem_of_dom, is_fresh.
Qed.

(** X12. An agent that was just created is selected by the export, and by
    [getAgentsList] exactly when the schema's default for [isDeleted] is
    [false]. *)
Theorem created_agent_listed (req : Request) (w : World) :
  faults UserFindOne_email = None ->
  faults UserFindOne_phone = None ->
  faults UserCreate = None ->
  faults LogActivity = None ->
  ~ email_taken (Body.email (body req)) (users w) ->
  (Js.truthy_opt (Body.phone (body req)) = true ->
   ~ phone_taken (normalizedPhone (default "" (Body.phone (body req)))) (users w)) ->
  Js.truthy_opt (Body.password (body req)) = true ->
  let id := fresh (dom (users w)) in
  exists w1 u1,
    createAgent model env faults regex_i messageId templates req w = (inr tt, w1)
    /\ users w1 !! id = Some u1
    /\ In (id, u1) (select regex_i (exportQuery "") (users w1))
    /\ (In (id, u1) (select regex_i (listQuery "") (users w1))
        <-> default_isDeleted model = Some false).
Proof.
  clear toLocaleDateString toLocaleTimeString toLocaleString.
  intros F1 F2 F3 F4 He Hp Hpw id.
  destruct (createAgent_created model env faults regex_i messageId templates req w
              F1 F2 F3 F4 He Hp Hpw) as (w1 & Hrun & Hu & _ & _).
  exists w1, (created_user model req w).
  assert (users w1 !! id = Some (created_user model req w)) as Hl
    by (rewrite Hu; apply lookup_insert_eq).
  split; [exact Hrun|]. split; [exact Hl|]. split.
  - apply select_spec. split; [exact Hl|]. apply exportQuery_spec.
    split; [reflexivity|]. by intros [].
  - rewrite select_spec, listQuery_spec. cbn [fst snd]. split.
    + by intros (_ & _ & Hd & _).
    + intros Hd. split; [exact Hl|]. split; [reflexivity|]. split; [exact Hd|].
      by intros [].
Qed.

Lemma createAgent_rejects_phone (req : Request) (w : World) :
  faults UserFindOne_email = None ->
  faults UserFindOne_phone = None ->
  ~ email_taken (Body.email (body req)) (users w) ->
  Js.truthy_opt (Body.phone (body req)) = true ->
  phone_taken (normalizedPhone (default "" (Body.phone (body req)))) (users w) ->
  createAgent model env faults regex_i messageId templates req w
  = (inr tt,
     add_response
       (mkResponse 400 (just_message "User with this phone number already exists")) w).
Proof.
  intros F1 F2 He Hs Hp. apply (findOne_email_None regex_i) in He.
  unfold createAgent. apply run_try. cbv zeta.
  eapply run_bind; [by apply run_findOne|]. rewrite He, Hs.
  eapply run_bind; [by apply run_findOne|].
  destruct (head (select regex_i [PhoneIs _] (users w))) as [d|] eqn:E; [done|].
  by apply findOne_phone_None in E.
Qed.

Lemma digits_only_nonempty (p : string) :
  Js.digits_only p <> "" -> Js.truthy p = true.
Proof. by destruct p. Qed.

(** X13. The duplicate-phone check of [createAgent] finds a ten-digit phone
    again however it is written, provided the model's hook puts [+1] in front
    of ten digits, as the controller expects: after an agent was created
    with a phone of ten digits, a request with another e-mail address and a
    phone with the same digits is answered 400 'User with this phone number
    already exists'. *)
Theorem duplicate_phone_detected (req req2 : Request) (w : World) (p p2 : string) :
  (forall d, String.length d = 10%nat -> normalizePhone model d = "+1" +:+ d) ->
  faults UserFindOne_email = None ->
  faults UserFindOne_phone = None ->
  faults UserCreate = None ->
  faults LogActivity = None ->
  ~ email_taken (Body.email (body req)) (users w) ->
  ~ email_taken (Body.email (body req2)) (users w) ->
  Body.email (body req2) <> Body.email (body req) ->
  Body.phone (body req) = Some p ->
  Body.phone (body req2) = Some p2 ->
  String.length (Js.digits_only p) = 10%nat ->
  Js.digits_only p2 = Js.digits_only p ->
  ~ phone_taken ("+1" +:+ Js.digits_only p) (users w) ->
  Js.truthy_opt (Body.password (body req)) = true ->
  exists w1,
    createAgent model env faults regex_i messageId templates req w = (inr tt, w1)
    /\ responses w1 = (responses w ++ [created_response model req w])%list
    /\ createAgent model env faults regex_i messageId templates req2 w1
       = (inr tt,
          add_response
            (mkResponse 400 (just_message "User with this phone number already exists"))
            w1).
Proof.
  clear toLocaleDateString toLocaleTimeString toLocaleString.
  intros Hhook F1 F2 F3 F4 He He2 Hne Hph Hph2 Hlen Hdig Hp Hpw.
  assert (Js.digits_only p <> "") as Hd by (intros E; by rewrite E in Hlen).
  assert (normalizedPhone p = "+1" +:+ Js.digits_only p) as Hn.
  { unfold normalizedPhone. by rewrite Hlen. }
  assert (normalizedPhone p2 = "+1" +:+ Js.digits_only p) as Hn2.
  { unfold normalizedPhone. by rewrite Hdig, Hlen. }
  destruct (createAgent_created model env faults regex_i messageId templates req w
              F1 F2 F3 F4 He) as (w1 & Hrun & Hu & _ & Hr); [|done|].
  { intros _. rewrite Hph. cbn [default from_option id]. by rewrite Hn. }
  exists w1. split; [exact Hrun|]. split; [exact Hr|].
  apply createAgent_rejects_phone; [done|done| | |].
  - intros (i & u & Hi & Hu'). rewrite Hu in Hi.
    destruct (decide (i = fresh (dom (users w)))) as [->|Hi'].
    + rewrite lookup_insert_eq in Hi. injection Hi as <-. by apply Hne.
    + rewrite lookup_insert_ne in Hi by done. apply He2. by exists i, u.
  - rewrite Hph2. cbn [Js.truthy_opt]. apply digits_only_nonempty. by rewrite Hdig.
  - rewrite Hph2. cbn [default from_option id]. rewrite Hn2, Hu.
    exists (fresh (dom (users w))), (created_user model req w).
    split; [apply lookup_insert_eq|].
    unfold created_user. cbn [phone preSave]. rewrite Hph.
    cbn [Js.truthy_opt default from_option id].
    rewrite (digits_only_nonempty p Hd). by apply Hhook.
Qed.

(** *** Names *)

(** X14. The names [createAgent] and [updateAgent] store never begin or
    end with white space, whatever the request says: the document a
    successful [createAgent] adds, and the document a successful
    [updateAgent] writes when both parts of the name are given, have a name
    that is trimmed. Trimming leaves no white space at either end and
    changes nothing the second time. *)
Theorem stored_names_trimmed (req : Request) (w : World) :
  let trimmed (s : string) := starts_with_ws s = false /\ ends_with_ws s = false in
  (faults UserFindOne_email = None ->
   faults UserFindOne_phone = None ->
   faults UserCreate = None ->
   faults LogActivity = None ->
   ~ email_taken (Body.email (body req)) (users w) ->
   (Js.truthy_opt (Body.phone (body req)) = true ->
    ~ phone_taken (normalizedPhone (default "" (Body.phone (body req)))) (users w)) ->
   Js.truthy_opt (Body.password (body req)) = true ->
   exists w1 u1,
     createAgent model env faults regex_i messageId templates req w = (inr tt, w1)
     /\ users w1 !! fresh (dom (users w)) = Some u1
     /\ trimmed (name u1))
  /\ (forall u,
      faults UserFindOne_agent = None ->
      faults UserSave = None ->
      faults LogActivity = None ->
      users w !! params_id req = Some u ->
      role u = "agent" ->
      Js.truthy (Body.firstName (body req)) && Js.truthy (Body.lastName (body req))
      = true ->
      exists w1 u1,
        updateAgent model faults regex_i req w = (inr tt, w1)
        /\ users w1 !! params_id req = Some u1
        /\ trimmed (name u1))
  /\ (forall s, trimmed (Js.trim s) /\ Js.trim (Js.trim s) = Js.trim s).
Proof.
  clear toLocaleDateString toLocaleTimeString toLocaleString.
  intros trimmed. split_and!.
  - intros F1 F2 F3 F4 He Hp Hpw.
    destruct (createAgent_created model env faults regex_i messageId templates
                req w F1 F2 F3 F4 He Hp Hpw) as (w1 & Hrun & Hu & _).
    exists w1, (created_user model req w). split; [exact Hrun|].
    split; [rewrite Hu; apply lookup_insert_eq|]. apply trim_trimmed.
  - intros u F1 F2 F3 Hu Hr Hnames.
    destruct (updateAgent_run req w u F1 F2 F3 Hu Hr) as (w1 & Hrun & Hw1 & _).
    exists w1, (updated_doc model (body req) u). split; [exact Hrun|].
    split; [rewrite Hw1; apply lookup_insert_eq|].
    destruct (updated_doc_fields (body req) u) as (-> & _). rewrite Hnames.
    apply trim_trimmed.
  - intros s. split; [apply trim_trimmed|apply trim_idempotent].
Qed.

Lemma split_space_head_no_space (n : string) :
  contains_space (hd "" (Js.split_space n)) = false.
Proof.
  induction n as [|c n IH]; [done|]. simpl.
  destruct (Js.is_space c) eqn:E; [done|].
  destruct (Js.split_space n) as [|x l]; simpl in *; by rewrite E.
Qed.

Lemma split_space_tail (n : string) :
  contains_space n = true -> tl (Js.split_space n) <> [].
Proof.
  induction n as [|c n IH]; [done|]. simpl.
  destruct (Js.is_space c) eqn:E.
  - intros _. pose proof (split_space_nonempty n). by destruct (Js.split_space n).
  - simpl. intros H. specialize (IH H).
    by destruct (Js.split_space n) as [|x l].
Qed.

(** X15. Splitting a stored name loses nothing: the first name shown never
    contains a space; a name without space is shown as first name with an
    empty last name; and a name with a space is the first name, a space and
    the last name shown. *)
Theorem name_parts_recombine (n : string) :
  contains_space (firstNameOf n) = false
  /\ (contains_space n = false -> firstNameOf n = n /\ lastNameOf n = "")
  /\ (contains_space n = true -> n = firstNameOf n +:+ " " +:+ lastNameOf n).
Proof.
  clear. unfold firstNameOf, lastNameOf. rewrite !or_else_empty. split_and!.
  - apply split_space_head_no_space.
  - intros H. by rewrite (split_space_single _ H).
  - intros H. apply split_space_tail in H.
    rewrite <- (join_split_space n) at 1.
    by destruct (Js.split_space n) as [|x [|y l]].
Qed.

(** *** Pages *)

(** The run of [getAgentsList], the database answering, for any page and
    limit: the driver rejects a negative skip, and takes a negative limit as
    its absolute value. *)
Lemma getAgentsList_run_any (req : HttpRequest) (w : World) :
  faults UserCountDocuments = None ->
  faults UserFind = None ->
  let p := page_of req in
  let l := limit_of req in
  let found := select regex_i (listQuery (search_of req)) (users w) in
  let totalAgents := Z.of_nat (length found) in
  let totalPages := Js.ceil_div totalAgents l in
  l <> 0
  /\ ((p - 1) * l < 0 ->
      getAgentsList faults regex_i req w
      = (inr tt, add_response (mkResponse 500 server_error) w))
  /\ (0 <= (p - 1) * l ->
      getAgentsList faults regex_i req w
      = (inr tt,
         add_response
           (mkResponse 200
              (JObj [("success", JBool true);
                     ("message", JStr "Agents list fetched successfully");
                     ("pagination",
                      JObj [("currentPage", JNum p);
                            ("totalPages", JNum totalPages);
                            ("totalAgents", JNum totalAgents);
                            ("hasNextPage", JBool (p <? totalPages));
                            ("hasPrevPage", JBool (1 <? p));
                            ("limit", JNum l)]);
                     ("data",
                      JArr (map (shown w)
                              (take (Z.to_nat (Z.abs l))
                                    (drop (Z.to_nat ((p - 1) * l))
                                          (merge_sort newer_first found)))))])) w)).
Proof.
  intros F1 F2 p l found totalAgents totalPages.
  assert (l <> 0) as Hl.
  { subst l. unfold limit_of, Js.num_or.
    destruct (Js.parseInt (query_limit req)) as [v|]; [|done].
    by destruct (Z.eqb_spec v 0). }
  split; [exact Hl|].
  split; intros Hs;
    unfold getAgentsList, User_countDocuments, User_find, res_json, res_status_json,
           tryCatch, external, gets, modify, throw, mbind, M_bind, mret, M_ret, window;
    fold (page_of req) (limit_of req) (search_of req); fold p l;
    rewrite F1, F2; simpl.
  - destruct (Z.ltb_spec ((p - 1) * l) 0); [reflexivity|lia].
  - destruct (Z.ltb_spec ((p - 1) * l) 0); [lia|].
    destruct (Z.eqb_spec l 0); [done|]. reflexivity.
Qed.

(** X16. [getAgentsList] for any page and limit. The page and the limit the
    handler works with are never 0, whatever the query string, so that
    [totalPages] is never a division by zero and the driver is never asked
    for [limit(0)], which would lift the limit. The numbers being safe
    integers and the database answering, the handler answers 500 'Server
    error' when the skip [(page - 1) * limit] is negative, and otherwise 200
    with agents that follow the skip, newest first and without a gap, at
    most as many as the absolute value of the limit says, and exactly the
    [limit] next ones (or all that are left) when the limit is positive. *)
Theorem page_and_limit_never_zero (req : HttpRequest) (w : World) :
  let p := page_of req in
  let l := limit_of req in
  let found := select regex_i (listQuery (search_of req)) (users w) in
  let rest := drop (Z.to_nat ((p - 1) * l)) (merge_sort newer_first found) in
  p <> 0 /\ l <> 0
  /\ (faults UserCountDocuments = None ->
      faults UserFind = None ->
      safe_integer p ->
      safe_integer l ->
      safe_integer ((p - 1) * l) ->
      safe_integer (Z.of_nat (length found)) ->
      ((p - 1) * l < 0 ->
       getAgentsList faults regex_i req w
       = (inr tt, add_response (mkResponse 500 server_error) w))
      /\ (0 <= (p - 1) * l ->
          exists r page n,
            getAgentsList faults regex_i req w = (inr tt, add_response r w)
            /\ code r = 200
            /\ data_of r = Some (map (shown w) page)
            /\ page = take n rest
            /\ Z.of_nat n <= Z.abs l
            /\ (1 <= l -> n = Z.to_nat l)
            /\ StronglySorted newer_first page
            /\ field "limit" (default JNull (field "pagination" (payload r)))
               = Some (JNum l)
            /\ field "totalPages" (default JNull (field "pagination" (payload r)))
               = Some (JNum (Js.ceil_div (Z.of_nat (length found)) l)))).
Proof.
  clear model env messageId templates toLocaleDateString toLocaleTimeString
        toLocaleString.
  intros p l found rest.
  assert (forall o d, d <> 0 -> Js.num_or o d <> 0) as H.
  { intros [v|] d Hd; simpl; [|done]. by destruct (Z.eqb_spec v 0). }
  split; [by apply H|]. split; [by apply H|].
  intros F1 F2 _ _ _ _.
  destruct (getAgentsList_run_any req w F1 F2) as (_ & Hneg & Hpos).
  split; [exact Hneg|]. intros Hs.
  eexists _, (take (Z.to_nat (Z.abs l)) rest), (Z.to_nat (Z.abs l)).
  split; [exact (Hpos Hs)|].
  split; [reflexivity|]. split; [reflexivity|]. split; [reflexivity|].
  split; [lia|]. split; [intros Hl; f_equal; lia|].
  split; [|split; reflexivity].
  subst rest. apply StronglySorted_take_drop, StronglySorted_merge_sort; apply _.
Qed.

Lemma page_agents_shown (req : HttpRequest) (w : World) :
  data_of (list_response regex_i req w) = Some (map (shown w) (page_agents regex_i req w)).
Proof. reflexivity. Qed.

(** X17. The pages of [getAgentsList] are full up to the last one. For a
    page and a limit that are at least 1, the numbers being safe integers
    and the database answering, the handler answers 200; a page before
    [totalPages] holds exactly [limit] agents, the page [totalPages] holds
    the agents that remain, at least one, and every later page is empty. *)
Theorem page_sizes (req : HttpRequest) (w : World) :
  faults UserCountDocuments = None ->
  faults UserFind = None ->
  let p := page_of req in
  let l := limit_of req in
  let totalAgents :=
    Z.of_nat (length (select regex_i (listQuery (search_of req)) (users w))) in
  1 <= p ->
  1 <= l ->
  safe_integer p ->
  safe_integer l ->
  safe_integer ((p - 1) * l) ->
  safe_integer totalAgents ->
  let totalPages := Js.ceil_div totalAgents l in
  exists r data,
    getAgentsList faults regex_i req w = (inr tt, add_response r w)
    /\ code r = 200
    /\ data_of r = Some data
    /\ field "totalPages" (default JNull (field "pagination" (payload r)))
       = Some (JNum totalPages)
    /\ (p < totalPages -> Z.of_nat (length data) = l)
    /\ (p = totalPages ->
        Z.of_nat (length data) = totalAgents - (p - 1) * l
        /\ 1 <= Z.of_nat (length data) <= l)
    /\ (totalPages < p -> data = []).
Proof.
  clear model env messageId templates toLocaleDateString toLocaleTimeString
        toLocaleString.
  intros F1 F2 p l totalAgents Hp Hl _ _ _ _ totalPages.
  pose proof (ceil_div_spec totalAgents l Hl) as Hc. fold totalPages in Hc.
  set (agents := page_agents regex_i req w).
  assert (length agents
          = (Z.to_nat l `min` (Z.to_nat totalAgents - Z.to_nat ((p - 1) * l)))%nat) as Hlen.
  { subst agents. unfold page_agents. fold p l.
    rewrite length_take, length_drop,
      (Permutation_length (merge_sort_Permutation newer_first _)).
    subst totalAgents. by rewrite Nat2Z.id. }
  exists (list_response regex_i req w), (map (shown w) agents).
  split; [apply getAgentsList_run; try done; subst p l; nia|].
  split; [reflexivity|]. split; [reflexivity|]. split; [reflexivity|].
  rewrite length_map. split_and!.
  - intros Hlt. rewrite Hlen. nia.
  - intros Heq. rewrite Hlen. split_and!; nia.
  - intros Hgt. assert (agents = []) as ->; [|done].
    apply length_zero_iff_nil. rewrite Hlen. nia.
Qed.

Lemma pages_concat {A} (l n : nat) (L : list A) :
  (length L <= n * l)%nat ->
  concat (map (fun k => take l (drop (k * l) L)) (seq 0 n)) = L.
Proof.
  revert L. induction n as [|n IH]; intros L HL.
  - simpl in *. destruct L; [done|simpl in HL; lia].
  - cbn [seq map concat]. rewrite <- seq_shift, map_map.
    rewrite Nat.mul_0_l, drop_0.
    transitivity (take l L ++ drop l L)%list; [|apply take_drop]. f_equal.
    etransitivity; [|apply (IH (drop l L)); rewrite length_drop; lia].
    f_equal. apply map_ext. intros k. by rewrite drop_drop.
Qed.

(** Two sorted lists with the same elements are equal when no two different
    elements are equivalent for the order. *)
Lemma sorted_unique {A} (R : relation A) (L1 L2 : list A) :
  (forall x y, In x L1 -> In y L1 -> R x y -> R y x -> x = y) ->
  StronglySorted R L1 -> StronglySorted R L2 -> L1 ≡ₚ L2 -> L1 = L2.
Proof.
  revert L2. induction L1 as [|x L1 IH]; intros L2 Hanti S1 S2 HP.
  - by apply Permutation_nil in HP.
  - destruct L2 as [|y L2]; [by apply Permutation_sym, Permutation_nil in HP|].
    apply StronglySorted_inv in S1 as [S1 Hx].
    apply StronglySorted_inv in S2 as [S2 Hy].
    rewrite List.Forall_forall in Hx, Hy.
    assert (x = y) as <-.
    { assert (In x (y :: L2)) as Hin by (eapply Permutation_in; [exact HP|by left]).
      assert (In y (x :: L1)) as Hin'
        by (eapply Permutation_in; [symmetry; exact HP|by left]).
      destruct Hin as [->|Hin]; [done|]. destruct Hin' as [->|Hin']; [done|].
      apply Hanti; [by left|by right|by apply Hx|by apply Hy]. }
    f_equal. apply IH; [|done|done|by apply Permutation_cons_inv in HP].
    intros a b Ha Hb. apply Hanti; by right.
Qed.

Lemma NoDup_map_inj {A B} (f : A -> B) (l : list A) (x y : A) :
  NoDup (map f l) -> In x l -> In y l -> f x = f y -> x = y.
Proof.
  induction l as [|a l IH]; [done|]. cbn [map]. intros Hnd Hx Hy Hf.
  apply NoDup_cons in Hnd as [Ha Hnd].
  destruct Hx as [->|Hx], Hy as [->|Hy]; [done| | |by apply IH].
  - exfalso. apply Ha. rewrite Hf. by apply list_elem_of_In, in_map.
  - exfalso. apply Ha. rewrite <- Hf. by apply list_elem_of_In, in_map.
Qed.

(** X18. The pages of [getAgentsList] lose and repeat nothing when no two
    matching agents were created at the same time. For a limit of at least
    1, the numbers being safe integers and the database answering, the
    requests for the pages 1 to [totalPages] of one search are all answered
    200, and their pages, put one after the other, are the agents the search
    selects, each once, newest first. The creation dates being different,
    this is the only order that is newest first, so the pages do not depend
    on how the database orders equal dates. *)
Theorem pages_cover (reqs : nat -> HttpRequest) (w : World) (l : Z) (search : string) :
  faults UserCountDocuments = None ->
  faults UserFind = None ->
  1 <= l ->
  safe_integer l ->
  let found := select regex_i (listQuery search) (users w) in
  safe_integer (Z.of_nat (length found)) ->
  NoDup (map (fun a : nat * User => createdAt a.2) found) ->
  let totalPages := Z.to_nat (Js.ceil_div (Z.of_nat (length found)) l) in
  (forall k, (k < totalPages)%nat ->
     page_of (reqs k) = Z.of_nat (S k) /\ limit_of (reqs k) = l
     /\ search_of (reqs k) = search) ->
  (forall k, (k < totalPages)%nat ->
     getAgentsList faults regex_i (reqs k) w
     = (inr tt, add_response (list_response regex_i (reqs k) w) w)
     /\ code (list_response regex_i (reqs k) w) = 200)
  /\ concat (map (fun k => default [] (data_of (list_response regex_i (reqs k) w)))
                 (seq 0 totalPages))
     = map (shown w) (merge_sort newer_first found)
  /\ merge_sort newer_first found ≡ₚ found
  /\ (forall sorted,
        sorted ≡ₚ found -> StronglySorted newer_first sorted ->
        sorted = merge_sort newer_first found).
Proof.
  clear model env messageId templates toLocaleDateString toLocaleTimeString
        toLocaleString.
  intros F1 F2 Hl _ found _ Hdates totalPages Hreqs.
  assert (concat (map (fun k => page_agents regex_i (reqs k) w) (seq 0 totalPages))
          = merge_sort newer_first found) as Hcat.
  { rewrite <- (pages_concat (Z.to_nat l) totalPages (merge_sort newer_first found)).
    - f_equal. apply map_ext_in. intros k Hk. apply in_seq in Hk.
      destruct (Hreqs k) as (Hp & Hlim & Hs); [lia|].
      unfold page_agents. rewrite Hp, Hlim, Hs. fold found.
      do 2 f_equal. lia.
    - rewrite (Permutation_length (merge_sort_Permutation newer_first found)).
      pose proof (ceil_div_spec (Z.of_nat (length found)) l Hl).
      subst totalPages. nia. }
  split_and!.
  - intros k Hk. destruct (Hreqs k Hk) as (Hp & Hlim & _).
    split; [|reflexivity]. apply getAgentsList_run; try done; rewrite ?Hp, ?Hlim; nia.
  - rewrite <- Hcat, concat_map, map_map. f_equal.
  - apply merge_sort_Permutation.
  - intros sorted HP HS. apply sorted_unique with (R := newer_first).
    + intros x y Hx Hy Hxy Hyx. unfold newer_first in *.
      apply (NoDup_map_inj (fun a : nat * User => createdAt a.2) found);
        [done| | |lia]; eapply Permutation_in; try exact HP; done.
    + exact HS.
    + apply StronglySorted_merge_sort; apply _.
    + by rewrite HP, merge_sort_Permutation.
Qed.

(** *** The other senders *)

Context (senderTemplates : SenderTemplates).
Context (ADMIN_EMAIL : option string).
Context (provider : SendSmtpEmail -> ApiError + string).

(** X19. [sendPasswordResetEmail] resolves only when the provider accepted
    the message, and otherwise throws: the configuration error when no API
    key is set (nothing is handed to the provider), the quota error when the
    provider's error carries status 429, the configuration error again when
    the error's message mentions the key or 'not configured', and the
    provider's own error in every other case. No error it throws mentions
    [BREVO_API_KEY], and nothing is recorded as sent when it throws. *)
Theorem password_reset_email_errors (email resetToken resetUrl : string) (w : World) :
  let run := sendPasswordResetEmail env senderTemplates provider email resetToken
                                    resetUrl w in
  let msg :=
    mkSendSmtpEmail "Expand Machinery" (BREVO_API_EMEAIL env) [email]
      "Password Reset - Expand Machinery"
      (resetHtml senderTemplates (APP_URL env) resetUrl) None None in
  (Js.truthy_opt (BREVO_API_KEY env) = false -> run = (inl not_configured, w))
  /\ (Js.truthy_opt (BREVO_API_KEY env) = true ->
      (forall id, provider msg = inr id ->
         run = (inr id, add_mail msg (set_apiKeyAuth (BREVO_API_KEY env) w)))
      /\ (forall e, provider msg = inl e ->
            (ae_statusCode e = Some 429 \/ ae_response_statusCode e = Some 429 ->
             run.1 = inl quota_exceeded)
            /\ (ae_statusCode e <> Some 429 -> ae_response_statusCode e <> Some 429 ->
                run.1 = inl (if includes (ae_message e) "BREVO_API_KEY"
                                || includes (ae_message e) "not configured"
                             then not_configured else e))))
  /\ (forall e, run.1 = inl e ->
        includes (ae_message e) "BREVO_API_KEY" = false /\ outbox run.2 = outbox w).
Proof.
  clear model faults regex_i messageId templates toLocaleDateString toLocaleTimeString
        toLocaleString ADMIN_EMAIL.
  intros run msg. subst run. unfold sendPasswordResetEmail. fold msg.
  destruct (Js.truthy_opt (BREVO_API_KEY env)) eqn:Hk; cbn [negb].
  - split; [done|]. split.
    + intros _. split.
      * intros id Hid. by rewrite Hid.
      * intros e He. rewrite He. cbv beta iota zeta. split.
        -- intros [H|H]; rewrite H; [done|].
           rewrite (bool_decide_eq_true_2 (Some 429 = Some 429)) by done.
           by rewrite orb_true_r.
        -- intros H1 H2. rewrite !bool_decide_eq_false_2 by done. cbn [orb].
           by destruct (includes (ae_message e) "BREVO_API_KEY"
                        || includes (ae_message e) "not configured").
    + intros e. destruct (provider msg) as [e'|id]; [|done]. cbv beta iota zeta.
      destruct (bool_decide (ae_statusCode e' = Some 429)
                || bool_decide (ae_response_statusCode e' = Some 429)).
      { intros [= <-]. by split. }
      destruct (includes (ae_message e') "BREVO_API_KEY") eqn:E1; cbn [orb].
      { intros [= <-]. by split. }
      destruct (includes (ae_message e') "not configured").
      { intros [= <-]. by split. }
      intros [= <-]. by split.
  - split; [done|]. split; [done|]. intros e [= <-]. by split.
Qed.

Lemma run_getBrevoInstance (w : World) :
  getBrevoInstance env w
  = if Js.truthy_opt (BREVO_API_KEY env)
    then (inr tt, set_apiKeyAuth (BREVO_API_KEY env) w)
    else (inl (Error "BREVO_API_KEY is not defined in environment variables"), w).
Proof. unfold getBrevoInstance. by destruct (Js.truthy_opt _). Qed.

(** What a sender of the mobile app does with its message and its error. *)
Lemma app_sender_run (msg : SendSmtpEmail) (failure : string) (w : World) :
  let run :=
    tryCatch
      (getBrevoInstance env;;
       result ← sendTransacEmail faults messageId msg; mret result)
      (fun error => throw (Error failure)) w in
  (Js.truthy_opt (BREVO_API_KEY env) = true -> faults SendTransacEmail = None ->
   run = (inr (messageId msg), add_mail msg (set_apiKeyAuth (BREVO_API_KEY env) w)))
  /\ (Js.truthy_opt (BREVO_API_KEY env) = false \/ faults SendTransacEmail <> None ->
      run.1 = inl (Error failure) /\ outbox run.2 = outbox w).
Proof.
  intros run. subst run.
  unfold tryCatch, mbind, M_bind. rewrite run_getBrevoInstance.
  unfold sendTransacEmail, external.
  destruct (Js.truthy_opt (BREVO_API_KEY env)), (faults SendTransacEmail) as [e|];
    split; try done; intros [H|H]; done.
Qed.

(** X20. The three senders of the mobile app ([sendPasswordResetConfirmation],
    [sendEmailVerificationOtp], [sendAppPasswordResetEmail]) hand one message
    from the fixed sender address to the provider and resolve with its id
    when the key is set and the provider accepts; in every other case they
    throw their own fixed error, whatever the cause was, and nothing is
    recorded as sent. *)
Theorem app_senders (name : option string) (email otp : string) (w : World) :
  let sent subject html :=
    mkSendSmtpEmail "Expand Machinery" (Some "hello@expand.shabad-guru.org") [email]
                    subject html None None in
  let ok (run : (Thrown + string) * World) (msg : SendSmtpEmail) (failure : string) :=
    (Js.truthy_opt (BREVO_API_KEY env) = true -> faults SendTransacEmail = None ->
     run = (inr (messageId msg), add_mail msg (set_apiKeyAuth (BREVO_API_KEY env) w)))
    /\ (Js.truthy_opt (BREVO_API_KEY env) = false \/ faults SendTransacEmail <> None ->
        run.1 = inl (Error failure) /\ outbox run.2 = outbox w) in
  ok (sendPasswordResetConfirmation env faults messageId senderTemplates email w)
     (sent "Password Reset Successful - Expand Machinery"
           (confirmationHtml senderTemplates (APP_URL env)))
     "Failed to send confirmation email"
  /\ ok (sendEmailVerificationOtp env faults messageId senderTemplates name email otp w)
        (sent "Verify Your Email - Expand Machinery App"
              (verificationHtml senderTemplates (APP_URL env) name otp))
        "Failed to send verification email"
  /\ ok (sendAppPasswordResetEmail env faults messageId senderTemplates email otp w)
        (sent "Password Reset OTP - Expand Machinery App"
              (appResetHtml senderTemplates (APP_URL env) otp))
        "Failed to send app password reset email".
Proof.
  clear model regex_i templates toLocaleDateString toLocaleTimeString toLocaleString
        ADMIN_EMAIL provider.
  intros sent ok. subst ok sent. cbv beta.
  split_and!; apply app_sender_run.
Qed.

Lemma agentEmailsOf_spec (agents : list AgentContact) (e : string) :
  In e (agentEmailsOf agents) <-> e <> "" /\ In (mkAgentContact (Some e)) agents.
Proof.
  unfold agentEmailsOf. rewrite <- !list_elem_of_In, list_elem_of_omap. split.
  - intros ([[a|]] & Hin & Hsome); [|done].
    cbn [contact_email] in Hsome. destruct a as [|c a]; [done|].
    injection Hsome as <-. done.
  - intros [Hne Hin]. exists (mkAgentContact (Some e)). split; [done|].
    by destruct e.
Qed.

(** X21. [sendTicketCreationEmail] never throws and always reports on the
    customer's e-mail; it adds a report on the agents' e-mail exactly when
    some agent has a non-empty address, and that e-mail is one message to
    all those addresses, in the order of the agents. With the key set and
    the provider accepting, these messages, and no other, reach the
    provider. A ticket without number is announced as 'undefined'. *)
Theorem ticket_creation_email (ticket : TicketInfo) (customer : Customer)
        (agents : list AgentContact) (w : World) :
  let emails := agentEmailsOf agents in
  let number := default "undefined" (ti_ticketNumber ticket) in
  let customerMsg :=
    mkSendSmtpEmail "Expand Machinery" (BREVO_API_EMEAIL env) [c_email customer]
      ("Ticket Created - " +:+ number)
      (ticketCreatedHtml senderTemplates (APP_URL env) ticket) None None in
  let agentsMsg :=
    mkSendSmtpEmail "Expand Machinery" (BREVO_API_EMEAIL env) emails
      ("New Ticket In Your Category - " +:+ number)
      (ticketAgentsHtml senderTemplates (APP_URL env) ticket customer) None None in
  (forall e, In e emails <-> e <> "" /\ In (mkAgentContact (Some e)) agents)
  /\ exists results w',
       sendTicketCreationEmail env faults messageId senderTemplates ticket customer
                               agents w
       = (inr (Results results), w')
       /\ map fst results
          = (if bool_decide (emails = []) then ["customer"] else ["customer"; "agents"])
       /\ (Js.truthy_opt (BREVO_API_KEY env) = true ->
           faults SendTransacEmail = None ->
           outbox w'
           = (outbox w ++ customerMsg
                :: (if bool_decide (emails = []) then [] else [agentsMsg]))%list
           /\ map snd results
              = Success (messageId customerMsg)
                  :: (if bool_decide (emails = []) then []
                      else [Success (messageId agentsMsg)])).
Proof.
  clear model regex_i templates toLocaleDateString toLocaleTimeString toLocaleString
        ADMIN_EMAIL provider.
  intros emails number customerMsg agentsMsg.
  split; [apply agentEmailsOf_spec|].
  destruct (sendEmail_run env faults messageId (One (c_email customer))
              ("Ticket Created - " +:+ number)
              (ticketCreatedHtml senderTemplates (APP_URL env) ticket) None None w)
    as (r1 & w1 & Hrun1 & _ & Hok1).
  destruct (sendEmail_run env faults messageId (Many emails)
              ("New Ticket In Your Category - " +:+ number)
              (ticketAgentsHtml senderTemplates (APP_URL env) ticket customer)
              None None w1)
    as (r2 & w2 & Hrun2 & _ & Hok2).
  assert (emails = [] -> (0 <? length agents)%nat && (0 <? length emails)%nat = false)
    as Hnone by (intros ->; apply andb_false_r).
  assert (emails <> [] -> (0 <? length agents)%nat = true /\ (0 <? length emails)%nat = true)
    as Hsome.
  { intros Hne. split; [|by destruct emails].
    subst emails. destruct agents; [done|reflexivity]. }
  destruct (decide (emails = [])) as [Hemp|Hne].
  - exists [("customer", r1)], w1. rewrite !bool_decide_eq_true_2 by done.
    split; [|split; [reflexivity|]].
    + unfold sendTicketCreationEmail. apply run_try. cbv zeta.
      eapply run_bind; [exact Hrun1|]. fold emails. rewrite Hemp.
      by destruct (0 <? length agents)%nat.
    + intros Hk Hf. destruct (Hok1 Hk Hf) as [-> ->]. done.
  - exists [("customer", r1); ("agents", r2)], w2.
    rewrite !bool_decide_eq_false_2 by done.
    destruct (Hsome Hne) as [Ha He].
    split; [|split; [reflexivity|]].
    + unfold sendTicketCreationEmail. apply run_try. cbv zeta.
      eapply run_bind; [exact Hrun1|]. fold emails. rewrite Ha, He.
      eapply run_bind; [exact Hrun2|]. reflexivity.
    + intros Hk Hf. destruct (Hok1 Hk Hf) as [-> Ho1].
      destruct (Hok2 Hk Hf) as [-> Ho2]. rewrite Ho2, Ho1.
      split; [|reflexivity]. by rewrite <- app_assoc.
Qed.

(** X22. The senders that guard their recipient never throw. With
    [ADMIN_EMAIL] unset or blank, [sendTicketAdminNotify] and
    [sendAdminRegistrationEmail] report a skipped success and send nothing;
    otherwise each makes one call of [sendEmail] to the trimmed address and
    reports its result. [sendCustomerWelcomeEmail] reports the failure
    'Missing customer email' and sends nothing when the address is absent or
    empty, and otherwise makes one call of [sendEmail] to it. *)
Theorem guarded_senders (ticket : TicketInfo) (customer : Customer)
        (person : Registration) (w : World) :
  let admin := Js.trim (default "" ADMIN_EMAIL) in
  let notify := sendTicketAdminNotify env faults messageId senderTemplates ADMIN_EMAIL
                                      ticket customer w in
  let registration := sendAdminRegistrationEmail env faults messageId senderTemplates
                                                 ADMIN_EMAIL person w in
  let welcome := sendCustomerWelcomeEmail env faults messageId senderTemplates person w in
  let send_to address subject html :=
    sendEmail env faults messageId (One address) subject html None None w in
  (admin = "" -> notify = (inr Skipped, w) /\ registration = (inr Skipped, w))
  /\ (admin <> "" ->
      (exists result w',
          send_to admin
            ("New Support Ticket - " +:+ default "undefined" (ti_ticketNumber ticket))
            (adminNotifyHtml senderTemplates (APP_URL env) ticket customer)
          = (inr result, w')
          /\ notify = (inr (Delivered result), w'))
      /\ (exists result w',
             send_to admin "New Customer Registration"
               (adminRegistrationHtml senderTemplates (APP_URL env) person)
             = (inr result, w')
             /\ registration = (inr (Delivered result), w')))
  /\ (Js.truthy_opt (reg_email person) = false ->
      welcome = (inr (Delivered (Failure (ErrMessage "Missing customer email"))), w))
  /\ (forall address, reg_email person = Some address -> address <> "" ->
      exists result w',
        send_to address "Welcome to Expand Machinery"
          (customerWelcomeHtml senderTemplates (APP_URL env) (reg_name person))
        = (inr result, w')
        /\ welcome = (inr (Delivered result), w')).
Proof.
  clear model regex_i templates toLocaleDateString toLocaleTimeString toLocaleString
        provider.
  intros admin notify registration welcome send_to.
  assert (Js.trim (Js.or_else (default "" ADMIN_EMAIL) "") = admin) as E1
    by (by rewrite or_else_empty).
  assert (Js.truthy_opt (Js.trim <$> ADMIN_EMAIL) = Js.truthy admin) as E2.
  { subst admin. by destruct ADMIN_EMAIL. }
  assert (Js.truthy admin = true -> default "" (Js.trim <$> ADMIN_EMAIL) = admin) as E3.
  { subst admin. by destruct ADMIN_EMAIL. }
  split_and!.
  - intros H. subst notify registration.
    unfold sendTicketAdminNotify, sendAdminRegistrationEmail. cbv zeta.
    rewrite E1, E2, H. done.
  - intros H. assert (Js.truthy admin = true) as Ht by (by destruct admin).
    split.
    + subst notify send_to. cbv beta.
      destruct (sendEmail_run env faults messageId (One admin)
                  ("New Support Ticket - "
                     +:+ default "undefined" (ti_ticketNumber ticket))
                  (adminNotifyHtml senderTemplates (APP_URL env) ticket customer)
                  None None w) as (r & w' & Hrun & _).
      exists r, w'. split; [exact Hrun|].
      unfold sendTicketAdminNotify. apply run_try. cbv zeta. rewrite E1, Ht.
      cbn [negb]. eapply run_bind; [exact Hrun|reflexivity].
    + subst registration send_to. cbv beta.
      destruct (sendEmail_run env faults messageId (One admin)
                  "New Customer Registration"
                  (adminRegistrationHtml senderTemplates (APP_URL env) person)
                  None None w) as (r & w' & Hrun & _).
      exists r, w'. split; [exact Hrun|].
      unfold sendAdminRegistrationEmail. apply run_try. cbv zeta.
      rewrite E2, (E3 Ht), Ht. cbn [negb].
      eapply run_bind; [exact Hrun|reflexivity].
  - intros H. subst welcome. unfold sendCustomerWelcomeEmail. by rewrite H.
  - intros address Ha Hne. subst welcome send_to. cbv beta.
    destruct (sendEmail_run env faults messageId (One address)
                "Welcome to Expand Machinery"
                (customerWelcomeHtml senderTemplates (APP_URL env) (reg_name person))
                None None w) as (r & w' & Hrun & _).
    exists r, w'. split; [exact Hrun|].
    unfold sendCustomerWelcomeEmail. apply run_try. rewrite Ha.
    cbn [Js.truthy_opt default from_option id].
    assert (Js.truthy address = true) as -> by (by destruct address). cbn [negb].
    eapply run_bind; [exact Hrun|reflexivity].
Qed.

(** X23. What [sendEmail] reports and sends. With the key set and the
    provider accepting, it reports success with the provider's id and hands
    over one message: to the address given, or to every address of the array
    given, with an empty text or reply address left out. When the provider
    rejects, it reports the failure with the error's message (the error
    itself if the message is empty) and nothing counts as sent. *)
Theorem sendEmail_outcomes (to : Recipients) (subject html : string)
        (text reply : option string) (w : World) :
  let run := sendEmail env faults messageId to subject html text reply w in
  let msg :=
    mkSendSmtpEmail "Expand Machinery" (BREVO_API_EMEAIL env)
      (match to with Many l => l | One a => [a] end) subject html
      (match text with Some t => if Js.is_empty t then None else Some t | None => None end)
      (match reply with Some t => if Js.is_empty t then None else Some t | None => None end) in
  Js.truthy_opt (BREVO_API_KEY env) = true ->
  (faults SendTransacEmail = None ->
   run = (inr (Success (messageId msg)),
          add_mail msg (set_apiKeyAuth (BREVO_API_KEY env) w)))
  /\ (forall e, faults SendTransacEmail = Some e ->
        run = (inr (Failure (if Js.is_empty (message e) then ErrObject e
                             else ErrMessage (message e))),
               set_apiKeyAuth (BREVO_API_KEY env) w)
        /\ outbox run.2 = outbox w).
Proof.
  clear model regex_i templates toLocaleDateString toLocaleTimeString toLocaleString
        senderTemplates ADMIN_EMAIL provider.
  intros run msg Hk. subst run.
  assert ((if Js.truthy_opt text then text else None)
          = match text with
            | Some t => if Js.is_empty t then None else Some t
            | None => None
            end) as Et by (by destruct text as [[|]|]).
  assert ((if Js.truthy_opt reply then reply else None)
          = match reply with
            | Some t => if Js.is_empty t then None else Some t
            | None => None
            end) as Er by (by destruct reply as [[|]|]).
  unfold sendEmail, tryCatch, mbind, M_bind. rewrite run_getBrevoInstance, Hk.
  rewrite Et, Er. fold msg. unfold sendTransacEmail, external.
  split.
  - intros ->. reflexivity.
  - intros e ->. split; [|reflexivity].
    unfold throw, mret, M_ret, error_value, Js.truthy.
    by destruct (Js.is_empty (message e)).
Qed.

(** X24. On a successful [createAgent] with the mail provider and the push
    service working, the welcome e-mail goes to the address of the request,
    the push notification goes to the new agent and to no one else, and one
    entry is written to the activity log. *)
Theorem createAgent_notifies_new_agent (req : Request) (w : World) :
  (forall s, faults s = None) ->
  Js.truthy_opt (BREVO_API_KEY env) = true ->
  ~ email_taken (Body.email (body req)) (users w) ->
  (Js.truthy_opt (Body.phone (body req)) = true ->
   ~ phone_taken (normalizedPhone (default "" (Body.phone (body req)))) (users w)) ->
  Js.truthy_opt (Body.password (body req)) = true ->
  let id := fresh (dom (users w)) in
  exists w1 mail push entry,
    createAgent model env faults regex_i messageId templates req w = (inr tt, w1)
    /\ outbox w1 = (outbox w ++ [mail])%list
    /\ to mail = [Body.email (body req)]
    /\ subject mail = "Welcome to Expand Machinery - Agent Account Created"
    /\ pushed w1 = (pushed w ++ [push])%list
    /\ push_userIds push = [id]
    /\ push_agentId push = id
    /\ activityLog w1 = (activityLog w ++ [entry])%list
    /\ users w1 !! id = Some (created_user model req w).
Proof.
  clear toLocaleDateString toLocaleTimeString toLocaleString senderTemplates
        ADMIN_EMAIL provider.
  intros F Hk He Hp Hpw id. apply (findOne_email_None regex_i) in He.
  eexists _, _, _, _. split.
  { unfold createAgent. apply run_try. cbv zeta.
    eapply run_bind; [by apply run_findOne|]. rewrite He.
    eapply (run_bind _ _ w None w).
    { destruct (Js.truthy_opt (Body.phone (body req))) eqn:Hph; [|done].
      rewrite run_findOne by done. apply (findOne_phone_None regex_i) in Hp; [|done].
      by rewrite Hp. }
    rewrite Hpw. cbv [negb].
    eapply run_bind; [by apply run_create|].
    eapply run_bind; [by apply run_logActivity|].
    eapply run_bind.
    { apply run_try. eapply run_bind; [|reflexivity].
      unfold sendEmail. apply run_try.
      eapply run_bind; [rewrite run_getBrevoInstance, Hk; reflexivity|].
      eapply run_bind; [|reflexivity].
      unfold sendTransacEmail, external. rewrite F. reflexivity. }
    eapply run_bind.
    { apply run_try. unfold sendPushNotification, external. rewrite F. reflexivity. }
    reflexivity. }
  cbn [outbox pushed activityLog users add_response add_push add_mail set_apiKeyAuth
       add_activity set_users].
  split_and!; try reflexivity. apply lookup_insert_eq.
Qed.

(** X25. [getCategoryList], the database answering, changes nothing and
    answers 200 with one entry per category of the collection, carrying its
    id and its name. *)
Theorem getCategoryList_all (req : Request) (w : World) :
  faults CategoryFind = None ->
  exists data,
    getCategoryList faults req w
    = (inr tt,
       add_response
         (mkResponse 200 (JObj [("success", JBool true); ("data", JArr data)])) w)
    /\ length data = size (categories w)
    /\ (forall id c,
          categories w !! id = Some c
          <-> In (JObj [("_id", JId id); ("name", JStr (cat_name c))]) data).
Proof.
  clear model env regex_i messageId templates toLocaleDateString toLocaleTimeString
        toLocaleString senderTemplates ADMIN_EMAIL provider.
  intros F. eexists. split.
  { unfold getCategoryList. apply run_try.
    eapply run_bind; [|reflexivity].
    unfold Category_find, external. rewrite F. reflexivity. }
  split.
  - by rewrite length_map, length_map_to_list.
  - intros id c. rewrite in_map_iff. split.
    + intros H. exists (id, c). split; [done|].
      by apply list_elem_of_In, elem_of_map_to_list.
    + intros ([i [n]] & Heq & Hin). destruct c as [n']. cbn in Heq.
      injection Heq as -> ->.
      by apply list_elem_of_In, elem_of_map_to_list in Hin.
Qed.
End More.

(** * The further properties on the sample data *)

Lemma toggle_flips_isActive_witness :
  let req := request_for empty_body 4 in
  all_up UserFindById = None /\ all_up UserSave = None /\ all_up LogActivity = None
  /\ users sample_world !! 4%nat = Some cy
  /\ role cy = "agent"
  /\ exists w1 u1 r,
       toggleAgentStatus sample_model all_up sample_regex req sample_world = (inr tt, w1)
       /\ users w1 = <[4%nat := u1]> (users sample_world)
       /\ isActive u1 = Some true
       /\ message_of r = Some (JStr "Agent activated successfully").
Proof.
  intros req.
  assert (users sample_world !! 4%nat = Some cy) as Hcy by (vm_compute; reflexivity).
  do 3 (split; [reflexivity|]). split; [exact Hcy|]. split; [reflexivity|].
  destruct (toggle_flips_isActive sample_model all_up sample_regex req sample_world cy
              eq_refl eq_refl eq_refl Hcy eq_refl)
    as (w1 & u1 & r & H1 & H2 & H3 & H4 & H5 & H6 & H7 & H8 & H9 & H10 & H11 & H12
        & H13 & H14 & H15 & H16 & H17 & H18).
  exists w1, u1, r. split; [exact H1|]. split; [exact H2|]. split; [exact H3|].
  exact H17.
Defined.

Lemma toggle_twice_witness :
  let req := request_for empty_body 4 in
  all_up UserFindById = None /\ all_up UserSave = None /\ all_up LogActivity = None
  /\ users sample_world !! 4%nat = Some cy
  /\ role cy = "agent"
  /\ exists w1 w2 u2,
       toggleAgentStatus sample_model all_up sample_regex req sample_world = (inr tt, w1)
       /\ toggleAgentStatus sample_model all_up sample_regex req w1 = (inr tt, w2)
       /\ users w2 !! 4%nat = Some u2
       /\ isActive u2 = Some false.
Proof.
  intros req.
  assert (users sample_world !! 4%nat = Some cy) as Hcy by (vm_compute; reflexivity).
  do 3 (split; [reflexivity|]). split; [exact Hcy|]. split; [reflexivity|].
  destruct (toggle_twice sample_model all_up sample_regex req sample_world cy
              eq_refl eq_refl eq_refl Hcy eq_refl)
    as (w1 & w2 & u2 & H1 & H2 & H3 & H4 & _).
  exists w1, w2, u2. split; [exact H1|]. split; [exact H2|]. split; [exact H3|].
  exact H4.
Defined.

Lemma updateAgent_fields_witness :
  let req := request_for rename_body 2 in
  all_up UserFindOne_agent = None /\ all_up UserSave = None /\ all_up LogActivity = None
  /\ users sample_world !! 2%nat = Some ann
  /\ role ann = "agent"
  /\ exists w' u',
       updateAgent sample_model all_up sample_regex req sample_world = (inr tt, w')
       /\ users w' = <[2%nat := u']> (users sample_world)
       /\ name u' = "Anna Leigh"
       /\ email u' = "ann@example.com"
       /\ phone u' = "+15551234567"
       /\ password u' = "hash:a"
       /\ categoryIds u' = [7%nat; 8%nat].
Proof.
  intros req.
  assert (users sample_world !! 2%nat = Some ann) as Hann by (vm_compute; reflexivity).
  do 3 (split; [reflexivity|]). split; [exact Hann|]. split; [reflexivity|].
  destruct (updateAgent_fields sample_model all_up sample_regex req sample_world ann
              eq_refl eq_refl eq_refl Hann eq_refl)
    as (w' & u' & H1 & H2 & _ & H4 & H5 & H6 & H7 & H8 & _).
  exists w', u'. split; [exact H1|]. split; [exact H2|].
  split; [exact H4|]. split; [exact H5|]. split; [exact H6|]. split; [exact H7|].
  exact H8.
Defined.

Lemma updateAgent_nothing_given_witness :
  let req := request_for empty_body 2 in
  all_up UserFindOne_agent = None /\ all_up UserSave = None /\ all_up LogActivity = None
  /\ users sample_world !! 2%nat = Some ann
  /\ role ann = "agent"
  /\ Js.truthy (Body.firstName empty_body) && Js.truthy (Body.lastName empty_body) = false
  /\ Js.truthy (Body.email empty_body) = false
  /\ Body.phone empty_body = None
  /\ password_given (Body.password empty_body) = false
  /\ Body.categoryId empty_body = None
  /\ exists w' u',
       updateAgent sample_model all_up sample_regex req sample_world = (inr tt, w')
       /\ users w' = <[2%nat := u']> (users sample_world)
       /\ name u' = name ann /\ email u' = email ann /\ phone u' = phone ann
       /\ password u' = password ann /\ categoryIds u' = categoryIds ann.
Proof.
  intros req.
  assert (users sample_world !! 2%nat = Some ann) as Hann by (vm_compute; reflexivity).
  do 3 (split; [reflexivity|]). split; [exact Hann|]. do 6 (split; [reflexivity|]).
  destruct (updateAgent_nothing_given sample_model all_up sample_regex req sample_world
              ann eq_refl eq_refl eq_refl Hann eq_refl eq_refl eq_refl eq_refl eq_refl
              eq_refl)
    as (w' & u' & H1 & H2 & H3 & H4 & H5 & H6 & H7 & _).
  exists w', u'. split; [exact H1|]. split; [exact H2|]. split; [exact H3|].
  split; [exact H4|]. split; [exact H5|]. split; [exact H6|]. exact H7.
Defined.

Lemma updateAgent_log_ignores_password_witness :
  let req := request_for empty_body 2 in
  let req' := request_for password_only_body 2 in
  all_up UserFindOne_agent = None /\ all_up UserSave = None /\ all_up LogActivity = None
  /\ users sample_world !! 2%nat = Some ann
  /\ role ann = "agent"
  /\ params_id req' = params_id req
  /\ Body.firstName (body req') = Body.firstName (body req)
  /\ Body.lastName (body req') = Body.lastName (body req)
  /\ Body.email (body req') = Body.email (body req)
  /\ Body.phone (body req') = Body.phone (body req)
  /\ Body.categoryId (body req') = Body.categoryId (body req)
  /\ Body.password (body req') <> Body.password (body req)
  /\ exists w1 w1' entry,
       updateAgent sample_model all_up sample_regex req sample_world = (inr tt, w1)
       /\ updateAgent sample_model all_up sample_regex req' sample_world = (inr tt, w1')
       /\ activityLog w1 = (activityLog sample_world ++ [entry])%list
       /\ activityLog w1' = (activityLog sample_world ++ [entry])%list.
Proof.
  intros req req'.
  assert (users sample_world !! 2%nat = Some ann) as Hann by (vm_compute; reflexivity).
  do 3 (split; [reflexivity|]). split; [exact Hann|]. do 7 (split; [reflexivity|]).
  split; [discriminate|].
  exact (updateAgent_log_ignores_password sample_model all_up sample_regex req req'
           sample_world ann eq_refl eq_refl eq_refl Hann eq_refl eq_refl eq_refl eq_refl
           eq_refl eq_refl eq_refl).
Defined.

Lemma deleted_agent_still_fetched_witness :
  let req := request_for empty_body 2 in
  all_up UserFindOne_agent = None /\ all_up UserSave = None
  /\ all_up NotificationCreate = None /\ all_up LogActivity = None
  /\ users sample_world !! 2%nat = Some ann
  /\ role ann = "agent"
  /\ truthy_bool (isDeleted ann) = false
  /\ exists w1 u1,
       deleteAgent sample_model all_up sample_regex req sample_world = (inr tt, w1)
       /\ users w1 !! 2%nat = Some u1
       /\ isDeleted u1 = Some true
       /\ getAgent all_up sample_regex req w1
          = (inr tt, add_response (agent_response w1 2 u1) w1).
Proof.
  intros req.
  assert (users sample_world !! 2%nat = Some ann) as Hann by (vm_compute; reflexivity).
  do 4 (split; [reflexivity|]). split; [exact Hann|]. do 2 (split; [reflexivity|]).
  destruct (deleted_agent_still_fetched sample_model all_up sample_regex req sample_world
              ann eq_refl eq_refl eq_refl eq_refl Hann eq_refl eq_refl)
    as (w1 & u1 & H1 & H2 & H3 & _ & H5 & _).
  exists w1, u1. split; [exact H1|]. split; [exact H2|]. split; [exact H3|]. exact H5.
Defined.

Lemma deleteAgent_no_rollback_witness :
  let req := request_for empty_body 2 in
  notifications_down UserFindOne_agent = None /\ notifications_down UserSave = None
  /\ notifications_down NotificationCreate = Some (Error "E11000 duplicate key")
  /\ users sample_world !! 2%nat = Some ann
  /\ role ann = "agent"
  /\ truthy_bool (isDeleted ann) = false
  /\ exists w1 u1,
       deleteAgent sample_model notifications_down sample_regex req sample_world
       = (inr tt, w1)
       /\ responses w1 = (responses sample_world ++ [mkResponse 500 server_error])%list
       /\ users w1 = <[2%nat := u1]> (users sample_world)
       /\ isDeleted u1 = Some true.
Proof.
  intros req.
  assert (users sample_world !! 2%nat = Some ann) as Hann by (vm_compute; reflexivity).
  do 3 (split; [reflexivity|]). split; [exact Hann|]. do 2 (split; [reflexivity|]).
  destruct (deleteAgent_no_rollback sample_model notifications_down sample_regex req
              sample_world ann (Error "E11000 duplicate key")
              eq_refl eq_refl eq_refl Hann eq_refl eq_refl)
    as (w1 & u1 & H1 & H2 & _ & _ & H5 & H6 & _).
  exists w1, u1. split; [exact H1|]. split; [exact H2|]. split; [exact H5|]. exact H6.
Defined.

Lemma sample_not_taken :
  ~ email_taken "dee@example.com" (users sample_world)
  /\ ~ email_taken "flo@example.com" (users sample_world)
  /\ ~ phone_taken "+15550001111" (users sample_world).
Proof.
  split; [|split].
  - apply (findOne_email_None sample_regex). vm_compute. reflexivity.
  - apply (findOne_email_None sample_regex). vm_compute. reflexivity.
  - apply (findOne_phone_None sample_regex). vm_compute. reflexivity.
Qed.

Lemma createAgent_no_rollback_witness :
  let req := request_for sample_body 0 in
  log_down UserFindOne_email = None /\ log_down UserFindOne_phone = None
  /\ log_down UserCreate = None
  /\ log_down LogActivity = Some (Error "activity log unreachable")
  /\ ~ email_taken "dee@example.com" (users sample_world)
  /\ ~ phone_taken "+15550001111" (users sample_world)
  /\ Js.truthy_opt (Body.password sample_body) = true
  /\ exists w1,
       createAgent sample_model configured_env log_down sample_regex sample_messageId
                   sample_templates req sample_world = (inr tt, w1)
       /\ users w1 !! 5%nat = Some (created_user sample_model req sample_world)
       /\ outbox w1 = []
       /\ createAgent sample_model configured_env log_down sample_regex sample_messageId
                      sample_templates req w1
          = (inr tt,
             add_response
               (mkResponse 400 (just_message "User with this email already exists")) w1).
Proof.
  intros req. destruct sample_not_taken as (He & _ & Hp).
  do 4 (split; [reflexivity|]). split; [exact He|]. split; [exact Hp|].
  split; [reflexivity|].
  destruct (createAgent_no_rollback sample_model configured_env log_down sample_regex
              sample_messageId sample_templates req sample_world
              (Error "activity log unreachable")
              eq_refl eq_refl eq_refl eq_refl He (fun _ => Hp) eq_refl)
    as (w1 & H1 & _ & H3 & H4 & _ & H6).
  exists w1. split; [exact H1|]. split.
  { rewrite H3. vm_compute. reflexivity. }
  split; [exact H4|]. exact H6.
Defined.

Lemma createAgent_twice_witness :
  let req := request_for sample_body 0 in
  all_up UserFindOne_email = None /\ all_up UserFindOne_phone = None
  /\ all_up UserCreate = None /\ all_up LogActivity = None
  /\ ~ email_taken "dee@example.com" (users sample_world)
  /\ ~ phone_taken "+15550001111" (users sample_world)
  /\ Js.truthy_opt (Body.password sample_body) = true
  /\ exists w1 w2,
       createAgent sample_model sample_env all_up sample_regex sample_messageId
                   sample_templates req sample_world = (inr tt, w1)
       /\ createAgent sample_model sample_env all_up sample_regex sample_messageId
                      sample_templates req w1 = (inr tt, w2)
       /\ users w2 = users w1
       /\ size (users w1) = 5%nat.
Proof.
  intros req. destruct sample_not_taken as (He & _ & Hp).
  do 4 (split; [reflexivity|]). split; [exact He|]. split; [exact Hp|].
  split; [reflexivity|].
  destruct (createAgent_twice sample_model sample_env all_up sample_regex
              sample_messageId sample_templates req sample_world
              eq_refl eq_refl eq_refl eq_refl He (fun _ => Hp) eq_refl)
    as (w1 & w2 & H1 & _ & H3 & _ & H5 & H6).
  exists w1, w2. split; [exact H1|]. split; [exact H3|]. split; [exact H5|].
  rewrite H6. vm_compute. reflexivity.
Defined.

Lemma created_agent_listed_witness :
  let req := request_for sample_body 0 in
  all_up UserFindOne_email = None /\ all_up UserFindOne_phone = None
  /\ all_up UserCreate = None /\ all_up LogActivity = None
  /\ ~ email_taken "dee@example.com" (users sample_world)
  /\ ~ phone_taken "+15550001111" (users sample_world)
  /\ Js.truthy_opt (Body.password sample_body) = true
  /\ default_isDeleted sample_model = Some false
  /\ exists w1 u1,
       createAgent sample_model sample_env all_up sample_regex sample_messageId
                   sample_templates req sample_world = (inr tt, w1)
       /\ In (5%nat, u1) (select sample_regex (exportQuery "") (users w1))
       /\ In (5%nat, u1) (select sample_regex (listQuery "") (users w1)).
Proof.
  intros req. destruct sample_not_taken as (He & _ & Hp).
  do 4 (split; [reflexivity|]). split; [exact He|]. split; [exact Hp|].
  do 2 (split; [reflexivity|]).
  destruct (created_agent_listed sample_model sample_env all_up sample_regex
              sample_messageId sample_templates req sample_world
              eq_refl eq_refl eq_refl eq_refl He (fun _ => Hp) eq_refl)
    as (w1 & u1 & H1 & _ & H3 & H4).
  exists w1, u1. split; [exact H1|].
  change (fresh (dom (users sample_world))) with 5%nat in H3, H4.
  split; [exact H3|]. by apply H4.
Defined.

Lemma duplicate_phone_detected_witness :
  let req := request_for sample_body 0 in
  let req2 := request_for same_phone_body 0 in
  (forall d, String.length d = 10%nat -> normalizePhone sample_model d = "+1" +:+ d)
  /\ all_up UserFindOne_email = None /\ all_up UserFindOne_phone = None
  /\ all_up UserCreate = None /\ all_up LogActivity = None
  /\ ~ email_taken "dee@example.com" (users sample_world)
  /\ ~ email_taken "flo@example.com" (users sample_world)
  /\ Body.email same_phone_body <> Body.email sample_body
  /\ Body.phone sample_body = Some "(555) 000-1111"
  /\ Body.phone same_phone_body = Some "555.000.1111"
  /\ String.length (Js.digits_only "(555) 000-1111") = 10%nat
  /\ Js.digits_only "555.000.1111" = Js.digits_only "(555) 000-1111"
  /\ ~ phone_taken "+15550001111" (users sample_world)
  /\ Js.truthy_opt (Body.password sample_body) = true
  /\ exists w1,
       createAgent sample_model sample_env all_up sample_regex sample_messageId
                   sample_templates req sample_world = (inr tt, w1)
       /\ createAgent sample_model sample_env all_up sample_regex sample_messageId
                      sample_templates req2 w1
          = (inr tt,
             add_response
               (mkResponse 400
                  (just_message "User with this phone number already exists")) w1).
Proof.
  intros req req2. destruct sample_not_taken as (He & He2 & Hp).
  assert (forall d, String.length d = 10%nat ->
                    normalizePhone sample_model d = "+1" +:+ d) as Hhook.
  { intros d Hd. cbn [normalizePhone sample_model]. by rewrite Hd. }
  split; [exact Hhook|]. do 4 (split; [reflexivity|]).
  split; [exact He|]. split; [exact He2|]. split; [discriminate|].
  do 4 (split; [reflexivity|]). split; [exact Hp|]. split; [reflexivity|].
  destruct (duplicate_phone_detected sample_model sample_env all_up sample_regex
              sample_messageId sample_templates req req2 sample_world
              "(555) 000-1111" "555.000.1111" Hhook
              eq_refl eq_refl eq_refl eq_refl He He2 ltac:(discriminate)
              eq_refl eq_refl eq_refl eq_refl Hp eq_refl)
    as (w1 & H1 & _ & H3).
  exists w1. split; [exact H1|exact H3].
Defined.

Lemma stored_names_trimmed_witness :
  let req := request_for padded_body 2 in
  all_up UserFindOne_email = None /\ all_up UserFindOne_phone = None
  /\ all_up UserCreate = None /\ all_up LogActivity = None
  /\ all_up UserFindOne_agent = None /\ all_up UserSave = None
  /\ ~ email_taken "dee@example.com" (users sample_world)
  /\ Js.truthy_opt (Body.phone padded_body) = false
  /\ Js.truthy_opt (Body.password padded_body) = true
  /\ users sample_world !! 2%nat = Some ann /\ role ann = "agent"
  /\ Js.truthy (Body.firstName padded_body) && Js.truthy (Body.lastName padded_body)
     = true
  /\ starts_with_ws (Body.firstName padded_body) = true
  /\ ends_with_ws (Body.lastName padded_body) = true
  /\ (exists w1 u1,
         createAgent sample_model sample_env all_up sample_regex sample_messageId
                     sample_templates req sample_world = (inr tt, w1)
         /\ users w1 !! 5%nat = Some u1
         /\ starts_with_ws (name u1) = false /\ ends_with_ws (name u1) = false)
  /\ (exists w1 u1,
         updateAgent sample_model all_up sample_regex req sample_world = (inr tt, w1)
         /\ users w1 !! 2%nat = Some u1
         /\ starts_with_ws (name u1) = false /\ ends_with_ws (name u1) = false).
Proof.
  intros req. destruct sample_not_taken as (He & _ & _).
  assert (users sample_world !! 2%nat = Some ann) as Hann by (vm_compute; reflexivity).
  do 6 (split; [reflexivity|]). split; [exact He|]. do 2 (split; [reflexivity|]).
  split; [exact Hann|]. do 4 (split; [reflexivity|]).
  destruct (stored_names_trimmed sample_model sample_env all_up sample_regex
              sample_messageId sample_templates req sample_world)
    as (Hcreate & Hupdate & _).
  split.
  - destruct (Hcreate eq_refl eq_refl eq_refl eq_refl He
                ltac:(intros H; discriminate H) eq_refl)
      as (w1 & u1 & Hrun & Hu1 & Hs & Hend).
    exists w1, u1. split; [exact Hrun|]. split; [exact Hu1|]. split; [exact Hs|exact Hend].
  - destruct (Hupdate ann eq_refl eq_refl eq_refl Hann eq_refl eq_refl)
      as (w1 & u1 & Hrun & Hu1 & Hs & Hend).
    exists w1, u1. split; [exact Hrun|]. split; [exact Hu1|]. split; [exact Hs|exact Hend].
Defined.

Lemma name_parts_recombine_witness :
  contains_space "Ann Mary Lee" = true
  /\ "Ann Mary Lee" = firstNameOf "Ann Mary Lee" +:+ " " +:+ lastNameOf "Ann Mary Lee"
  /\ contains_space "Cher" = false
  /\ firstNameOf "Cher" = "Cher" /\ lastNameOf "Cher" = "".
Proof.
  split; [reflexivity|].
  split; [exact (proj2 (proj2 (name_parts_recombine "Ann Mary Lee")) eq_refl)|].
  split; [reflexivity|].
  exact (proj1 (proj2 (name_parts_recombine "Cher")) eq_refl).
Defined.

Lemma page_and_limit_never_zero_witness :
  let req := query_request None (Some "-5") None in
  let req' := query_request (Some "-1") None None in
  let found := select sample_regex (listQuery "") (users sample_world) in
  all_up UserCountDocuments = None /\ all_up UserFind = None
  /\ page_of req = 1 /\ limit_of req = -5
  /\ page_of req' = -1 /\ limit_of req' = 10
  /\ safe_integer (-5) /\ safe_integer 10 /\ safe_integer (-20)
  /\ safe_integer (Z.of_nat (length found))
  /\ (exists r page,
         getAgentsList all_up sample_regex req sample_world
         = (inr tt, add_response r sample_world)
         /\ code r = 200
         /\ data_of r = Some (map (shown sample_world) page)
         /\ Z.of_nat (length page) <= 5)
  /\ getAgentsList all_up sample_regex req' sample_world
     = (inr tt, add_response (mkResponse 500 server_error) sample_world).
Proof.
  intros req req' found.
  assert (safe_integer (Z.of_nat (length found))) as St by (by vm_compute).
  do 6 (split; [reflexivity|]). do 3 (split; [by vm_compute|]). split; [exact St|].
  split.
  - destruct (page_and_limit_never_zero all_up sample_regex req sample_world)
      as (_ & _ & Hrun).
    destruct (Hrun eq_refl eq_refl ltac:(by vm_compute) ltac:(by vm_compute)
                ltac:(by vm_compute) St) as (_ & Hpos).
    destruct (Hpos ltac:(by vm_compute)) as (r & page & n & H1 & H2 & H3 & H4 & H5 & _).
    exists r, page. split; [exact H1|]. split; [exact H2|]. split; [exact H3|].
    rewrite H4, length_take. change (Z.abs (limit_of req)) with 5 in H5. lia.
  - destruct (page_and_limit_never_zero all_up sample_regex req' sample_world)
      as (_ & _ & Hrun).
    destruct (Hrun eq_refl eq_refl ltac:(by vm_compute) ltac:(by vm_compute)
                ltac:(by vm_compute) St) as (Hneg & _).
    apply Hneg. by vm_compute.
Defined.

Lemma page_sizes_witness :
  let req := query_request (Some "2") (Some "1") None in
  let found := select sample_regex (listQuery (search_of req)) (users sample_world) in
  all_up UserCountDocuments = None /\ all_up UserFind = None
  /\ 1 <= page_of req /\ 1 <= limit_of req
  /\ safe_integer (page_of req) /\ safe_integer (limit_of req)
  /\ safe_integer ((page_of req - 1) * limit_of req)
  /\ safe_integer (Z.of_nat (length found))
  /\ Js.ceil_div (Z.of_nat (length found)) (limit_of req) = 2
  /\ exists r data,
       getAgentsList all_up sample_regex req sample_world
       = (inr tt, add_response r sample_world)
       /\ data_of r = Some data
       /\ Z.of_nat (length data) = 1.
Proof.
  intros req found.
  assert (1 <= page_of req) as Hp by (by vm_compute).
  assert (1 <= limit_of req) as Hl by (by vm_compute).
  assert (safe_integer (page_of req)) as Sp by (by vm_compute).
  assert (safe_integer (limit_of req)) as Sl by (by vm_compute).
  assert (safe_integer ((page_of req - 1) * limit_of req)) as Ss by (by vm_compute).
  assert (safe_integer (Z.of_nat (length found))) as St by (by vm_compute).
  assert (Js.ceil_div (Z.of_nat (length found)) (limit_of req) = 2) as Htp
    by (vm_compute; reflexivity).
  do 2 (split; [reflexivity|]). split; [exact Hp|]. split; [exact Hl|].
  split; [exact Sp|]. split; [exact Sl|]. split; [exact Ss|]. split; [exact St|].
  split; [exact Htp|].
  destruct (page_sizes all_up sample_regex req sample_world eq_refl eq_refl
              Hp Hl Sp Sl Ss St) as (r & data & Hrun & _ & Hdata & _ & _ & Hlast & _).
  exists r, data. split; [exact Hrun|]. split; [exact Hdata|].
  destruct Hlast as [Hlen _].
  - fold found. rewrite Htp. reflexivity.
  - rewrite Hlen. vm_compute. reflexivity.
Defined.

Lemma pages_cover_witness :
  let found := select sample_regex (listQuery "") (users sample_world) in
  all_up UserCountDocuments = None /\ all_up UserFind = None
  /\ 1 <= 1
  /\ safe_integer 1
  /\ safe_integer (Z.of_nat (length found))
  /\ NoDup (map (fun a : nat * User => createdAt a.2) found)
  /\ Z.to_nat (Js.ceil_div (Z.of_nat (length found)) 1) = 2%nat
  /\ (forall k, (k < 2)%nat ->
        page_of (page_requests k) = Z.of_nat (S k) /\ limit_of (page_requests k) = 1
        /\ search_of (page_requests k) = "")
  /\ getAgentsList all_up sample_regex (page_requests 1) sample_world
     = (inr tt,
        add_response (list_response sample_regex (page_requests 1) sample_world)
                     sample_world)
  /\ (default [] (data_of (list_response sample_regex (page_requests 0) sample_world))
       ++ default [] (data_of (list_response sample_regex (page_requests 1)
                                            sample_world)))%list
     = map (shown sample_world) [(4%nat, cy); (2%nat, ann)].
Proof.
  intros found.
  assert (safe_integer 1) as Sl by (by vm_compute).
  assert (safe_integer (Z.of_nat (length found))) as St by (by vm_compute).
  assert (NoDup (map (fun a : nat * User => createdAt a.2) found)) as Hnd.
  { apply (bool_decide_unpack _). vm_compute. exact I. }
  assert (Z.to_nat (Js.ceil_div (Z.of_nat (length found)) 1) = 2%nat) as Htp
    by (vm_compute; reflexivity).
  assert (forall k, (k < 2)%nat ->
            page_of (page_requests k) = Z.of_nat (S k) /\ limit_of (page_requests k) = 1
            /\ search_of (page_requests k) = "") as Hreqs.
  { intros [|[|k]] Hk; [by vm_compute|by vm_compute|lia]. }
  do 2 (split; [reflexivity|]). split; [done|]. split; [exact Sl|]. split; [exact St|].
  split; [exact Hnd|]. split; [exact Htp|]. split; [exact Hreqs|].
  destruct (pages_cover all_up sample_regex page_requests sample_world 1 ""
              eq_refl eq_refl ltac:(done) Sl St Hnd)
    as (Hruns & Hcat & _).
  - fold found. rewrite Htp. exact Hreqs.
  - fold found in Hruns, Hcat. rewrite Htp in Hruns, Hcat.
    split; [exact (proj1 (Hruns 1%nat ltac:(lia)))|].
    cbn [seq map concat] in Hcat. rewrite app_nil_r in Hcat. rewrite Hcat.
    vm_compute. reflexivity.
Defined.

Lemma password_reset_email_errors_witness :
  let quota := sendPasswordResetEmail configured_env sample_senderTemplates quota_provider
                 "ann@example.com" "tok" "https://example.com/reset/tok" sample_world in
  let leak := sendPasswordResetEmail configured_env sample_senderTemplates leaking_provider
                "ann@example.com" "tok" "https://example.com/reset/tok" sample_world in
  Js.truthy_opt (BREVO_API_KEY sample_env) = false
  /\ Js.truthy_opt (BREVO_API_KEY configured_env) = true
  /\ sendPasswordResetEmail sample_env sample_senderTemplates accepting_provider
       "ann@example.com" "tok" "https://example.com/reset/tok" sample_world
     = (inl not_configured, sample_world)
  /\ quota.1 = inl quota_exceeded
  /\ leak.1 = inl not_configured
  /\ outbox leak.2 = outbox sample_world.
Proof.
  intros quota leak. do 2 (split; [reflexivity|]).
  split.
  { exact (proj1 (password_reset_email_errors sample_env sample_senderTemplates
                    accepting_provider "ann@example.com" "tok"
                    "https://example.com/reset/tok" sample_world) eq_refl). }
  split.
  { destruct (password_reset_email_errors configured_env sample_senderTemplates
                quota_provider "ann@example.com" "tok"
                "https://example.com/reset/tok" sample_world) as (_ & H & _).
    destruct (H eq_refl) as (_ & He).
    destruct (He _ eq_refl) as (Hq & _). apply Hq. right. reflexivity. }
  destruct (password_reset_email_errors configured_env sample_senderTemplates
              leaking_provider "ann@example.com" "tok"
              "https://example.com/reset/tok" sample_world) as (_ & H & Hall).
  destruct (H eq_refl) as (_ & He).
  destruct (He _ eq_refl) as (_ & Hother).
  assert (leak.1 = inl not_configured) as Hleak.
  { apply (Hother ltac:(discriminate) ltac:(discriminate)). }
  split; [exact Hleak|]. exact (proj2 (Hall _ Hleak)).
Defined.

Lemma app_senders_witness :
  let msg := mkSendSmtpEmail "Expand Machinery" (Some "hello@expand.shabad-guru.org")
               ["ann@example.com"] "Verify Your Email - Expand Machinery App"
               "<b>123456</b>" None None in
  let down := sendAppPasswordResetEmail configured_env mail_down sample_messageId
                sample_senderTemplates "ann@example.com" "123456" sample_world in
  Js.truthy_opt (BREVO_API_KEY configured_env) = true
  /\ all_up SendTransacEmail = None
  /\ mail_down SendTransacEmail <> None
  /\ sendEmailVerificationOtp configured_env all_up sample_messageId
       sample_senderTemplates (Some "Ann") "ann@example.com" "123456" sample_world
     = (inr (sample_messageId msg),
        add_mail msg (set_apiKeyAuth (BREVO_API_KEY configured_env) sample_world))
  /\ down.1 = inl (Error "Failed to send app password reset email")
  /\ outbox down.2 = outbox sample_world.
Proof.
  intros msg down. split; [reflexivity|]. split; [reflexivity|].
  split; [discriminate|].
  split.
  { destruct (app_senders configured_env all_up sample_messageId sample_senderTemplates
                (Some "Ann") "ann@example.com" "123456" sample_world)
      as (_ & (Hok & _) & _).
    exact (Hok eq_refl eq_refl). }
  destruct (app_senders configured_env mail_down sample_messageId sample_senderTemplates
              (Some "Ann") "ann@example.com" "123456" sample_world)
    as (_ & _ & (_ & Hbad)).
  apply Hbad. right. discriminate.
Defined.

Lemma ticket_creation_email_witness :
  Js.truthy_opt (BREVO_API_KEY configured_env) = true
  /\ all_up SendTransacEmail = None
  /\ agentEmailsOf sample_agents = ["ann@example.com"; "cy@example.com"]
  /\ exists results w',
       sendTicketCreationEmail configured_env all_up sample_messageId
         sample_senderTemplates sample_ticketInfo sample_customer sample_agents
         sample_world = (inr (Results results), w')
       /\ map fst results = ["customer"; "agents"]
       /\ map to (outbox w') = [["pat@example.com"]; ["ann@example.com"; "cy@example.com"]].
Proof.
  do 2 (split; [reflexivity|]). split; [reflexivity|].
  destruct (ticket_creation_email configured_env all_up sample_messageId
              sample_senderTemplates sample_ticketInfo sample_customer sample_agents
              sample_world) as (_ & results & w' & Hrun & Hkeys & Hsent).
  exists results, w'. split; [exact Hrun|]. split; [exact Hkeys|].
  destruct (Hsent eq_refl eq_refl) as (Hout & _). rewrite Hout. reflexivity.
Defined.

Lemma guarded_senders_witness :
  Js.trim (default "" (Some "   ")) = ""
  /\ Js.trim (default "" (Some " admin@example.com ")) <> ""
  /\ Js.truthy_opt (reg_email (mkRegistration (Some "Pat") (Some "") None)) = false
  /\ sendTicketAdminNotify configured_env all_up sample_messageId sample_senderTemplates
       (Some "   ") sample_ticketInfo sample_customer sample_world
     = (inr Skipped, sample_world)
  /\ (exists result w',
         sendEmail configured_env all_up sample_messageId (One "admin@example.com")
           "New Customer Registration"
           (adminRegistrationHtml sample_senderTemplates (APP_URL configured_env)
                                  sample_person) None None sample_world
         = (inr result, w')
         /\ sendAdminRegistrationEmail configured_env all_up sample_messageId
              sample_senderTemplates (Some " admin@example.com ") sample_person
              sample_world = (inr (Delivered result), w'))
  /\ sendCustomerWelcomeEmail configured_env all_up sample_messageId
       sample_senderTemplates (mkRegistration (Some "Pat") (Some "") None) sample_world
     = (inr (Delivered (Failure (ErrMessage "Missing customer email"))), sample_world).
Proof.
  split; [reflexivity|]. split; [discriminate|]. split; [reflexivity|].
  split.
  { destruct (guarded_senders configured_env all_up sample_messageId
                sample_senderTemplates (Some "   ") sample_ticketInfo sample_customer
                sample_person sample_world) as (Hskip & _).
    exact (proj1 (Hskip eq_refl)). }
  split.
  { destruct (guarded_senders configured_env all_up sample_messageId
                sample_senderTemplates (Some " admin@example.com ") sample_ticketInfo
                sample_customer sample_person sample_world) as (_ & Hsend & _).
    exact (proj2 (Hsend ltac:(discriminate))). }
  destruct (guarded_senders configured_env all_up sample_messageId
              sample_senderTemplates None sample_ticketInfo sample_customer
              (mkRegistration (Some "Pat") (Some "") None) sample_world)
    as (_ & _ & Hmissing & _).
  exact (Hmissing eq_refl).
Defined.

Lemma sendEmail_outcomes_witness :
  let run := sendEmail configured_env mail_down sample_messageId
               (Many ["ann@example.com"; "cy@example.com"]) "Hello" "<p>Hello</p>"
               (Some "") (Some "reply@example.com") sample_world in
  Js.truthy_opt (BREVO_API_KEY configured_env) = true
  /\ mail_down SendTransacEmail = Some (Error "ECONNREFUSED")
  /\ run.1 = inr (Failure (ErrMessage "ECONNREFUSED"))
  /\ outbox run.2 = outbox sample_world.
Proof.
  intros run. do 2 (split; [reflexivity|]).
  destruct (sendEmail_outcomes configured_env mail_down sample_messageId
              (Many ["ann@example.com"; "cy@example.com"]) "Hello" "<p>Hello</p>"
              (Some "") (Some "reply@example.com") sample_world eq_refl)
    as (_ & Hdown).
  destruct (Hdown _ eq_refl) as (Hrun & Hout).
  split; [|exact Hout]. fold run in Hrun. rewrite Hrun. reflexivity.
Defined.

Lemma createAgent_notifies_new_agent_witness :
  let req := request_for sample_body 0 in
  (forall s, all_up s = None)
  /\ Js.truthy_opt (BREVO_API_KEY configured_env) = true
  /\ ~ email_taken "dee@example.com" (users sample_world)
  /\ ~ phone_taken "+15550001111" (users sample_world)
  /\ Js.truthy_opt (Body.password sample_body) = true
  /\ exists w1 mail push,
       createAgent sample_model configured_env all_up sample_regex sample_messageId
                   sample_templates req sample_world = (inr tt, w1)
       /\ outbox w1 = [mail] /\ to mail = ["dee@example.com"]
       /\ pushed w1 = [push] /\ push_userIds push = [5%nat]
       /\ length (activityLog w1) = 1%nat.
Proof.
  intros req. destruct sample_not_taken as (He & _ & Hp).
  split; [reflexivity|]. split; [reflexivity|]. split; [exact He|]. split; [exact Hp|].
  split; [reflexivity|].
  destruct (createAgent_notifies_new_agent sample_model configured_env all_up sample_regex
              sample_messageId sample_templates req sample_world
              (fun _ => eq_refl) eq_refl He (fun _ => Hp) eq_refl)
    as (w1 & mail & push & entry & H1 & H2 & H3 & _ & H5 & H6 & _ & H8 & _).
  exists w1, mail, push. split; [exact H1|]. split; [exact H2|]. split; [exact H3|].
  split; [exact H5|]. split; [exact H6|]. rewrite H8. reflexivity.
Defined.

Lemma getCategoryList_all_witness :
  all_up CategoryFind = None
  /\ exists data,
       getCategoryList all_up (request_for empty_body 0) sample_world
       = (inr tt,
          add_response
            (mkResponse 200 (JObj [("success", JBool true); ("data", JArr data)]))
            sample_world)
       /\ length data = 1%nat
       /\ In (JObj [("_id", JId 7); ("name", JStr "Hydraulics")]) data.
Proof.
  split; [reflexivity|].
  destruct (getCategoryList_all all_up (request_for empty_body 0) sample_world eq_refl)
    as (data & Hrun & Hlen & Hin).
  exists data. split; [exact Hrun|]. split; [rewrite Hlen; vm_compute; reflexivity|].
  apply (Hin 7%nat (mkCategory "Hydraulics")). vm_compute. reflexivity.
Defined.
